(** * stock_analysis: the report importer and the home-page analytics

    A shallow embedding of
    - [stocks/management/commands/import_reports.py] (the helper functions
      and [Command.handle]),
    - the field normalisation of [stocks/models.py], and
    - the queries of [stocks/views.py] ([HomeView.get_context_data] and
      [HomeView._build_price_series]),
    with the properties the specification states about them.

    Conventions of the embedding.
    - Python [str] values are Rocq [string]s, that is, strings of 8-bit
      characters; the character classes ([\d], [\s], [str.upper]) are the
      ASCII ones.
    - A document is a parsed JSON [value]; a JSON object keeps its members
      in insertion order, as a Python [dict] does.
    - [Decimal] numbers are rationals ([Q]); an instant is an integer number
      of microseconds ([Z]).
    - Library functions the repository calls but does not define
      ([Decimal(...)] on a string, [datetime.strptime] followed by
      [timezone.make_aware], [str(...)] on a non-string, [timezone.now])
      are variables of the sections below.
    - A Python exception is the [Raise] of the [result] monad. *)

From Stdlib Require Import ZArith QArith Qminmax String Ascii List Lia.
From stdpp Require Import base option list gmap sorting strings.

Set Warnings "-register-all,-clear-no-such-hyp,-notation-for-abbreviation".
Local Open Scope string_scope.
Local Open Scope Z_scope.
Local Open Scope list_scope.

(** ** Exceptions *)

Inductive exn : Set :=
| ValueError        (* parse_ticker_region, datetime.strptime *)
| InvalidOperation  (* decimal.InvalidOperation, from Decimal(...) *)
| AttributeError    (* .get / .split on an object that has none *)
| TypeError         (* iterating a non-iterable, strptime on a non-string *)
| KeyError
| CommandError.     (* raised by handle itself *)

Inductive result (A : Type) : Type :=
| Ok (a : A)
| Raise (e : exn).
Arguments Ok {A} a.
Arguments Raise {A} e.

Definition bind {A B} (r : result A) (k : A -> result B) : result B :=
  match r with
  | Ok a => k a
  | Raise e => Raise e
  end.

Notation "x <- r ;; k" := (bind r (fun x => k))
  (at level 100, r at next level, right associativity,
   format "'[v' x  <-  r  ;;  '/' k ']'").

(** ** JSON values *)

Inductive value : Type :=
| VNull
| VBool (b : bool)
| VNum (q : Q)
| VStr (s : string)
| VList (l : list value)
| VDict (d : list (string * value)).

(** [v in ("", None)] *)
Definition is_empty (v : value) : bool :=
  match v with
  | VNull => true
  | VStr s => if decide (s = "") then true else false
  | _ => false
  end.

(** Python truth value, as [x or default] and [if text] test it. *)
Definition truthy (v : value) : bool :=
  match v with
  | VNull => false
  | VBool b => b
  | VNum q => negb (Qeq_bool q 0)
  | VStr s => if decide (s = "") then false else true
  | VList l => match l with [] => false | _ => true end
  | VDict d => match d with [] => false | _ => true end
  end.

(** [dict.get(key, default)] on the members of an object. *)
Fixpoint dict_get (d : list (string * value)) (key : string) (default : value) : value :=
  match d with
  | [] => default
  | (k, v) :: rest => if decide (k = key) then v else dict_get rest key default
  end.

(** [item.get(key, default) or default] *)
Definition get_or (d : list (string * value)) (key : string) (default : value) : value :=
  let v := dict_get d key default in
  if truthy v then v else default.

(** ** Characters and regular expressions *)

Definition LF : ascii := ascii_of_nat 10.

Definition is_digit (c : ascii) : bool :=
  let n := nat_of_ascii c in ((48 <=? n) && (n <=? 57))%nat.

Definition digit_val (c : ascii) : Z := Z.of_nat (nat_of_ascii c) - 48.

(** [str.isspace] on an ASCII character: TAB, LF, VT, FF, CR, FS, GS, RS,
    US and the space. *)
Definition is_space (c : ascii) : bool :=
  let n := nat_of_ascii c in
  (((9 <=? n) && (n <=? 13)) || ((28 <=? n) && (n <=? 32)))%nat.

(** [str.upper] on an ASCII character. *)
Definition upper_char (c : ascii) : ascii :=
  let n := nat_of_ascii c in
  if ((97 <=? n) && (n <=? 122))%nat then ascii_of_nat (n - 32) else c.

(** A literal of a pattern: the rest of [s] after the prefix [p]. *)
Fixpoint lit (p s : string) : option string :=
  match p with
  | EmptyString => Some s
  | String a p' =>
      match s with
      | String b s' => if decide (a = b) then lit p' s' else None
      | EmptyString => None
      end
  end.

(** [\d{n}]: the value of [n] decimal digits (after [acc]) and the rest. *)
Fixpoint digits (n : nat) (acc : Z) (s : string) : option (Z * string) :=
  match n with
  | O => Some (acc, s)
  | S n' =>
      match s with
      | String c s' =>
          if is_digit c then digits n' (10 * acc + digit_val c) s' else None
      | EmptyString => None
      end
  end.

(** [$] without [re.MULTILINE]: the end of the string, or just before a
    newline that ends the string. *)
Definition dollar (s : string) : bool :=
  match s with
  | EmptyString => true
  | String c EmptyString => if decide (c = LF) then true else false
  | _ => false
  end.

(** The tail [lit$] of a pattern. *)
Definition ends (p s : string) : bool :=
  match lit p s with
  | Some t => dollar t
  | None => false
  end.

(** [EPS_YEAR_RE = ^(?P<year>20\d{2})(?:E)?_EPS$]; the result is
    [int(m.group("year"))]. *)
Definition EPS_YEAR_RE (key : string) : option Z :=
  match lit "20" key with
  | Some r =>
      match digits 2 20 r with
      | Some (year, t) =>
          let with_E := match lit "E" t with Some t' => ends "_EPS" t' | None => false end in
          if with_E || ends "_EPS" t then Some year else None
      | None => None
      end
  | None => None
  end.

(** [EPS_CODE_RE = ^(?P<code>\d{3})_EPS$]; the result is
    [int(m.group("code"))]. *)
Definition EPS_CODE_RE (key : string) : option Z :=
  match digits 3 0 key with
  | Some (code, t) => if ends "_EPS" t then Some code else None
  | None => None
  end.

Definition extract_eps_year (key : string) : option Z :=
  match EPS_YEAR_RE key with
  | Some year => Some year
  | None =>
      match EPS_CODE_RE key with
      | Some code => Some (code + 1700)
      | None => None
      end
  end.

(** [re.match(r"^20\d{2}E_EPS$", key)] and its two siblings. *)
Definition re_year_E (key : string) : bool :=
  match lit "20" key with
  | Some r => match digits 2 20 r with Some (_, t) => ends "E_EPS" t | None => false end
  | None => false
  end.

Definition re_year_plain (key : string) : bool :=
  match lit "20" key with
  | Some r => match digits 2 20 r with Some (_, t) => ends "_EPS" t | None => false end
  | None => false
  end.

Definition re_code (key : string) : bool :=
  match digits 3 0 key with
  | Some (_, t) => ends "_EPS" t
  | None => false
  end.

Definition eps_priority (key : string) : Z :=
  if re_year_E key then 3
  else if re_year_plain key then 2
  else if re_code key then 1
  else 0.

(** ** Strings *)

(** [str.lstrip()], [str.rstrip()], [str.strip()] *)
Fixpoint lstrip (s : string) : string :=
  match s with
  | String c s' => if is_space c then lstrip s' else s
  | EmptyString => EmptyString
  end.

Fixpoint rstrip (s : string) : string :=
  match s with
  | String c s' =>
      match rstrip s' with
      | EmptyString => if is_space c then EmptyString else String c EmptyString
      | r => String c r
      end
  | EmptyString => EmptyString
  end.

Definition strip (s : string) : string := rstrip (lstrip s).

(** [str.upper()] *)
Fixpoint upper (s : string) : string :=
  match s with
  | String c s' => String (upper_char c) (upper s')
  | EmptyString => EmptyString
  end.

(** [str.split()]: the maximal runs of characters that are not spaces;
    [tok] is the run being read. *)
Fixpoint split_from (s tok : string) : list string :=
  match s with
  | String c s' =>
      if is_space c
      then (if decide (tok = "") then split_from s' "" else tok :: split_from s' "")
      else split_from s' (tok +:+ String c "")
  | EmptyString => if decide (tok = "") then [] else [tok]
  end.

Definition split (s : string) : list string := split_from s "".

(** [re.compile(r"\s+").sub("_", s)]; [in_ws] tells that the previous
    character was a space. *)
Fixpoint ws_sub (s : string) (in_ws : bool) : string :=
  match s with
  | String c s' =>
      if is_space c
      then (if in_ws then ws_sub s' true else String "_" (ws_sub s' true))
      else String c (ws_sub s' false)
  | EmptyString => EmptyString
  end.

(** ** Model fields ([stocks/models.py]) *)

(** [UppercaseCharField.normalize] on a string. *)
Definition UppercaseCharField_normalize (s : string) : string :=
  if decide (s = "") then s else upper (strip s).

(** [NormalizedRatingField.normalize] on a string. *)
Definition NormalizedRatingField_normalize (s : string) : string :=
  if decide (s = "") then s else ws_sub (upper (strip s)) false.

(** ** Decimal columns ([models.DecimalField]) *)

(** The nearest integer, the even one of two that are as near
    ([ROUND_HALF_EVEN], the rounding of the default context of
    [decimal]). *)
Definition round_half_even (q : Q) : Z :=
  let n := Qnum q in
  let d := Z.pos (Qden q) in
  let k := n / d in
  let r := n mod d in
  if 2 * r <? d then k
  else if d <? 2 * r then k + 1
  else if Z.even k then k else k + 1.

(** What a [DecimalField(max_digits, decimal_places)] stores for [q]: the
    save prepares the value with
    [q.quantize(Decimal(1).scaleb(-decimal_places), context)], where
    [context.prec = max_digits]
    ([django.db.backends.utils.format_number]); [quantize] raises
    [decimal.InvalidOperation] when the result has more than [max_digits]
    digits. *)
Definition quantize (max_digits decimal_places : nat) (q : Q) : result Q :=
  let scale := 10 ^ Z.of_nat decimal_places in
  let n := round_half_even (q * inject_Z scale) in
  if Z.abs n <? 10 ^ Z.of_nat max_digits
  then Ok (Qred (n # Z.to_pos scale))
  else Raise InvalidOperation.

(** The same on a column that is [null=True]. *)
Definition save_decimal (max_digits decimal_places : nat) (v : option Q)
  : result (option Q) :=
  match v with
  | None => Ok None
  | Some q => q' <- quantize max_digits decimal_places q ;; Ok (Some q')
  end.

(** ** Rows and the store *)

(** Primary keys are natural numbers; the store gives a new row the
    number of rows of its table plus one ([handle] deletes nothing). *)
Record Stock : Type := {
  stock_id : nat;
  ticker : string;
  region : string;
  company_name : value;
  currency_code : string
}.

(** The fields of [report_defaults]. *)
Record report_defaults : Type := {
  link : value;
  blurb : value;
  rating : string;
  analyst_team : value;
  report_subtitle : value;
  raw_text : value;
  price : option Q;
  price_objective : option Q;
  upside : option Q;
  average_daily_value : option Q;
  market_cap : option Q
}.

Record DailyReport : Type := {
  report_id : nat;
  stock : nat;                 (* foreign key *)
  as_of_timestamp : Z;
  created_at : Z;
  fields : report_defaults
}.

Record ReportKeyTakeaway : Type := {
  tk_report : nat;             (* foreign key *)
  order : nat;
  text : value
}.

Record EPSForecast : Type := {
  eps_report : nat;            (* foreign key *)
  year : Z;
  eps : Q
}.

Record store : Type := {
  stocks : list Stock;
  reports : list DailyReport;
  takeaways : list ReportKeyTakeaway;
  eps_forecasts : list EPSForecast
}.

Definition empty_store : store :=
  {| stocks := []; reports := []; takeaways := []; eps_forecasts := [] |}.

(** The database and the number of readings made of the clock. *)
Record world : Type := { db : store; ticks : nat }.

(** [total_reports], [created_reports], [skipped_reports] *)
Record counts : Type := {
  total_reports : nat;
  created_reports : nat;
  skipped_reports : nat
}.

(** ** The importer's helper functions *)

Section Importer.

(** [decimal.Decimal(s)] on a string; [None] when it raises
    [decimal.InvalidOperation]. *)
Variable Decimal : string -> option Q.

(** [to_decimal(v)]: [Decimal(str(v))] unless [v in ("", None)].  A JSON
    number prints as its decimal reading; the [str] of a boolean, a list or
    an object is no numeric string. *)
Definition to_decimal (v : value) : result (option Q) :=
  if is_empty v then Ok None
  else match v with
       | VNum q => Ok (Some q)
       | VStr s =>
           match Decimal s with
           | Some q => Ok (Some q)
           | None => Raise InvalidOperation
           end
       | _ => Raise InvalidOperation
       end.

(** *** The EPS resolver (the loop over [item.items()] in [handle]) *)

(** One iteration, on the pair of dictionaries
    [(eps_by_year, eps_source_pri)]. *)
Definition eps_step (kv : string * value) (st : gmap Z Q * gmap Z Z)
  : result (gmap Z Q * gmap Z Z) :=
  match extract_eps_year kv.1 with
  | None => Ok st
  | Some year =>
      if is_empty kv.2 then Ok st
      else
        let pri := eps_priority kv.1 in
        replace <- match st.1 !! year with
                   | None => Ok true
                   | Some _ =>
                       match st.2 !! year with
                       | Some p => Ok (p <? pri)
                       | None => Raise KeyError
                       end
                   end ;;
        if (replace : bool) then
          eps_val <- to_decimal kv.2 ;;
          match eps_val with
          | None => Ok st
          | Some q => Ok (<[year := q]> st.1, <[year := pri]> st.2)
          end
        else Ok st
  end.

Fixpoint eps_loop (items : list (string * value)) (st : gmap Z Q * gmap Z Z)
  : result (gmap Z Q * gmap Z Z) :=
  match items with
  | [] => Ok st
  | kv :: rest => st' <- eps_step kv st ;; eps_loop rest st'
  end.

(** The order of Python tuples [(year, eps)]. *)
Definition tuple_le (a b : Z * Q) : Prop :=
  a.1 < b.1 \/ (a.1 = b.1 /\ (a.2 <= b.2)%Q).

#[global] Instance tuple_le_dec : RelDecision tuple_le.
Proof.
  intros a b. unfold tuple_le.
  destruct (decide (a.1 < b.1)) as [Hlt | Hlt]; [left; by left |].
  destruct (decide (a.1 = b.1)) as [Heq | Hne].
  - destruct (Qlt_le_dec b.2 a.2) as [Hq | Hq].
    + right. intros [? | [_ Hle]]; [done |]. by apply (Qlt_not_le _ _ Hq).
    + left. by right.
  - right. intros [? | [? _]]; done.
Defined.

(** [eps_rows = sorted(eps_by_year.items())] *)
Definition resolve_eps (item : list (string * value)) : result (list (Z * Q)) :=
  st <- eps_loop item (∅, ∅) ;;
  Ok (merge_sort tuple_le (map_to_list st.1)).

(** *** Takeaways *)

(** [enumerate(key_takeaways)] from index [i]. *)
Fixpoint enumerate {A} (i : nat) (l : list A) : list (nat * A) :=
  match l with
  | [] => []
  | x :: rest => (i, x) :: enumerate (S i) rest
  end.

(** [[(i, text) for i, text in enumerate(key_takeaways) if text]]: the
    [(order, text)] of the [ReportKeyTakeaway] rows that are created. *)
Definition takeaway_rows (key_takeaways : list value) : list (nat * value) :=
  filter (fun it => truthy it.2 = true) (enumerate 0 key_takeaways).

(** What a [for] loop sees of a value: the items of a list, the characters
    of a string, the keys of an object; a number or a boolean is not
    iterable. *)
Fixpoint chars (s : string) : list value :=
  match s with
  | String c s' => VStr (String c "") :: chars s'
  | EmptyString => []
  end.

Definition iterate (v : value) : result (list value) :=
  match v with
  | VList l => Ok l
  | VStr s => Ok (chars s)
  | VDict d => Ok (VStr <$> d.*1)
  | VNull | VBool _ | VNum _ => Raise TypeError
  end.

(** *** Ticker and timestamp *)

(** [parse_ticker_region(s)], on the value of [item.get("Ticker", "")]. *)
Definition parse_ticker_region (s : value) : result (string * string) :=
  if truthy s then
    match s with
    | VStr s' =>
        match split s' with
        | t :: r :: _ => Ok (t, r)
        | _ => Raise ValueError
        end
    | _ => Raise AttributeError
    end
  else Raise ValueError.

(** [datetime.strptime(ts, TS_FORMAT)] made aware in the current time
    zone; [None] when it raises [ValueError]. *)
Variable strptime : string -> option Z.

(** [timezone.now()]: the [n]-th reading of the clock. *)
Variable clock : nat -> Z.

(** [str(v)] on a value that is no string. *)
Variable py_str : value -> string.

Definition now (w : world) : Z * world :=
  (clock (ticks w), {| db := db w; ticks := S (ticks w) |}).

(** [parse_timestamp(ts)], on the value of [item.get("Timestamp")]. *)
Definition parse_timestamp (ts : value) (w : world) : result Z * world :=
  if truthy ts then
    match ts with
    | VStr s =>
        match strptime s with
        | Some t => (Ok t, w)
        | None => (Raise ValueError, w)
        end
    | _ => (Raise TypeError, w)
    end
  else let (t, w') := now w in (Ok t, w').

(** [CharField.to_python] on a value that is not [None]. *)
Definition text_of (v : value) : string :=
  match v with
  | VStr s => s
  | _ => py_str v
  end.

(** *** Building the record *)

Definition build_report_defaults (item : list (string * value)) : result report_defaults :=
  price_ <- to_decimal (dict_get item "Price" VNull) ;;
  price_objective_ <- to_decimal (dict_get item "Price_Objective" VNull) ;;
  upside_ <- to_decimal (dict_get item "Upside" VNull) ;;
  average_daily_value_ <- to_decimal (dict_get item "Average_Daily_Value" VNull) ;;
  market_cap_ <- to_decimal (dict_get item "Market_Cap" VNull) ;;
  Ok {| link := get_or item "Link" (VStr "");
        blurb := get_or item "Blurb" (VStr "");
        rating := text_of (get_or item "Rating" (VStr ""));
        analyst_team := get_or item "Analyst_Team" (VStr "");
        report_subtitle := get_or item "Report_Subtitle" (VStr "");
        raw_text := get_or item "Raw_Text" (VList []);
        price := price_;
        price_objective := price_objective_;
        upside := upside_;
        average_daily_value := average_daily_value_;
        market_cap := market_cap_ |}.

(** *** The store's operations *)

(** [Stock.objects.get_or_create(ticker=, region=, defaults=)]: the lookup
    compares the prepared (normalised) values, and saving a new row
    normalises its three [UppercaseCharField]s.  The constraint
    [uniq_stock_ticker_region] leaves the lookup one row at most, the first
    that matches. *)
Definition same_stock (t r : string) (s : Stock) : Prop :=
  ticker s = t /\ region s = r.

#[global] Instance same_stock_dec t r s : Decision (same_stock t r s).
Proof. unfold same_stock. apply _. Defined.

Definition Stock_get_or_create (ticker_ region_ : string) (company_name_ currency : value)
    (d : store) : Stock * bool * store :=
  let t := UppercaseCharField_normalize ticker_ in
  let r := UppercaseCharField_normalize region_ in
  match list_find (same_stock t r) (stocks d) with
  | Some (_, s) => (s, false, d)
  | None =>
      let s := {| stock_id := S (length (stocks d));
                  ticker := t;
                  region := r;
                  company_name := company_name_;
                  currency_code := UppercaseCharField_normalize (text_of currency) |} in
      (s, true, {| stocks := stocks d ++ [s]; reports := reports d;
                   takeaways := takeaways d; eps_forecasts := eps_forecasts d |})
  end.

(** [DailyReport.objects.get_or_create(stock=, as_of_timestamp=, defaults=)];
    saving a new row normalises its rating and reads the clock for
    [created_at]. *)
Definition same_report (sid : nat) (ts : Z) (r : DailyReport) : Prop :=
  stock r = sid /\ as_of_timestamp r = ts.

#[global] Instance same_report_dec sid ts r : Decision (same_report sid ts r).
Proof. unfold same_report. apply _. Defined.

(** The values of the columns of a new [DailyReport], in the order of the
    fields of the model: the rating is normalised and the five decimals
    are quantized. *)
Definition save_defaults (f : report_defaults) : result report_defaults :=
  price_ <- save_decimal 20 6 (price f) ;;
  price_objective_ <- save_decimal 20 6 (price_objective f) ;;
  upside_ <- save_decimal 10 6 (upside f) ;;
  average_daily_value_ <- save_decimal 24 2 (average_daily_value f) ;;
  market_cap_ <- save_decimal 28 2 (market_cap f) ;;
  Ok {| link := link f; blurb := blurb f;
        rating := NormalizedRatingField_normalize (rating f);
        analyst_team := analyst_team f; report_subtitle := report_subtitle f;
        raw_text := raw_text f; price := price_;
        price_objective := price_objective_; upside := upside_;
        average_daily_value := average_daily_value_; market_cap := market_cap_ |}.

(** [get_or_create] returns the row and whether it created it, or raises
    what the save of the new row raises; [created_at] has read the clock
    by then. *)
Definition DailyReport_get_or_create (s : Stock) (as_of_ts : Z) (defaults : report_defaults)
    (w : world) : result (DailyReport * bool) * world :=
  match list_find (same_report (stock_id s) as_of_ts) (reports (db w)) with
  | Some (_, r) => (Ok (r, false), w)
  | None =>
      let (t, w') := now w in
      let d := db w' in
      match save_defaults defaults with
      | Raise e => (Raise e, w')
      | Ok saved =>
          let r := {| report_id := S (length (reports d));
                      stock := stock_id s;
                      as_of_timestamp := as_of_ts;
                      created_at := t;
                      fields := saved |} in
          (Ok (r, true), {| db := {| stocks := stocks d; reports := reports d ++ [r];
                                     takeaways := takeaways d;
                                     eps_forecasts := eps_forecasts d |};
                            ticks := ticks w' |})
      end
  end.

(** The values of the column [eps] ([DecimalField(max_digits=18,
    decimal_places=6)]) of the rows of the second [bulk_create]. *)
Fixpoint save_eps_rows (eps_rows : list (Z * Q)) : result (list (Z * Q)) :=
  match eps_rows with
  | [] => Ok []
  | (y, q) :: rest =>
      q' <- quantize 18 6 q ;;
      rest' <- save_eps_rows rest ;;
      Ok ((y, q') :: rest')
  end.

(** The two [bulk_create]s. *)
Definition bulk_create_children (r : DailyReport) (tks : list (nat * value))
    (eps_rows : list (Z * Q)) (d : store) : store :=
  {| stocks := stocks d;
     reports := reports d;
     takeaways := takeaways d ++
       ((fun it => {| tk_report := report_id r; order := it.1; text := it.2 |}) <$> tks);
     eps_forecasts := eps_forecasts d ++
       ((fun it => {| eps_report := report_id r; year := it.1; eps := it.2 |}) <$> eps_rows) |}.

(** *** [Command.handle] *)

(** The body of [with transaction.atomic()]: the new world and whether a
    report was created; an exception rolls the database back to [w]. *)
Definition write_record (ticker_ region_ : string) (as_of_ts : Z)
    (company_name_ currency : value) (defaults : report_defaults)
    (key_takeaways : value) (eps_rows : list (Z * Q)) (w : world)
  : result bool * world :=
  let '(s, _, d1) := Stock_get_or_create ticker_ region_ company_name_ currency (db w) in
  match DailyReport_get_or_create s as_of_ts defaults {| db := d1; ticks := ticks w |} with
  | (Raise e, w2) => (Raise e, {| db := db w; ticks := ticks w2 |})
  | (Ok (r, report_created), w2) =>
      if (report_created : bool) then
        match iterate key_takeaways with
        | Ok l =>
            match save_eps_rows eps_rows with
            | Ok saved_rows =>
                (Ok true,
                 {| db := bulk_create_children r (takeaway_rows l) saved_rows (db w2);
                    ticks := ticks w2 |})
            | Raise e => (Raise e, {| db := db w; ticks := ticks w2 |})
            end
        | Raise e => (Raise e, {| db := db w; ticks := ticks w2 |})
        end
      else (Ok false, w2)
  end.

(** One turn of [for item in data]: the state after it, and the exception
    that leaves [handle], if any. *)
Definition import_item (dry_run : bool) (item : value) (wc : world * counts)
  : world * counts * option exn :=
  let (w, c) := wc in
  let c1 := {| total_reports := S (total_reports c);
               created_reports := created_reports c;
               skipped_reports := skipped_reports c |} in
  match item with
  | VDict item =>
      match parse_ticker_region (dict_get item "Ticker" (VStr "")) with
      | Raise _ => (w, c1, None)
      | Ok (ticker_, region_) =>
          match parse_timestamp (dict_get item "Timestamp" VNull) w with
          | (Raise _, w1) => (w1, c1, None)
          | (Ok as_of_ts, w1) =>
              let currency := get_or item "Currency" (VStr "USD") in
              let company_name_ := get_or item "Company" (VStr "") in
              match build_report_defaults item with
              | Raise e => (w1, c1, Some e)
              | Ok defaults =>
                  let key_takeaways := get_or item "Key_Takeaways" (VList []) in
                  match resolve_eps item with
                  | Raise e => (w1, c1, Some e)
                  | Ok eps_rows =>
                      if dry_run then (w1, c1, None)
                      else
                        match write_record ticker_ region_ as_of_ts company_name_
                                currency defaults key_takeaways eps_rows w1 with
                        | (Ok true, w2) =>
                            (w2, {| total_reports := total_reports c1;
                                    created_reports := S (created_reports c1);
                                    skipped_reports := skipped_reports c1 |}, None)
                        | (Ok false, w2) =>
                            (w2, {| total_reports := total_reports c1;
                                    created_reports := created_reports c1;
                                    skipped_reports := S (skipped_reports c1) |}, None)
                        | (Raise e, w2) =>
                            (* [created_reports += 1] comes after
                               [get_or_create] and before the two
                               [bulk_create]s: it is reached unless the
                               save of the report is what raised *)
                            (w2, {| total_reports := total_reports c1;
                                    created_reports :=
                                      match save_defaults defaults with
                                      | Ok _ => S (created_reports c1)
                                      | Raise _ => created_reports c1
                                      end;
                                    skipped_reports := skipped_reports c1 |}, Some e)
                        end
                  end
              end
          end
      end
  | _ => (w, c1, Some AttributeError)
  end.

Fixpoint import_items (dry_run : bool) (data : list value) (wc : world * counts)
  : world * counts * option exn :=
  match data with
  | [] => (wc, None)
  | item :: rest =>
      match import_item dry_run item wc with
      | (wc', None) => import_items dry_run rest wc'
      | (wc', Some e) => (wc', Some e)
      end
  end.

(** [for fp in files]; each file is given by its parsed content. *)
Fixpoint import_files (dry_run : bool) (files : list value) (wc : world * counts)
  : world * counts * option exn :=
  match files with
  | [] => (wc, None)
  | data :: rest =>
      match data with
      | VList l =>
          match import_items dry_run l wc with
          | (wc', None) => import_files dry_run rest wc'
          | (wc', Some e) => (wc', Some e)
          end
      | _ => (wc, Some CommandError)
      end
  end.

Definition no_counts : counts :=
  {| total_reports := 0; created_reports := 0; skipped_reports := 0 |}.

Definition handle (dry_run : bool) (files : list value) (w : world)
  : world * counts * option exn :=
  match files with
  | [] => (w, no_counts, Some CommandError)
  | _ => import_files dry_run files (w, no_counts)
  end.

End Importer.

(** ** The home page ([stocks/views.py]) *)

Definition TOP_N_UPSIDE : nat := 10.
Definition CHART_MAX_POINTS : nat := 60.

(** [timedelta(days=n)], in microseconds. *)
Definition days (n : Z) : Z := n * 86400000000.

#[global] Instance Qle_decision (a b : Q) : Decision (a <= b)%Q.
Proof.
  destruct (Qlt_le_dec b a) as [H | H]; [right | by left].
  by apply Qlt_not_le.
Defined.

(** The aggregate [Max]: [None] (NULL) over no value. *)
Fixpoint Max (l : list Q) : option Q :=
  match l with
  | [] => None
  | q :: rest =>
      match Max rest with
      | None => Some q
      | Some m => Some (if decide (q <= m)%Q then m else q)
      end
  end.

(** *** 1) Top upside stocks *)

(** The upside of [r] when [r] is a report of [s] that passes
    [reports__as_of_timestamp__gte=start, reports__upside__isnull=False]. *)
Definition filtered_upside (start : Z) (s : Stock) (r : DailyReport) : option Q :=
  if decide (stock r = stock_id s /\ start <= as_of_timestamp r)
  then upside (fields r) else None.

(** The annotation [max_upside]. *)
Definition max_upside (start : Z) (d : store) (s : Stock) : option Q :=
  Max (omap (filtered_upside start s) (reports d)).

(** [order_by("-max_upside")] *)
Definition by_max_upside_desc (a b : Stock * Q) : Prop := (b.2 <= a.2)%Q.

#[global] Instance by_max_upside_desc_dec : RelDecision by_max_upside_desc.
Proof. intros a b. unfold by_max_upside_desc. apply _. Defined.

(** The annotated stocks with [max_upside__isnull=False], ordered. *)
Definition upside_ranking (start : Z) (d : store) : list (Stock * Q) :=
  merge_sort by_max_upside_desc
    (omap (fun s => (fun m => (s, m)) <$> max_upside start d s) (stocks d)).

Definition top_upside (start : Z) (d : store) : list (Stock * Q) :=
  take TOP_N_UPSIDE (upside_ranking start d).

Definition top_upside_7d (now_ : Z) (d : store) : list (Stock * Q) :=
  top_upside (now_ - days 7) d.

Definition top_upside_30d (now_ : Z) (d : store) : list (Stock * Q) :=
  top_upside (now_ - days 30) d.

(** *** 3) Recent downgrades *)

(** [order_by("-as_of_timestamp")] *)
Definition by_timestamp_desc (a b : DailyReport) : Prop :=
  as_of_timestamp b <= as_of_timestamp a.

#[global] Instance by_timestamp_desc_dec : RelDecision by_timestamp_desc.
Proof. intros a b. unfold by_timestamp_desc. apply _. Defined.

(** The rows of [prev_rating_sq] for the outer report [r]. *)
Definition earlier_reports (d : store) (r : DailyReport) : list DailyReport :=
  filter (fun p => stock p = stock r /\ as_of_timestamp p < as_of_timestamp r)
         (reports d).

(** [prev_rating_sq]: the rating of the first row, if there is one. *)
Definition prev_rating_sq (d : store) (r : DailyReport) : option string :=
  (fun p => rating (fields p)) <$> head (merge_sort by_timestamp_desc (earlier_reports d r)).

(** [Coalesce(Subquery(prev_rating_sq), Value(""))] *)
Definition prev_rating (d : store) (r : DailyReport) : string :=
  default "" (prev_rating_sq d r).

Definition is_downgrade (d : store) (r : DailyReport) : Prop :=
  rating (fields r) = "UNDERPERFORM" /\ prev_rating d r ∈ ["BUY"; "NEUTRAL"].

#[global] Instance is_downgrade_dec d r : Decision (is_downgrade d r).
Proof. unfold is_downgrade. apply _. Defined.

(** All the downgrades, most recent first. *)
Definition downgrades (d : store) : list DailyReport :=
  merge_sort by_timestamp_desc (filter (is_downgrade d) (reports d)).

Definition recent_downgrades (d : store) : list DailyReport :=
  take 5 (downgrades d).

(** *** Chart data *)

(** A point of a series: [t], [price], [po] (the conversion of the two
    decimals to [float] is not modelled). *)
Record point : Type := { point_t : Z; point_price : option Q; point_po : option Q }.

Definition point_of (r : DailyReport) : point :=
  {| point_t := as_of_timestamp r;
     point_price := price (fields r);
     point_po := price_objective (fields r) |}.

(** [order_by("stock_id", "as_of_timestamp")] *)
Definition by_stock_timestamp (a b : DailyReport) : Prop :=
  (stock a < stock b)%nat \/
  (stock a = stock b /\ as_of_timestamp a <= as_of_timestamp b).

#[global] Instance by_stock_timestamp_dec : RelDecision by_stock_timestamp.
Proof. intros a b. unfold by_stock_timestamp. apply _. Defined.

Definition charted (stock_ids : list nat) (start_dt : Z) (r : DailyReport) : Prop :=
  stock r ∈ stock_ids /\ start_dt <= as_of_timestamp r /\
  ~ (price (fields r) = None /\ price_objective (fields r) = None).

#[global] Instance charted_dec ids start_dt r : Decision (charted ids start_dt r).
Proof. unfold charted. apply _. Defined.

(** The query set [qs]. *)
Definition price_rows (stock_ids : list nat) (start_dt : Z) (d : store) : list DailyReport :=
  merge_sort by_stock_timestamp (filter (charted stock_ids start_dt) (reports d)).

(** [series[sid].append(...)]; the key is there, since [qs] keeps the
    reports of [stock_ids] only. *)
Definition append_point (series : gmap nat (list point)) (r : DailyReport)
  : gmap nat (list point) :=
  alter (fun points => (points ++ [point_of r])%list) (stock r) series.

(** [points[-CHART_MAX_POINTS:]] when [len(points) > CHART_MAX_POINTS]. *)
Definition cap (points : list point) : list point :=
  if decide (CHART_MAX_POINTS < length points)%nat
  then drop (length points - CHART_MAX_POINTS) points
  else points.

(** The series are keyed by the stock's id (the source uses its [str]). *)
Definition _build_price_series (stocks_ : list Stock) (start_dt : Z) (d : store)
  : gmap nat (list point) :=
  match stocks_ with
  | [] => ∅
  | _ =>
      let stock_ids := stock_id <$> stocks_ in
      let series : gmap nat (list point) :=
        list_to_map ((fun sid => (sid, [])) <$> stock_ids) in
      cap <$> foldl append_point series (price_rows stock_ids start_dt d)
  end.

(** ** Stand-ins for the library functions, for the closed examples *)

(** Reads an unsigned integer literal and rejects every other string. *)
Definition Decimal_sample (s : string) : option Q :=
  match digits (String.length s) 0 s with
  | Some (n, _) => if decide (s = "") then None else Some (inject_Z n)
  | None => None
  end.

(** Reads [YYYY-MM-DD_HH-MM] with two-digit fields, as minutes counted
    with months of 31 days, in microseconds. *)
Definition strptime_sample (s : string) : option Z :=
  '(Y, s) ← digits 4 0 s; s ← lit "-" s;
  '(M, s) ← digits 2 0 s; s ← lit "-" s;
  '(D, s) ← digits 2 0 s; s ← lit "_" s;
  '(h, s) ← digits 2 0 s; s ← lit "-" s;
  '(m, s) ← digits 2 0 s;
  if decide (s = "" /\ 1 <= M <= 12 /\ 1 <= D <= 31 /\ h < 24 /\ m < 60)
  then Some (((((Y * 12 + (M - 1)) * 31 + (D - 1)) * 24 + h) * 60 + m) * 60000000)
  else None.

(** A clock that advances by one second at each reading. *)
Definition clock_sample (n : nat) : Z := 1800000000000000 + 1000000 * Z.of_nat n.

(** The examples give every text field a string. *)
Definition py_str_sample (v : value) : string := "".

Definition handle_sample : bool -> list value -> world -> world * counts * option exn :=
  handle Decimal_sample strptime_sample clock_sample py_str_sample.

Definition world0 : world := {| db := empty_store; ticks := 0 |}.

(** ** Vocabulary of the statements *)

(** A string is at its end, or at a final newline. *)
Definition eol (t : string) : Prop := t = "" \/ t = String LF "".

(** The three shapes of an EPS key, with the year and the priority of
    each: [20dd] followed by [E_EPS], [20dd] followed by [_EPS], and a
    three-digit code followed by [_EPS]. *)
Inductive key_form : string -> Z -> Z -> Prop :=
| form_year_E c1 c2 t :
    is_digit c1 = true -> is_digit c2 = true -> eol t ->
    key_form (String "2" (String "0" (String c1 (String c2 ("E_EPS" +:+ t)))))
             (2000 + 10 * digit_val c1 + digit_val c2) 3
| form_year c1 c2 t :
    is_digit c1 = true -> is_digit c2 = true -> eol t ->
    key_form (String "2" (String "0" (String c1 (String c2 ("_EPS" +:+ t)))))
             (2000 + 10 * digit_val c1 + digit_val c2) 2
| form_code c1 c2 c3 t :
    is_digit c1 = true -> is_digit c2 = true -> is_digit c3 = true -> eol t ->
    key_form (String c1 (String c2 (String c3 ("_EPS" +:+ t))))
             (100 * digit_val c1 + 10 * digit_val c2 + digit_val c3 + 1700) 1.

(** The entry [kv] counts for the year [y]: its key resolves to [y] and its
    value is not empty. *)
Definition candidate (y : Z) (kv : string * value) : Prop :=
  extract_eps_year kv.1 = Some y /\ is_empty kv.2 = false.

(** Entry [i] of [item] is the first one of greatest priority among the
    entries that count for [y]. *)
Definition wins (item : list (string * value)) (y : Z) (i : nat)
    (kv : string * value) : Prop :=
  item !! i = Some kv /\ candidate y kv /\
  (forall j kv', item !! j = Some kv' -> candidate y kv' ->
     eps_priority kv'.1 <= eps_priority kv.1) /\
  (forall j kv', (j < i)%nat -> item !! j = Some kv' -> candidate y kv' ->
     eps_priority kv'.1 < eps_priority kv.1).

(** What the two dictionaries hold after the loop has run over [item]. *)
Definition eps_inv (Decimal : string -> option Q) (item : list (string * value)) (st : gmap Z Q * gmap Z Z) : Prop :=
  forall y,
    match st.1 !! y with
    | Some q => exists i kv, wins item y i kv /\
                  to_decimal Decimal kv.2 = Ok (Some q) /\
                  st.2 !! y = Some (eps_priority kv.1)
    | None => forall kv, kv ∈ item -> ~ candidate y kv
    end.

(** The record of the priority example, and a record with two keys of
    equal priority for one year (the second ends with a newline). *)
Definition item_priority : list (string * value) :=
  [("2027E_EPS", VNum (11 # 10)); ("2027_EPS", VNum 1); ("327_EPS", VNum (9 # 10))].


Definition item_tie : list (string * value) :=
  [("2027E_EPS", VNum (11 # 10)); ("2027E_EPS" +:+ String LF "", VNum 1)].

(** "On a tie of priority the later key wins": of two entries of one year
    and of equal, greatest priority, the value kept is the value of the one
    that no other of that priority follows. *)
Definition later_tie_wins (Decimal : string -> option Q)
    (item : list (string * value)) : Prop :=
  forall rows y i j ki kj,
    resolve_eps Decimal item = Ok rows ->
    (i < j)%nat -> item !! i = Some ki -> item !! j = Some kj ->
    candidate y ki -> candidate y kj ->
    eps_priority ki.1 = eps_priority kj.1 ->
    (forall m km, item !! m = Some km -> candidate y km ->
       eps_priority km.1 <= eps_priority kj.1) ->
    (forall m km, (j < m)%nat -> item !! m = Some km -> candidate y km ->
       eps_priority km.1 < eps_priority kj.1) ->
    exists q, to_decimal Decimal kj.2 = Ok (Some q) /\ (y, q) ∈ rows.

(** A document with one record, whose takeaways are ["a", "", "b"]. *)
Definition doc_takeaways : value :=
  VList [VDict [("Ticker", VStr "COP US");
                ("Timestamp", VStr "2026-01-16_13-48");
                ("Key_Takeaways", VList [VStr "a"; VStr ""; VStr "b"])]].

(** The [report_defaults] of a record that has no field of a report. *)
Definition defaults_sample : report_defaults :=
  {| link := VStr ""; blurb := VStr ""; rating := ""; analyst_team := VStr "";
     report_subtitle := VStr ""; raw_text := VList []; price := None;
     price_objective := None; upside := None; average_daily_value := None;
     market_cap := None |}.

(** [d'] holds the rows of [d], unchanged and at the same places, and
    possibly more rows after them. *)
Definition db_extends (d d' : store) : Prop :=
  stocks d `prefix_of` stocks d' /\ reports d `prefix_of` reports d' /\
  takeaways d `prefix_of` takeaways d' /\
  eps_forecasts d `prefix_of` eps_forecasts d'.

(** The store has the stock of [(t, r)] and a report of it at [ts]: what
    the two [get_or_create] of [handle] look up. *)
Definition has_report (d : store) (t r : string) (ts : Z) : Prop :=
  exists k s k' rep,
    list_find (same_stock (UppercaseCharField_normalize t)
                          (UppercaseCharField_normalize r)) (stocks d) = Some (k, s) /\
    list_find (same_report (stock_id s) ts) (reports d) = Some (k', rep).

(** [total_reports += 1] *)
Definition bump_total (c : counts) : counts :=
  {| total_reports := S (total_reports c);
     created_reports := created_reports c;
     skipped_reports := skipped_reports c |}.

(** The ticker of the record does not parse. *)
Definition malformed_ticker (item : list (string * value)) : bool :=
  match parse_ticker_region (dict_get item "Ticker" (VStr "")) with
  | Ok _ => false
  | Raise _ => true
  end.

(** The record has a timestamp and it does not parse. *)
Definition malformed_timestamp (strptime : string -> option Z)
    (item : list (string * value)) : bool :=
  let ts := dict_get item "Timestamp" VNull in
  truthy ts &&
  match ts with
  | VStr s => match strptime s with Some _ => false | None => true end
  | _ => true
  end.

(** A decimal field of the record is not a number. *)
Definition malformed_number (Decimal : string -> option Q)
    (item : list (string * value)) : Prop :=
  exists k, k ∈ ["Price"; "Price_Objective"; "Upside"; "Average_Daily_Value"; "Market_Cap"] /\
    to_decimal Decimal (dict_get item k VNull) = Raise InvalidOperation.

(** The ticker, region and instant of a record that has a timestamp. *)
Definition record_key (strptime : string -> option Z) (item : list (string * value))
  : option (string * string * Z) :=
  match parse_ticker_region (dict_get item "Ticker" (VStr "")) with
  | Ok (t, r) =>
      match dict_get item "Timestamp" VNull with
      | VStr s => if decide (s = "") then None else (fun ts => (t, r, ts)) <$> strptime s
      | _ => None
      end
  | Raise _ => None
  end.

(** The records of the documents, in the order [handle] reads them. *)
Definition records (files : list value) : list value :=
  files ≫= (fun data => match data with VList l => l | _ => [] end).

(** The record gives its timestamp (it does not fall back on the clock). *)
Definition explicit_timestamp (item : value) : bool :=
  match item with
  | VDict d => truthy (dict_get d "Timestamp" VNull)
  | _ => true
  end.

(** The record passes the parsing of its ticker and timestamp. *)
Definition well_formed (strptime : string -> option Z) (item : value) : bool :=
  match item with
  | VDict d => match record_key strptime d with Some _ => true | None => false end
  | _ => false
  end.

Definition count_well_formed (strptime : string -> option Z) (data : list value) : nat :=
  length (filter (fun item => well_formed strptime item = true) data).

(** The record can be read to its end: it is an object with a timestamp,
    and when its ticker and timestamp parse, so do its numbers. *)
Definition readable (Decimal : string -> option Q) (strptime : string -> option Z)
    (py_str : value -> string) (item : value) : Prop :=
  explicit_timestamp item = true /\
  exists d, item = VDict d /\
    (is_Some (record_key strptime d) ->
     is_Some (match build_report_defaults Decimal py_str d with
              | Ok f => Some f | Raise _ => None end) /\
     is_Some (match resolve_eps Decimal d with
              | Ok rows => Some rows | Raise _ => None end)).

(** The store has the report of the record. *)
Definition covered (strptime : string -> option Z) (d : store) (item : value) : Prop :=
  forall i t r ts, item = VDict i -> record_key strptime i = Some (t, r, ts) ->
    has_report d t r ts.

(** "Importing a document twice is idempotent": the second run leaves
    the rows as they were, creates nothing and skips what the first
    created. *)
Definition import_idempotent (run : list value -> world -> world * counts * option exn)
    (files : list value) (w : world) : Prop :=
  let '(w1, c1, _) := run files w in
  let '(w2, c2, _) := run files w1 in
  db w2 = db w1 /\ created_reports c2 = 0%nat /\
  skipped_reports c2 = created_reports c1.

(** The first import of [doc_takeaways] into an empty store. *)
Definition first_import : world * counts * option exn :=
  handle_sample false [doc_takeaways] world0.

(** A document whose only record has no timestamp. *)
Definition doc_no_timestamp : value := VList [VDict [("Ticker", VStr "COP US")]].

(** "A malformed record is skipped": the run goes on with the next record
    as if the record had not been there, but for the count of records
    read. *)
Definition only_record_skipped
    (run : list value -> world * counts -> world * counts * option exn)
    (item : value) : Prop :=
  forall rest w c, run (item :: rest) (w, c) = run rest (w, bump_total c).

(** A record whose price is no number, and a record without fault. *)
Definition item_bad_price : list (string * value) :=
  [("Ticker", VStr "COP US"); ("Timestamp", VStr "2026-01-16_13-48");
   ("Price", VStr "abc")].

Definition item_good : list (string * value) :=
  [("Ticker", VStr "XOM US"); ("Timestamp", VStr "2026-01-16_13-48");
   ("Price", VNum 100)].

(** Records whose ticker, or timestamp, does not parse. *)
Definition item_bad_ticker : list (string * value) :=
  [("Ticker", VStr "COP"); ("Timestamp", VStr "2026-01-16_13-48")].

Definition item_bad_timestamp : list (string * value) :=
  [("Ticker", VStr "COP US"); ("Timestamp", VStr "16/01/2026")].

(** The identity of a stock. *)
Definition stock_key (s : Stock) : string * string := (ticker s, region s).

(** Two records that name one stock, in different case and spacing; the
    second gives it another company name and currency. *)
Definition doc_same_stock : value :=
  VList [VDict [("Ticker", VStr "cop us"); ("Timestamp", VStr "2026-01-16_13-48");
                ("Company", VStr "ConocoPhillips"); ("Currency", VStr " usd ")];
         VDict [("Ticker", VStr "  COP   US  "); ("Timestamp", VStr "2026-01-17_09-30");
                ("Company", VStr "Conoco"); ("Currency", VStr "EUR")]].

(** A report of [s] that counts for the ranking from [start] on, with
    upside [u]. *)
Definition qualifies (start : Z) (s : Stock) (r : DailyReport) (u : Q) : Prop :=
  stock r = stock_id s /\ start <= as_of_timestamp r /\ upside (fields r) = Some u.


(** A report of stock [sid] at [ts] with upside [u] and rating [rt]. *)
Definition report_sample (rid sid : nat) (ts : Z) (rt : string) (u : option Q)
  : DailyReport :=
  {| report_id := rid; stock := sid; as_of_timestamp := ts; created_at := ts;
     fields := {| link := VStr ""; blurb := VStr ""; rating := rt;
                  analyst_team := VStr ""; report_subtitle := VStr "";
                  raw_text := VList []; price := u; price_objective := None;
                  upside := u; average_daily_value := None; market_cap := None |} |}.

Definition stock_A : Stock :=
  {| stock_id := 1; ticker := "AAA"; region := "US"; company_name := VStr "A";
     currency_code := "USD" |}.

Definition stock_B : Stock :=
  {| stock_id := 2; ticker := "BBB"; region := "US"; company_name := VStr "B";
     currency_code := "USD" |}.

(** The instant of the examples: day 100. *)
Definition now_sample : Z := days 100.



(** The identity of a report. *)
Definition report_key (r : DailyReport) : nat * Z := (stock r, as_of_timestamp r).



(** The reports of stock [sid] that the chart query keeps. *)
Definition charted_of (sid : nat) (start_dt : Z) (r : DailyReport) : Prop :=
  stock r = sid /\ start_dt <= as_of_timestamp r /\
  ~ (price (fields r) = None /\ price_objective (fields r) = None).

#[global] Instance charted_of_dec sid start_dt r : Decision (charted_of sid start_dt r).
Proof. unfold charted_of. apply _. Defined.

(** A report of stock [sid] at [ts] with the price [p] and the price
    objective [po]. *)
Definition priced_report (rid sid : nat) (ts : Z) (p po : option Q) : DailyReport :=
  {| report_id := rid; stock := sid; as_of_timestamp := ts; created_at := ts;
     fields := {| link := VStr ""; blurb := VStr ""; rating := "BUY";
                  analyst_team := VStr ""; report_subtitle := VStr "";
                  raw_text := VList []; price := p; price_objective := po;
                  upside := None; average_daily_value := None; market_cap := None |} |}.

(** The price and the price objective of day [i] in [db_chart]: a price on
    the even days, a price objective on the odd days and on the days that
    are multiples of four. *)
Definition chart_price (i : nat) : option Q :=
  if Nat.even i then Some (inject_Z (Z.of_nat i)) else None.

Definition chart_po (i : nat) : option Q :=
  if Nat.odd i || (i mod 4 =? 0)%nat then Some (inject_Z (Z.of_nat i + 1000)) else None.

(** Stock A with a report a day from day 1 to day 100, stored most recent
    first, a report of day 50 with neither price nor price objective and a
    report two days before day 0; stock B with one report. *)
Definition db_chart : store :=
  {| stocks := [stock_A; stock_B];
     reports :=
       ((fun i => priced_report i 1 (days (Z.of_nat i)) (chart_price i) (chart_po i))
          <$> reverse (seq 1 100)) ++
       [priced_report 101 1 (days 50) None None;
        priced_report 102 1 (days (-2)) (Some 5%Q) (Some 6%Q);
        priced_report 103 2 (days 60) (Some 1%Q) (Some 2%Q)];
     takeaways := []; eps_forecasts := [] |}.

(** The point of day [i] of stock A in [db_chart]. *)
Definition chart_point (i : nat) : point :=
  {| point_t := days (Z.of_nat i);
     point_price := chart_price i;
     point_po := chart_po i |}.

(** ** More of the models and of the home page *)

(** [Stock.__str__]: the ticker, a space, the region. *)
Definition Stock_str (s : Stock) : string := ticker s +:+ " " +:+ region s.

(** *** 2) Most reported on *)

Definition TOP_N_MOST_REPORTED : nat := 10.
Definition CHART_STOCKS_COUNT : nat := 5.

(** A report of [s] that passes [reports__as_of_timestamp__gte=start]. *)
Definition counted (start : Z) (s : Stock) (r : DailyReport) : Prop :=
  stock r = stock_id s /\ start <= as_of_timestamp r.

#[global] Instance counted_dec start s r : Decision (counted start s r).
Proof. unfold counted. apply _. Defined.

(** The annotation [report_count]. *)
Definition report_count (start : Z) (d : store) (s : Stock) : nat :=
  length (filter (counted start s) (reports d)).

(** [order_by("-report_count", "ticker")], the tickers in the order of
    their characters. *)
Definition by_count_desc_ticker (a b : Stock * nat) : Prop :=
  (b.2 < a.2)%nat \/ (a.2 = b.2 /\ String.le (ticker a.1) (ticker b.1)).

#[global] Instance by_count_desc_ticker_dec : RelDecision by_count_desc_ticker.
Proof. intros a b. unfold by_count_desc_ticker. apply _. Defined.

(** The annotated stocks with [report_count__gt=0], ordered. *)
Definition report_ranking (start : Z) (d : store) : list (Stock * nat) :=
  merge_sort by_count_desc_ticker
    (filter (fun sc => (0 < sc.2)%nat)
            ((fun s => (s, report_count start d s)) <$> stocks d)).

Definition most_reported (start : Z) (d : store) : list (Stock * nat) :=
  take TOP_N_MOST_REPORTED (report_ranking start d).

(** *** [HomeView.get_context_data] *)

(** The entries that [ctx.update] adds, for the instant [now_] that the
    view reads once. *)
Record context : Type := {
  ctx_top_upside_7d : list (Stock * Q);
  ctx_top_upside_30d : list (Stock * Q);
  ctx_most_reported_30d : list (Stock * nat);
  ctx_most_reported_365d : list (Stock * nat);
  ctx_recent_downgrades : list DailyReport;
  ctx_chart_stocks_30d : list (Stock * nat);
  ctx_chart_stocks_365d : list (Stock * nat);
  ctx_chart_series_30d : gmap nat (list point);
  ctx_chart_series_365d : gmap nat (list point)
}.

Definition get_context_data (now_ : Z) (d : store) : context :=
  let start_30d := now_ - days 30 in
  let start_365d := now_ - days 365 in
  let most_reported_30d := most_reported start_30d d in
  let most_reported_365d := most_reported start_365d d in
  let chart_stocks_30d := take CHART_STOCKS_COUNT most_reported_30d in
  let chart_stocks_365d := take CHART_STOCKS_COUNT most_reported_365d in
  {| ctx_top_upside_7d := top_upside_7d now_ d;
     ctx_top_upside_30d := top_upside_30d now_ d;
     ctx_most_reported_30d := most_reported_30d;
     ctx_most_reported_365d := most_reported_365d;
     ctx_recent_downgrades := recent_downgrades d;
     ctx_chart_stocks_30d := chart_stocks_30d;
     ctx_chart_stocks_365d := chart_stocks_365d;
     ctx_chart_series_30d := _build_price_series chart_stocks_30d.*1 start_30d d;
     ctx_chart_series_365d := _build_price_series chart_stocks_365d.*1 start_365d d |}.

(** ** More vocabulary *)

(** The string has a space character. *)
Fixpoint has_space (s : string) : bool :=
  match s with
  | String c s' => is_space c || has_space s'
  | EmptyString => false
  end.

(** A token: a string that is not empty and has no space. *)
Definition token (t : string) : Prop := t <> "" /\ has_space t = false.

(** *** ASCII text

    The model reads a character as Python reads a character of ASCII: on
    ASCII text [is_digit] is [\d], [is_space] is [\s] and [str.isspace],
    [upper_char] is [str.upper].  Python's classes hold characters outside
    ASCII too (other decimal digits, the no-break space, accented
    letters), on which the model does not follow them; the statements
    about text are statements about ASCII text.  The classes are given
    here once more, by their characters, for the statements to use. *)
Definition is_ascii_char (c : ascii) : bool := (nat_of_ascii c <? 128)%nat.

Fixpoint is_ascii (s : string) : bool :=
  match s with
  | String c s' => is_ascii_char c && is_ascii s'
  | EmptyString => true
  end.


(** The white space of ASCII: TAB, LF, VT, FF, CR, FS, GS, RS, US and the
    space. *)
Definition whitespace (c : ascii) : Prop :=
  nat_of_ascii c ∈ [9; 10; 11; 12; 13; 28; 29; 30; 31; 32]%nat.

Definition all_whitespace (s : string) : Prop :=
  Forall whitespace (list_ascii_of_string s).

(** [u] is the capital of the small letter [c], or [c] itself when [c] is
    no small letter. *)
Definition capital_of (c u : ascii) : Prop :=
  ((97 <= nat_of_ascii c <= 122)%nat /\ (nat_of_ascii u + 32)%nat = nat_of_ascii c) \/
  (~ (97 <= nat_of_ascii c <= 122)%nat /\ u = c).

(** A word: a text that is not empty and has no white space. *)
Definition word (t : string) : Prop :=
  t <> "" /\ Forall (fun c => ~ whitespace c) (list_ascii_of_string t).

(** [m] is [s] without the white space at its two ends. *)
Definition trimmed (s m : string) : Prop :=
  exists l r, s = l +:+ m +:+ r /\ all_whitespace l /\ all_whitespace r /\
    (forall c m', m = String c m' -> ~ whitespace c) /\
    (forall m' c, m = m' +:+ String c "" -> ~ whitespace c).

(** [n] is [m] with a capital for each small letter. *)
Definition uppercased (m n : string) : Prop :=
  Forall2 capital_of (list_ascii_of_string m) (list_ascii_of_string n).

(** [n] is [s] trimmed and uppercased. *)
Definition normal_form_of (s n : string) : Prop :=
  exists m, trimmed s m /\ uppercased m n.


(** [n] is [m] with one underscore for each run of white space. *)
Inductive underscored : string -> string -> Prop :=
| underscored_nil : underscored "" ""
| underscored_char c m n :
    ~ whitespace c -> underscored m n -> underscored (String c m) (String c n)
| underscored_run ws m n :
    ws <> "" -> all_whitespace ws -> (forall c m', m = String c m' -> ~ whitespace c) ->
    underscored m n -> underscored (ws +:+ m) (String "_" n).









(** The sum of two counts. *)
Definition add_counts (c c' : counts) : counts :=
  {| total_reports := total_reports c + total_reports c';
     created_reports := created_reports c + created_reports c';
     skipped_reports := skipped_reports c + skipped_reports c' |}.

(** The entry counts for the resolver: its key is an EPS key and its value
    is not empty. *)
Definition eps_entry (kv : string * value) : Prop :=
  is_Some (extract_eps_year kv.1) /\ is_empty kv.2 = false.

#[global] Instance eps_entry_dec kv : Decision (eps_entry kv).
Proof. unfold eps_entry. apply _. Defined.

(** The constraints of the four models:
    [uniq_stock_ticker_region], [uniq_report_as_of_timestamp_per_stock],
    [uniq_takeaway_order_per_report], [uniq_eps_year_per_report]. *)
Definition takeaway_key (x : ReportKeyTakeaway) : nat * nat := (tk_report x, order x).
Definition eps_key (x : EPSForecast) : nat * Z := (eps_report x, year x).

Definition unique_constraints (d : store) : Prop :=
  NoDup (stock_key <$> stocks d) /\ NoDup (report_key <$> reports d) /\
  NoDup (takeaway_key <$> takeaways d) /\ NoDup (eps_key <$> eps_forecasts d).

(** Primary keys number the rows of a table from 1 on, and every foreign
    key is the primary key of a row. *)
Definition keys_coherent (d : store) : Prop :=
  stock_id <$> stocks d = seq 1 (length (stocks d)) /\
  report_id <$> reports d = seq 1 (length (reports d)) /\
  Forall (fun r => (1 <= stock r <= length (stocks d))%nat) (reports d) /\
  Forall (fun x => (1 <= tk_report x <= length (reports d))%nat) (takeaways d) /\
  Forall (fun x => (1 <= eps_report x <= length (reports d))%nat) (eps_forecasts d).

Definition store_ok (d : store) : Prop := keys_coherent d /\ unique_constraints d.

(** The foreign keys resolve: the stock of every report is a row of the
    table of stocks, and the report of every takeaway and of every EPS
    forecast is a row of the table of reports. *)
Definition refs_resolve (d : store) : Prop :=
  (forall r, r ∈ reports d -> exists s, s ∈ stocks d /\ stock_id s = stock r) /\
  (forall x, x ∈ takeaways d -> exists r, r ∈ reports d /\ report_id r = tk_report x) /\
  (forall x, x ∈ eps_forecasts d -> exists r, r ∈ reports d /\ report_id r = eps_report x).

(** Two documents for the examples: the first has two records of one
    report (the second is a repetition) and a record without region. *)
Definition doc_repeated : value :=
  VList [VDict [("Ticker", VStr "XOM US"); ("Timestamp", VStr "2026-01-16_13-48");
                ("Rating", VStr "Not Rated"); ("2027E_EPS", VNum (11 # 10));
                ("Key_Takeaways", VList [VStr "a"; VStr "b"])];
         VDict [("Ticker", VStr "xom us"); ("Timestamp", VStr "2026-01-16_13-48")];
         VDict [("Ticker", VStr "XOM")]].

(** Stock A with three reports in the last 30 days, stock B with one. *)
Definition db_counts : store :=
  {| stocks := [stock_B; stock_A];
     reports := [report_sample 1 1 (days 98) "BUY" (Some 1%Q);
                 report_sample 2 1 (days 99) "BUY" (Some 2%Q);
                 report_sample 3 2 (days 90) "BUY" None;
                 report_sample 4 1 (days 80) "BUY" None;
                 report_sample 5 2 (days 10) "BUY" (Some 3%Q)];
     takeaways := []; eps_forecasts := [] |}.

(** Eleven stocks with the tickers [A] to [K]; stock [i] has one report,
    of day 99, with the upside [i]. *)
Definition stock_sample (i : nat) : Stock :=
  {| stock_id := i; ticker := String (ascii_of_nat (64 + i)) ""; region := "US";
     company_name := VStr ""; currency_code := "USD" |}.

Definition db_eleven : store :=
  {| stocks := stock_sample <$> seq 1 11;
     reports := (fun i => report_sample i i (days 99) "BUY"
                            (Some (inject_Z (Z.of_nat i)))) <$> seq 1 11;
     takeaways := []; eps_forecasts := [] |}.

(** * Properties *)

(** ** Keys of EPS fields *)

Lemma lit_Some p s t : lit p s = Some t <-> s = p +:+ t.
Proof.
  revert s. induction p as [| a p IH]; intros s; simpl.
  - split; [by intros [= ->] | by intros ->].
  - destruct s as [| b s]; [split; discriminate |].
    case_decide as Hab.
    + subst b. rewrite IH. split; [by intros -> | by intros [= ->]].
    + split; [discriminate | intros [= ? ?]; done].
Qed.

Lemma append_cancel_l p t t' : p +:+ t = p +:+ t' -> t = t'.
Proof. induction p as [| a p IH]; simpl; [done |]. intros [= ?]. auto. Qed.

Lemma dollar_eol t : dollar t = true <-> eol t.
Proof.
  unfold dollar, eol. destruct t as [| c [| c' t]].
  - split; auto.
  - case_decide as Hc; [subst c |]; split; auto; try discriminate.
    intros [| [= ?]]; done.
  - split; [discriminate | intros [| [= ? ?]]; done].
Qed.

Lemma ends_spec p s : ends p s = true <-> exists t, s = p +:+ t /\ eol t.
Proof.
  unfold ends. destruct (lit p s) as [t |] eqn:Hlit.
  - apply lit_Some in Hlit as ->. rewrite dollar_eol. split; [eauto |].
    intros (t' & Heq & Ht'). by rewrite (append_cancel_l _ _ _ Heq).
  - split; [discriminate |]. intros (t & -> & _).
    assert (lit p (p +:+ t) = Some t) by by apply lit_Some. congruence.
Qed.

Lemma digits_2 acc r y t :
  digits 2 acc r = Some (y, t) <->
  exists c1 c2, r = String c1 (String c2 t) /\ is_digit c1 = true /\
    is_digit c2 = true /\ y = 10 * (10 * acc + digit_val c1) + digit_val c2.
Proof.
  simpl. split.
  - destruct r as [| c1 [| c2 r]]; try discriminate;
      destruct (is_digit c1) eqn:H1; try discriminate.
    destruct (is_digit c2) eqn:H2; try discriminate.
    intros [= <- <-]. by exists c1, c2.
  - intros (c1 & c2 & -> & -> & -> & ->). done.
Qed.

Lemma digits_3 acc r y t :
  digits 3 acc r = Some (y, t) <->
  exists c1 c2 c3, r = String c1 (String c2 (String c3 t)) /\
    is_digit c1 = true /\ is_digit c2 = true /\ is_digit c3 = true /\
    y = 10 * (10 * (10 * acc + digit_val c1) + digit_val c2) + digit_val c3.
Proof.
  simpl. split.
  - destruct r as [| c1 [| c2 [| c3 r]]]; try discriminate;
      destruct (is_digit c1) eqn:H1; try discriminate;
      destruct (is_digit c2) eqn:H2; try discriminate.
    destruct (is_digit c3) eqn:H3; try discriminate.
    intros [= <- <-]. by exists c1, c2, c3.
  - intros (c1 & c2 & c3 & -> & -> & -> & -> & ->). done.
Qed.

Lemma digits_2_app acc c1 c2 t :
  is_digit c1 = true -> is_digit c2 = true ->
  digits 2 acc (String c1 (String c2 t)) =
  Some (10 * (10 * acc + digit_val c1) + digit_val c2, t).
Proof. intros H1 H2. apply digits_2. by exists c1, c2. Qed.

Lemma digits_3_app acc c1 c2 c3 t :
  is_digit c1 = true -> is_digit c2 = true -> is_digit c3 = true ->
  digits 3 acc (String c1 (String c2 (String c3 t))) =
  Some (10 * (10 * (10 * acc + digit_val c1) + digit_val c2) + digit_val c3, t).
Proof. intros H1 H2 H3. apply digits_3. by exists c1, c2, c3. Qed.

Lemma lit_20 r : lit "20" (String "2" (String "0" r)) = Some r.
Proof. by apply lit_Some. Qed.

Lemma lit_E t : lit "E" ("E_EPS" +:+ t) = Some ("_EPS" +:+ t).
Proof. by apply lit_Some. Qed.

Lemma EPS_YEAR_RE_spec key y :
  EPS_YEAR_RE key = Some y <-> key_form key y 3 \/ key_form key y 2.
Proof.
  unfold EPS_YEAR_RE. split.
  - destruct (lit "20" key) as [r |] eqn:Hr; [| discriminate].
    apply lit_Some in Hr as ->.
    destruct (digits 2 20 r) as [[year t] |] eqn:Hd; [| discriminate].
    apply digits_2 in Hd as (c1 & c2 & -> & H1 & H2 & ->).
    destruct (lit "E" t) as [t' |] eqn:HE.
    + apply lit_Some in HE as ->.
      destruct (ends "_EPS" t') eqn:He; simpl.
      * apply ends_spec in He as (t & -> & Ht). intros [= <-]. left.
        replace (10 * (10 * 20 + digit_val c1) + digit_val c2)
          with (2000 + 10 * digit_val c1 + digit_val c2) by lia.
        by apply (form_year_E c1 c2 t).
      * discriminate.
    + simpl. destruct (ends "_EPS" t) eqn:He; [| discriminate].
      apply ends_spec in He as (t' & -> & Ht). intros [= <-]. right.
      replace (10 * (10 * 20 + digit_val c1) + digit_val c2)
        with (2000 + 10 * digit_val c1 + digit_val c2) by lia.
      by apply (form_year c1 c2 t').
  - intros [Hf | Hf]; inversion Hf as [c1 c2 t H1 H2 Ht | c1 c2 t H1 H2 Ht |]; subst.
    + rewrite lit_20, (digits_2_app _ _ _ _ H1 H2), lit_E.
      assert (ends "_EPS" ("_EPS" +:+ t) = true) as -> by (apply ends_spec; eauto).
      simpl orb. cbv iota. f_equal. lia.
    + rewrite lit_20, (digits_2_app _ _ _ _ H1 H2).
      assert (ends "_EPS" ("_EPS" +:+ t) = true) as -> by (apply ends_spec; eauto).
      rewrite orb_true_r. f_equal. lia.
Qed.

Lemma EPS_CODE_RE_spec key code :
  EPS_CODE_RE key = Some code <-> key_form key (code + 1700) 1.
Proof.
  unfold EPS_CODE_RE. split.
  - destruct (digits 3 0 key) as [[c t] |] eqn:Hd; [| discriminate].
    apply digits_3 in Hd as (c1 & c2 & c3 & -> & H1 & H2 & H3 & ->).
    destruct (ends "_EPS" t) eqn:He; [| discriminate].
    apply ends_spec in He as (t' & -> & Ht). intros [= <-].
    replace (10 * (10 * (10 * 0 + digit_val c1) + digit_val c2) + digit_val c3 + 1700)
      with (100 * digit_val c1 + 10 * digit_val c2 + digit_val c3 + 1700) by lia.
    by apply (form_code c1 c2 c3 t').
  - intros Hf. inversion Hf as [| | c1 c2 c3 t H1 H2 H3 Ht Hk Hy]; subst.
    rewrite (digits_3_app _ _ _ _ _ H1 H2 H3).
    assert (ends "_EPS" ("_EPS" +:+ t) = true) as -> by (apply ends_spec; eauto).
    f_equal. lia.
Qed.

(** The three shapes exclude one another, and a key has one year. *)
Lemma key_form_fun key y p y' p' :
  key_form key y p -> key_form key y' p' -> y = y' /\ p = p'.
Proof.
  intros Hf Hf'.
  inversion Hf; subst; inversion Hf'; simplify_eq/=; try done;
    repeat match goal with
           | H : is_digit _ = true |- _ => by vm_compute in H
           | H : is_digit _ = true |- _ => clear H
           end.
Qed.

Lemma extract_eps_year_spec key y :
  extract_eps_year key = Some y <-> exists p, key_form key y p.
Proof.
  unfold extract_eps_year. split.
  - destruct (EPS_YEAR_RE key) as [year |] eqn:Hy.
    + intros [= <-]. apply EPS_YEAR_RE_spec in Hy as [? | ?]; eauto.
    + destruct (EPS_CODE_RE key) as [code |] eqn:Hc; [| discriminate].
      intros [= <-]. apply EPS_CODE_RE_spec in Hc. eauto.
  - intros [p Hf].
    destruct (EPS_YEAR_RE key) as [year |] eqn:Hy.
    + apply EPS_YEAR_RE_spec in Hy as [Hf' | Hf'];
        destruct (key_form_fun _ _ _ _ _ Hf Hf') as [-> _]; done.
    + destruct (EPS_CODE_RE key) as [code |] eqn:Hc.
      * apply EPS_CODE_RE_spec in Hc.
        destruct (key_form_fun _ _ _ _ _ Hf Hc) as [-> _]. done.
      * inversion Hf as [c1 c2 t H1 H2 Ht Hk | c1 c2 t H1 H2 Ht Hk
                        | c1 c2 c3 t H1 H2 H3 Ht Hk]; subst.
        -- assert (EPS_YEAR_RE (String "2" (String "0" (String c1 (String c2 ("E_EPS" +:+ t)))))
                   = Some (2000 + 10 * digit_val c1 + digit_val c2)) as Hs
             by (apply EPS_YEAR_RE_spec; by left). congruence.
        -- assert (EPS_YEAR_RE (String "2" (String "0" (String c1 (String c2 ("_EPS" +:+ t)))))
                   = Some (2000 + 10 * digit_val c1 + digit_val c2)) as Hs
             by (apply EPS_YEAR_RE_spec; by right). congruence.
        -- assert (EPS_CODE_RE (String c1 (String c2 (String c3 ("_EPS" +:+ t))))
                   = Some (100 * digit_val c1 + 10 * digit_val c2 + digit_val c3)) as Hs
             by (by apply EPS_CODE_RE_spec). congruence.
Qed.

Lemma re_year_E_spec key : re_year_E key = true <-> exists y, key_form key y 3.
Proof.
  unfold re_year_E. split.
  - destruct (lit "20" key) as [r |] eqn:Hr; [| discriminate].
    apply lit_Some in Hr as ->.
    destruct (digits 2 20 r) as [[year t] |] eqn:Hd; [| discriminate].
    apply digits_2 in Hd as (c1 & c2 & -> & H1 & H2 & ->).
    intros (t' & -> & Ht)%ends_spec. eexists. by apply (form_year_E c1 c2 t').
  - intros [y Hf]. inversion Hf as [c1 c2 t H1 H2 Ht | |]; subst.
    rewrite lit_20, (digits_2_app _ _ _ _ H1 H2). apply ends_spec. eauto.
Qed.

Lemma re_year_plain_spec key : re_year_plain key = true <-> exists y, key_form key y 2.
Proof.
  unfold re_year_plain. split.
  - destruct (lit "20" key) as [r |] eqn:Hr; [| discriminate].
    apply lit_Some in Hr as ->.
    destruct (digits 2 20 r) as [[year t] |] eqn:Hd; [| discriminate].
    apply digits_2 in Hd as (c1 & c2 & -> & H1 & H2 & ->).
    intros (t' & -> & Ht)%ends_spec. eexists. by apply (form_year c1 c2 t').
  - intros [y Hf]. inversion Hf as [| c1 c2 t H1 H2 Ht |]; subst.
    rewrite lit_20, (digits_2_app _ _ _ _ H1 H2). apply ends_spec. eauto.
Qed.

Lemma re_code_spec key : re_code key = true <-> exists y, key_form key y 1.
Proof.
  unfold re_code. split.
  - destruct (digits 3 0 key) as [[c t] |] eqn:Hd; [| discriminate].
    apply digits_3 in Hd as (c1 & c2 & c3 & -> & H1 & H2 & H3 & ->).
    intros (t' & -> & Ht)%ends_spec. eexists. by apply (form_code c1 c2 c3 t').
  - intros [y Hf]. inversion Hf as [| | c1 c2 c3 t H1 H2 H3 Ht]; subst.
    rewrite (digits_3_app _ _ _ _ _ H1 H2 H3). apply ends_spec. eauto.
Qed.

Lemma eps_priority_spec key y p : key_form key y p -> eps_priority key = p.
Proof.
  intros Hf. unfold eps_priority.
  destruct (re_year_E key) eqn:H3.
  { apply re_year_E_spec in H3 as [y' Hf']. by destruct (key_form_fun _ _ _ _ _ Hf' Hf). }
  destruct (re_year_plain key) eqn:H2.
  { apply re_year_plain_spec in H2 as [y' Hf']. by destruct (key_form_fun _ _ _ _ _ Hf' Hf). }
  destruct (re_code key) eqn:H1.
  { apply re_code_spec in H1 as [y' Hf']. by destruct (key_form_fun _ _ _ _ _ Hf' Hf). }
  exfalso. inversion Hf; subst.
  - enough (re_year_E (String "2" (String "0" (String c1 (String c2 ("E_EPS" +:+ t))))) = true)
      by congruence. apply re_year_E_spec. eauto.
  - enough (re_year_plain (String "2" (String "0" (String c1 (String c2 ("_EPS" +:+ t))))) = true)
      by congruence. apply re_year_plain_spec. eauto.
  - enough (re_code (String c1 (String c2 (String c3 ("_EPS" +:+ t)))) = true)
      by congruence. apply re_code_spec. eauto.
Qed.

(** *** The keys, by their characters *)








(** ** The EPS resolver *)

Section ResolverProperties.

Variable Decimal : string -> option Q.

Lemma eps_loop_snoc item kv st :
  eps_loop Decimal (item ++ [kv]) st =
  (st' <- eps_loop Decimal item st ;; eps_step Decimal kv st').
Proof.
  revert st. induction item as [| a item IH]; intros st; simpl.
  - by destruct (eps_step Decimal kv st).
  - destruct (eps_step Decimal a st) as [st' | e]; simpl; [apply IH | done].
Qed.

Lemma to_decimal_nonempty v r :
  is_empty v = false -> to_decimal Decimal v = Ok r -> exists q, r = Some q.
Proof.
  unfold to_decimal. intros ->.
  destruct v as [| | q | s | |]; try discriminate.
  - intros [= <-]. by eexists.
  - destruct (Decimal s); [intros [= <-]; by eexists | discriminate].
Qed.

Lemma wins_snoc_skip item y i kv x :
  ~ candidate y x -> wins item y i kv -> wins (item ++ [x]) y i kv.
Proof.
  intros Hx (Hi & Hc & Hall & Hbefore). repeat split; try apply Hc.
  - by apply lookup_app_l_Some.
  - intros j kv' [[_ Hj] | [_ <-]]%lookup_snoc_Some Hc'; [eauto | done].
  - intros j kv' Hlt [[_ Hj] | [_ <-]]%lookup_snoc_Some Hc'; [eauto | done].
Qed.

Lemma wins_snoc_keep item y i kv x :
  eps_priority x.1 <= eps_priority kv.1 ->
  wins item y i kv -> wins (item ++ [x]) y i kv.
Proof.
  intros Hle (Hi & Hc & Hall & Hbefore). repeat split; try apply Hc.
  - by apply lookup_app_l_Some.
  - intros j kv' [[_ Hj] | [_ <-]]%lookup_snoc_Some Hc'; [eauto | done].
  - intros j kv' Hlt [[_ Hj] | [Hj <-]]%lookup_snoc_Some Hc'; [eauto |].
    apply lookup_lt_Some in Hi. lia.
Qed.

Lemma wins_snoc_new item y x :
  candidate y x ->
  (forall j kv', item !! j = Some kv' -> candidate y kv' ->
     eps_priority kv'.1 < eps_priority x.1) ->
  wins (item ++ [x]) y (length item) x.
Proof.
  intros Hc Hlt. repeat split; try apply Hc.
  - by apply list_lookup_middle.
  - intros j kv' [[_ Hj] | [_ <-]]%lookup_snoc_Some Hc'; [| done].
    specialize (Hlt _ _ Hj Hc'). lia.
  - intros j kv' Hj [[_ Hj'] | [Hj' _]]%lookup_snoc_Some Hc'; [eauto | lia].
Qed.

Lemma eps_inv_nil : eps_inv Decimal [] (∅, ∅).
Proof. intros y. simpl. rewrite lookup_empty. by intros kv ?%elem_of_nil. Qed.

Lemma eps_step_inv item kv st st' :
  eps_inv Decimal item st -> eps_step Decimal kv st = Ok st' -> eps_inv Decimal (item ++ [kv]) st'.
Proof.
  intros Hinv. unfold eps_step.
  assert (Hskip : (forall y, ~ candidate y kv) -> eps_inv Decimal (item ++ [kv]) st).
  { intros Hno y. specialize (Hinv y). destruct (st.1 !! y) as [q |].
    - destruct Hinv as (i & w & Hw & Hd & Hp). exists i, w.
      split; [apply wins_snoc_skip; auto | done].
    - intros w [Hin | ->%list_elem_of_singleton]%elem_of_app; [by apply Hinv | apply Hno]. }
  destruct (extract_eps_year kv.1) as [year |] eqn:Hyear;
    [| intros [= <-]; apply Hskip; intros y [? _]; congruence].
  destruct (is_empty kv.2) eqn:Hempty;
    [intros [= <-]; apply Hskip; intros y [_ ?]; congruence |].
  assert (Hcand : candidate year kv) by done.
  assert (Hother : forall y, y <> year -> ~ candidate y kv).
  { intros y Hne [Hy _]. congruence. }
  pose proof (Hinv year) as Hold.
  destruct (st.1 !! year) as [q0 |] eqn:Hby; simpl.
  - destruct Hold as (i & w & Hw & Hd & Hp). rewrite Hp. simpl.
    destruct (Z.ltb_spec (eps_priority w.1) (eps_priority kv.1)) as [Hlt | Hge].
    + destruct (to_decimal Decimal kv.2) as [r | e] eqn:Hdec; simpl; [| done].
      destruct (to_decimal_nonempty _ _ Hempty Hdec) as [q ->].
      intros [= <-] y. simpl. destruct (decide (y = year)) as [-> | Hne].
      * rewrite !lookup_insert_eq. exists (length item), kv.
        split; [| done]. apply wins_snoc_new; [done |].
        intros j kv' Hj Hc'. destruct Hw as (_ & _ & Hall & _).
        specialize (Hall _ _ Hj Hc'). lia.
      * rewrite !lookup_insert_ne by done. specialize (Hinv y).
        destruct (st.1 !! y) as [q' |].
        -- destruct Hinv as (i' & w' & Hw' & Hd' & Hp'). exists i', w'.
           split; [apply wins_snoc_skip; auto | done].
        -- intros w' [Hin | ->%list_elem_of_singleton]%elem_of_app;
             [by apply Hinv | by apply Hother].
    + intros [= <-] y. destruct (decide (y = year)) as [-> | Hne].
      * rewrite Hby. exists i, w. split; [by apply wins_snoc_keep | done].
      * specialize (Hinv y). destruct (st.1 !! y) as [q' |].
        -- destruct Hinv as (i' & w' & Hw' & Hd' & Hp'). exists i', w'.
           split; [apply wins_snoc_skip; auto | done].
        -- intros w' [Hin | ->%list_elem_of_singleton]%elem_of_app;
             [by apply Hinv | by apply Hother].
  - destruct (to_decimal Decimal kv.2) as [r | e] eqn:Hdec; simpl; [| done].
    destruct (to_decimal_nonempty _ _ Hempty Hdec) as [q ->].
    intros [= <-] y. simpl. destruct (decide (y = year)) as [-> | Hne].
    + rewrite !lookup_insert_eq. exists (length item), kv.
      split; [| done]. apply wins_snoc_new; [done |].
      intros j kv' Hj Hc'. exfalso. eapply Hold; [| done].
      apply list_elem_of_lookup. eauto.
    + rewrite !lookup_insert_ne by done. specialize (Hinv y).
      destruct (st.1 !! y) as [q' |].
      * destruct Hinv as (i' & w' & Hw' & Hd' & Hp'). exists i', w'.
        split; [apply wins_snoc_skip; auto | done].
      * intros w' [Hin | ->%list_elem_of_singleton]%elem_of_app;
          [by apply Hinv | by apply Hother].
Qed.

Lemma eps_loop_inv item st :
  eps_loop Decimal item (∅, ∅) = Ok st -> eps_inv Decimal item st.
Proof.
  revert st. induction item as [| kv item IH] using rev_ind; intros st.
  - intros [= <-]. apply eps_inv_nil.
  - rewrite eps_loop_snoc.
    destruct (eps_loop Decimal item (∅, ∅)) as [st0 | e]; simpl; [| done].
    apply eps_step_inv. by apply IH.
Qed.

Lemma wins_unique item y i kv i' kv' :
  wins item y i kv -> wins item y i' kv' -> i = i' /\ kv = kv'.
Proof.
  intros (Hi & Hc & Hall & Hbefore) (Hi' & Hc' & Hall' & Hbefore').
  assert (i = i') as <-.
  { destruct (Nat.lt_trichotomy i i') as [Hlt | [? | Hlt]]; [| done |].
    - specialize (Hbefore' _ _ Hlt Hi Hc). specialize (Hall _ _ Hi' Hc'). lia.
    - specialize (Hbefore _ _ Hlt Hi' Hc'). specialize (Hall' _ _ Hi Hc). lia. }
  split; congruence.
Qed.


#[local] Instance tuple_le_total : Total tuple_le.
Proof.
  intros a b. unfold tuple_le.
  destruct (Z.lt_trichotomy a.1 b.1) as [? | [? | ?]]; [by left; left | | by right; left].
  destruct (Qlt_le_dec b.2 a.2) as [?%Qlt_le_weak | ?]; [right | left]; by right.
Qed.

#[local] Instance tuple_le_trans : Transitive tuple_le.
Proof.
  intros a b c [? | [? Hab]] [? | [? Hbc]]; unfold tuple_le;
    [left; lia | left; lia | left; lia |].
  right. split; [lia |]. by apply Qle_trans with b.2.
Qed.

Lemma StronglySorted_fst_lt (l : list (Z * Q)) :
  StronglySorted tuple_le l -> NoDup l.*1 ->
  StronglySorted (fun a b => a.1 < b.1) l.
Proof.
  induction 1 as [| a l Hs IH Hall]; intros Hnd; [constructor |].
  apply NoDup_cons in Hnd as [Hnotin Hnd]. constructor; [by apply IH |].
  apply Forall_forall. intros b Hb.
  assert (a.1 <> b.1).
  { intros Heq. apply Hnotin. rewrite Heq. by apply list_elem_of_fmap_2. }
  rewrite Forall_forall in Hall. destruct (Hall b Hb) as [? | [? _]]; [done | congruence].
Qed.

(** The rows are the content of [eps_by_year], in ascending order of year. *)
Lemma resolve_eps_rows item st :
  eps_loop Decimal item (∅, ∅) = Ok st ->
  resolve_eps Decimal item = Ok (merge_sort tuple_le (map_to_list st.1)) /\
  StronglySorted (fun a b => a.1 < b.1) (merge_sort tuple_le (map_to_list st.1)) /\
  (forall y q, (y, q) ∈ merge_sort tuple_le (map_to_list st.1) <-> st.1 !! y = Some q).
Proof.
  intros Hst. unfold resolve_eps. rewrite Hst. simpl. split; [done |]. split.
  - apply StronglySorted_fst_lt; [apply StronglySorted_merge_sort; apply _ |].
    rewrite merge_sort_Permutation. apply NoDup_fst_map_to_list.
  - intros y q. rewrite merge_sort_Permutation. apply elem_of_map_to_list.
Qed.

(** The value kept for a year is the value of the first entry of greatest
    priority among the entries that count for that year. *)
Lemma resolve_eps_wins item rows y q :
  resolve_eps Decimal item = Ok rows ->
  (y, q) ∈ rows <->
  exists i kv, wins item y i kv /\ to_decimal Decimal kv.2 = Ok (Some q).
Proof.
  unfold resolve_eps.
  destruct (eps_loop Decimal item (∅, ∅)) as [st | e] eqn:Hst; simpl; [| done].
  intros [= <-]. destruct (resolve_eps_rows _ _ Hst) as (_ & _ & ->).
  pose proof (eps_loop_inv _ _ Hst y) as Hinv. split.
  - intros Hq. rewrite Hq in Hinv. destruct Hinv as (i & kv & ? & ? & _). eauto.
  - intros (i & kv & Hw & Hd). destruct (st.1 !! y) as [q' |].
    + destruct Hinv as (i' & kv' & Hw' & Hd' & _).
      destruct (wins_unique _ _ _ _ _ _ Hw Hw') as [_ <-]. congruence.
    + destruct Hw as (Hi & Hc & _). exfalso. eapply Hinv; [| done].
      apply list_elem_of_lookup. eauto.
Qed.

Lemma resolve_eps_wins_value item rows y i kv :
  resolve_eps Decimal item = Ok rows -> wins item y i kv ->
  exists q, to_decimal Decimal kv.2 = Ok (Some q) /\
    forall q', (y, q') ∈ rows <-> q' = q.
Proof.
  unfold resolve_eps.
  destruct (eps_loop Decimal item (∅, ∅)) as [st | e] eqn:Hst; simpl; [| done].
  intros [= <-] Hw. destruct (resolve_eps_rows _ _ Hst) as (_ & _ & Hrows).
  pose proof (eps_loop_inv _ _ Hst y) as Hinv.
  destruct (st.1 !! y) as [q |] eqn:Hy.
  - destruct Hinv as (i' & kv' & Hw' & Hd' & _).
    destruct (wins_unique _ _ _ _ _ _ Hw Hw') as [_ <-].
    exists q. split; [done |]. intros q'. rewrite Hrows, Hy. split; congruence.
  - destruct Hw as (Hi & Hc & _). exfalso. eapply Hinv; [| done].
    apply list_elem_of_lookup. eauto.
Qed.




(** C3, as the code has it.  When two keys of a record resolve to the same
    year with equal priority, the later one never provides the value kept
    for that year; and when theirs is the greatest priority for the year
    and the earlier key is the first of that priority, the value kept is
    the earlier key's. *)
Theorem eps_tie_first_wins (item : list (string * value)) rows y i j ki kj :
  resolve_eps Decimal item = Ok rows ->
  (i < j)%nat -> item !! i = Some ki -> item !! j = Some kj ->
  candidate y ki -> candidate y kj ->
  eps_priority ki.1 = eps_priority kj.1 ->
  (forall q, (y, q) ∈ rows ->
     exists w kv, w <> j /\ wins item y w kv /\
       to_decimal Decimal kv.2 = Ok (Some q)) /\
  ((forall m km, item !! m = Some km -> candidate y km ->
      eps_priority km.1 <= eps_priority ki.1) ->
   (forall m km, (m < i)%nat -> item !! m = Some km -> candidate y km ->
      eps_priority km.1 < eps_priority ki.1) ->
   exists q, to_decimal Decimal ki.2 = Ok (Some q) /\
     forall q', (y, q') ∈ rows <-> q' = q).
Proof.
  intros Hr Hij Hi Hj Hci Hcj Hpri. split.
  - intros q (w & kv & Hw & Hd)%(resolve_eps_wins _ _ _ _ Hr).
    exists w, kv. split; [| done]. intros ->.
    destruct Hw as (Hj' & _ & _ & Hbefore).
    assert (kv = kj) as -> by congruence.
    specialize (Hbefore _ _ Hij Hi Hci). lia.
  - intros Hall Hbefore. by apply (resolve_eps_wins_value item rows y i ki).
Qed.

End ResolverProperties.


(** ** Strings *)

Lemma is_space_upper_char c : is_space (upper_char c) = is_space c.
Proof. destruct c as [[] [] [] [] [] [] [] []]; reflexivity. Qed.

Lemma upper_char_idemp c : upper_char (upper_char c) = upper_char c.
Proof. destruct c as [[] [] [] [] [] [] [] []]; reflexivity. Qed.

Lemma append_cons c s t : String c s +:+ t = String c (s +:+ t).
Proof. reflexivity. Qed.

Lemma append_nil_r s : s +:+ "" = s.
Proof. induction s as [| c s IH]; [done |]. by rewrite append_cons, IH. Qed.

Lemma append_assoc s1 s2 s3 : (s1 +:+ s2) +:+ s3 = s1 +:+ (s2 +:+ s3).
Proof. induction s1 as [| c s1 IH]; [done |]. by rewrite !append_cons, IH. Qed.

Lemma upper_idemp s : upper (upper s) = upper s.
Proof. induction s as [| c s IH]; simpl; [done |]. by rewrite upper_char_idemp, IH. Qed.

Lemma lstrip_upper s : lstrip (upper s) = upper (lstrip s).
Proof.
  induction s as [| c s IH]; simpl; [done |]. rewrite is_space_upper_char.
  by destruct (is_space c).
Qed.

Lemma rstrip_upper s : rstrip (upper s) = upper (rstrip s).
Proof.
  induction s as [| c s IH]; simpl; [done |]. rewrite IH, is_space_upper_char.
  destruct (rstrip s); simpl; [by destruct (is_space c) | done].
Qed.

Lemma strip_upper s : strip (upper s) = upper (strip s).
Proof. unfold strip. by rewrite lstrip_upper, rstrip_upper. Qed.

Lemma rstrip_cons c s : is_space c = false -> rstrip (String c s) = String c (rstrip s).
Proof. intros Hc. simpl. rewrite Hc. by destruct (rstrip s). Qed.

Lemma lstrip_head s c s' : lstrip s = String c s' -> is_space c = false.
Proof.
  induction s as [| a s IH]; simpl; [done |].
  destruct (is_space a) eqn:Ha; [done |]. by intros [= <- <-].
Qed.

Lemma lstrip_no_space s : has_space s = false -> lstrip s = s.
Proof. destruct s as [| c s]; simpl; [done |]. by intros [-> _]%orb_false_iff. Qed.

Lemma rstrip_no_space s : has_space s = false -> rstrip s = s.
Proof.
  induction s as [| c s IH]; simpl; [done |].
  intros [Hc Hs]%orb_false_iff. rewrite IH, Hc by done. by destruct s.
Qed.

Lemma strip_no_space s : has_space s = false -> strip s = s.
Proof. intros Hs. unfold strip. by rewrite lstrip_no_space, rstrip_no_space. Qed.

Lemma rstrip_idemp s : rstrip (rstrip s) = rstrip s.
Proof.
  induction s as [| c s IH]; simpl; [done |].
  destruct (rstrip s) as [| a r] eqn:Hr.
  - destruct (is_space c) eqn:Hc; simpl; [done | by rewrite Hc].
  - cbn [rstrip]. cbn [rstrip] in IH. by rewrite IH.
Qed.

Lemma strip_idemp s : strip (strip s) = strip s.
Proof.
  unfold strip. destruct (lstrip s) as [| c s'] eqn:Hl; [done |].
  pose proof (lstrip_head _ _ _ Hl) as Hc.
  rewrite (rstrip_cons _ _ Hc). cbn [lstrip]. rewrite Hc.
  by rewrite <- (rstrip_cons _ _ Hc), rstrip_idemp.
Qed.

Lemma has_space_ws_sub s b : has_space (ws_sub s b) = false.
Proof.
  revert b. induction s as [| c s IH]; intros b; simpl; [done |].
  destruct (is_space c) eqn:Hc; [destruct b |]; simpl; rewrite ?IH, ?Hc; done.
Qed.

Lemma ws_sub_no_space s b : has_space s = false -> ws_sub s b = s.
Proof.
  revert b. induction s as [| c s IH]; intros b; simpl; [done |].
  intros [-> Hs]%orb_false_iff. by rewrite IH.
Qed.

Lemma upper_ws_sub s b : upper (ws_sub s b) = ws_sub (upper s) b.
Proof.
  revert b. induction s as [| c s IH]; intros b; simpl; [done |].
  rewrite is_space_upper_char.
  destruct (is_space c); [destruct b |]; simpl; by rewrite IH.
Qed.

(** *** The classes and the text functions, by their characters *)

Lemma is_space_whitespace c : is_space c = true <-> whitespace c.
Proof.
  unfold is_space, whitespace.
  rewrite orb_true_iff, !andb_true_iff, !Nat.leb_le, !elem_of_cons, elem_of_nil. lia.
Qed.

Lemma is_space_not_whitespace c : is_space c = false <-> ~ whitespace c.
Proof. rewrite <- is_space_whitespace. by destruct (is_space c). Qed.

Lemma capital_of_upper_char c u : capital_of c u <-> u = upper_char c.
Proof.
  unfold capital_of, upper_char.
  pose proof (nat_ascii_bounded c) as Hc.
  destruct ((97 <=? nat_of_ascii c) && (nat_of_ascii c <=? 122))%nat eqn:Hb.
  - apply andb_true_iff in Hb as [H1%Nat.leb_le H2%Nat.leb_le]. split.
    + intros [[_ Hu] | [Hn _]]; [| lia].
      rewrite <- (ascii_nat_embedding u). f_equal. lia.
    + intros ->. left. split; [lia |]. rewrite nat_ascii_embedding by lia. lia.
  - assert (~ (97 <= nat_of_ascii c <= 122)%nat) as Hn.
    { intros [H1%Nat.leb_le H2%Nat.leb_le]. by rewrite H1, H2 in Hb. }
    split; [intros [[? _] | [_ ?]]; done | intros ->; by right].
Qed.

Lemma uppercased_upper m n : uppercased m n <-> n = upper m.
Proof.
  unfold uppercased. revert n. induction m as [| c m IH]; intros n; simpl.
  - destruct n; simpl; split; try done; inversion 1.
  - destruct n as [| u n]; simpl; [split; [inversion 1 | done] |].
    split.
    + intros [Hc Hm]%Forall2_cons. apply capital_of_upper_char in Hc as ->.
      apply IH in Hm as ->. done.
    + intros [= -> ->]. apply Forall2_cons. split; [by apply capital_of_upper_char |].
      by apply IH.
Qed.

Lemma all_whitespace_nil : all_whitespace "".
Proof. constructor. Qed.

Lemma all_whitespace_cons c s :
  all_whitespace (String c s) <-> is_space c = true /\ all_whitespace s.
Proof.
  unfold all_whitespace. simpl. rewrite Forall_cons, is_space_whitespace. done.
Qed.

Lemma lstrip_all_whitespace l x : all_whitespace l -> lstrip (l +:+ x) = lstrip x.
Proof.
  induction l as [| c l IH]; [done |].
  intros [Hc Hl]%all_whitespace_cons. rewrite append_cons. simpl. rewrite Hc. auto.
Qed.

Lemma lstrip_whitespace r : all_whitespace r -> lstrip r = "".
Proof.
  induction r as [| c r IH]; [done |].
  intros [Hc Hr]%all_whitespace_cons. simpl. rewrite Hc. auto.
Qed.

Lemma rstrip_all_whitespace x r : all_whitespace r -> rstrip (x +:+ r) = rstrip x.
Proof.
  intros Hr.
  assert (rstrip r = "") as Hnil.
  { induction r as [| c r IH]; [done |].
    apply all_whitespace_cons in Hr as [Hc Hr]. simpl. by rewrite IH, Hc. }
  induction x as [| a x IH]; [done |].
  rewrite append_cons. simpl. by rewrite IH.
Qed.

Lemma rstrip_no_trailing m :
  (forall m' c, m = m' +:+ String c "" -> ~ whitespace c) -> rstrip m = m.
Proof.
  induction m as [| a m IH]; [done |]. intros Hlast. simpl. rewrite IH.
  - destruct m as [| b m]; [| done].
    rewrite (proj2 (is_space_not_whitespace a)); [done |]. by apply (Hlast "").
  - intros m' c ->. by apply (Hlast (String a m')).
Qed.

Lemma lstrip_decompose s : exists l, s = l +:+ lstrip s /\ all_whitespace l.
Proof.
  induction s as [| c s (l & Hl & Hws)];
    [exists ""; split; [done | apply all_whitespace_nil] |]. simpl.
  destruct (is_space c) eqn:Hc.
  - exists (String c l). split; [by rewrite append_cons, <- Hl |].
    by apply all_whitespace_cons.
  - exists "". split; [done | apply all_whitespace_nil].
Qed.

Lemma rstrip_decompose x : exists r, x = rstrip x +:+ r /\ all_whitespace r.
Proof.
  induction x as [| a x (r & Hr & Hws)];
    [exists ""; split; [done | apply all_whitespace_nil] |]. simpl.
  destruct (rstrip x) as [| b t] eqn:Ht.
  - change ("" +:+ r) with r in Hr. subst x. destruct (is_space a) eqn:Ha.
    + exists (String a r). split; [done | by apply all_whitespace_cons].
    + by exists r.
  - exists r. split; [| done]. rewrite Hr at 1. done.
Qed.

Lemma rstrip_last x m' c : rstrip x = m' +:+ String c "" -> ~ whitespace c.
Proof.
  revert m'. induction x as [| a x IH]; intros m'; simpl.
  { by destruct m'. }
  destruct (rstrip x) as [| b t] eqn:Ht.
  - destruct (is_space a) eqn:Ha; [by destruct m' |].
    destruct m' as [| a' [| ? ?]]; try done.
    intros [= <-]. by apply is_space_not_whitespace.
  - destruct m' as [| a' m']; [done |]. rewrite append_cons.
    intros [= <- Heq]. by apply (IH m').
Qed.

(** [str.strip] cuts the white space of the two ends, and nothing else. *)
Lemma trimmed_strip s m : trimmed s m <-> m = strip s.
Proof.
  unfold strip. split.
  - intros (l & r & -> & Hl & Hr & Hfirst & Hlast).
    rewrite (lstrip_all_whitespace _ _ Hl). destruct m as [| c m].
    + change ("" +:+ r) with r. by rewrite (lstrip_whitespace _ Hr).
    + rewrite append_cons. simpl.
      rewrite (proj2 (is_space_not_whitespace c)) by by eapply Hfirst.
      rewrite <- append_cons, (rstrip_all_whitespace _ _ Hr).
      by rewrite rstrip_no_trailing.
  - intros ->. destruct (lstrip_decompose s) as (l & Hl & Hws).
    destruct (rstrip_decompose (lstrip s)) as (r & Hr & Hwr).
    exists l, r. split; [by rewrite <- Hr |]. split; [done |]. split; [done |]. split.
    + intros c m' Hm. destruct (lstrip s) as [| c' t] eqn:Hs; [done |].
      pose proof (lstrip_head _ _ _ Hs) as Hc'.
      rewrite (rstrip_cons _ _ Hc') in Hm. injection Hm as -> _.
      by apply is_space_not_whitespace.
    + intros m' c Hm. by eapply rstrip_last.
Qed.

(** [UppercaseCharField.normalize] trims and uppercases. *)
Lemma normal_form_spec s n : normal_form_of s n <-> n = UppercaseCharField_normalize s.
Proof.
  assert (UppercaseCharField_normalize s = upper (strip s)) as ->.
  { unfold UppercaseCharField_normalize. by case_decide as Hs; [subst |]. }
  unfold normal_form_of. split.
  - intros (m & ->%trimmed_strip & Hn%uppercased_upper). done.
  - intros ->. exists (strip s). split; [by apply trimmed_strip | by apply uppercased_upper].
Qed.

(** What follows a run of white space is read as if nothing came before. *)
Lemma ws_sub_run m :
  exists ws rest, m = ws +:+ rest /\ all_whitespace ws /\
    (forall c m', rest = String c m' -> ~ whitespace c) /\
    ws_sub m true = ws_sub rest false /\
    (String.length rest <= String.length m)%nat.
Proof.
  induction m as [| c m (ws & rest & Hm & Hws & Hrest & Hsub & Hlen)].
  { exists "", "". split; [done |]. split; [apply all_whitespace_nil | done]. }
  destruct (is_space c) eqn:Hc.
  - exists (String c ws), rest. split; [by rewrite append_cons, <- Hm |].
    split; [by apply all_whitespace_cons |]. split; [done |].
    split; [simpl; by rewrite Hc | simpl; lia].
  - exists "", (String c m). split; [done |]. split; [apply all_whitespace_nil |]. split.
    + intros c' m' [= <- <-]. by apply is_space_not_whitespace.
    + split; [simpl; by rewrite Hc | done].
Qed.

(** [re.sub(r"\s+", "_", m)] puts one underscore for each run of white
    space. *)
Lemma underscored_ws_sub m : underscored m (ws_sub m false).
Proof.
  remember (String.length m) as k eqn:Hk. revert m Hk.
  induction k as [k IH] using lt_wf_ind. intros m ->.
  destruct m as [| c m]; [constructor |]. simpl.
  destruct (is_space c) eqn:Hc.
  - destruct (ws_sub_run m) as (ws & rest & -> & Hws & Hrest & -> & Hlen).
    rewrite <- append_cons. apply underscored_run; [done | | done |].
    + by apply all_whitespace_cons.
    + eapply IH; [| done]. simpl. lia.
  - apply underscored_char; [by apply is_space_not_whitespace |].
    eapply IH; [| done]. simpl. lia.
Qed.

(** ** The importer *)

Lemma elem_of_enumerate {A} (l : list A) n i x :
  (i, x) ∈ enumerate n l <-> (n <= i)%nat /\ l !! (i - n)%nat = Some x.
Proof.
  revert n. induction l as [| a l IH]; intros n; simpl.
  - rewrite elem_of_nil. split; [done | by intros [_ ?]].
  - rewrite elem_of_cons, IH. split.
    + intros [[= -> ->] | [Hle Hl]].
      * split; [lia |]. by rewrite Nat.sub_diag.
      * split; [lia |]. by replace (i - n)%nat with (S (i - S n)) by lia.
    + intros [Hle Hl]. destruct (decide (i = n)) as [-> | Hne].
      * left. rewrite Nat.sub_diag in Hl. by injection Hl as ->.
      * right. split; [lia |].
        by replace (i - n)%nat with (S (i - S n)) in Hl by lia.
Qed.

Lemma enumerate_fst {A} (l : list A) n : (enumerate n l).*1 = seq n (length l).
Proof. revert n. induction l as [| a l IH]; intros n; simpl; [done |]. by rewrite IH. Qed.

Lemma StronglySorted_seq n len : StronglySorted lt (seq n len).
Proof.
  revert n. induction len as [| len IH]; intros n; simpl; constructor; [apply IH |].
  apply Forall_forall. intros i Hi%list_elem_of_In%in_seq. lia.
Qed.

Lemma StronglySorted_filter_fst {A} (P : nat * A -> Prop) `{!forall x, Decision (P x)}
    (l : list (nat * A)) :
  StronglySorted lt l.*1 -> StronglySorted lt (filter P l).*1.
Proof.
  induction l as [| a l IH]; [done |]. rewrite fmap_cons. intros Hs.
  apply StronglySorted_inv in Hs as [Hs Hall]. rewrite filter_cons.
  destruct (decide (P a)); [| by apply IH]. rewrite fmap_cons.
  constructor; [by apply IH |].
  rewrite Forall_forall in Hall |- *. intros i (x & -> & Hx)%list_elem_of_fmap.
  apply list_elem_of_filter in Hx as [_ Hx]. apply Hall. by apply list_elem_of_fmap_2.
Qed.

Lemma elem_of_takeaway_rows l i x :
  (i, x) ∈ takeaway_rows l <-> l !! i = Some x /\ truthy x = true.
Proof.
  unfold takeaway_rows. rewrite list_elem_of_filter, elem_of_enumerate. simpl.
  rewrite Nat.sub_0_r. split; [intros (? & _ & ?) | intros [? ?]; split; [| split]]; auto.
  lia.
Qed.

Section ImporterProperties.

Variable Decimal : string -> option Q.
Variable strptime : string -> option Z.
Variable clock : nat -> Z.
Variable py_str : value -> string.

(** *** What the store's operations leave alone *)

Lemma Stock_get_or_create_frame t r cn cur d s created d' :
  Stock_get_or_create py_str t r cn cur d = (s, created, d') ->
  reports d' = reports d /\ takeaways d' = takeaways d /\
  eps_forecasts d' = eps_forecasts d /\
  stocks d' = if created then stocks d ++ [s] else stocks d.
Proof.
  unfold Stock_get_or_create.
  destruct (list_find _ (stocks d)) as [[k s0] |]; intros [= <- <- <-]; done.
Qed.

Lemma DailyReport_get_or_create_frame s ts f w r created w' :
  DailyReport_get_or_create clock s ts f w = (Ok (r, created), w') ->
  stocks (db w') = stocks (db w) /\ takeaways (db w') = takeaways (db w) /\
  eps_forecasts (db w') = eps_forecasts (db w) /\
  reports (db w') = if created then reports (db w) ++ [r] else reports (db w).
Proof.
  unfold DailyReport_get_or_create.
  destruct (list_find _ (reports (db w))) as [[k r0] |]; [by intros [= <- <- <-] |].
  simpl. destruct (save_defaults f); intros [= <- <- <-]; done.
Qed.

(** The rows of the second [bulk_create] keep their years. *)
Lemma save_eps_rows_fst eps_rows saved : save_eps_rows eps_rows = Ok saved -> saved.*1 = eps_rows.*1.
Proof.
  revert saved. induction eps_rows as [| [y q] rest IH]; intros saved; simpl.
  { by intros [= <-]. }
  destruct (quantize 18 6 q) as [q' |]; simpl; [| done].
  destruct (save_eps_rows rest) as [rest' |]; simpl; [| done].
  intros [= <-]. rewrite !fmap_cons. simpl. f_equal. by apply IH.
Qed.

Lemma write_record_takeaways t r ts cn cur f kt eps_rows w w' l :
  iterate kt = Ok l ->
  write_record clock py_str t r ts cn cur f kt eps_rows w = (Ok true, w') ->
  exists rid,
    takeaways (db w') = takeaways (db w) ++
      ((fun it => {| tk_report := rid; order := it.1; text := it.2 |}) <$> takeaway_rows l).
Proof.
  intros Hl. unfold write_record.
  destruct (Stock_get_or_create _ _ _ _ _ _) as [[s b] d1] eqn:Hs.
  destruct (DailyReport_get_or_create _ _ _ _ _) as [[[rep created] | e] w2] eqn:Hr;
    [| done].
  apply Stock_get_or_create_frame in Hs as (_ & Hs & _).
  apply DailyReport_get_or_create_frame in Hr as (_ & Hr & _). simpl in Hr.
  destruct created; [| intros [= ?]; done]. rewrite Hl.
  destruct (save_eps_rows eps_rows) as [saved |]; [| done].
  intros [= <-]. exists (report_id rep). simpl. by rewrite Hr, Hs.
Qed.

(** *** The store only grows *)

#[local] Instance db_extends_preorder : PreOrder db_extends.
Proof.
  split.
  - by intros d.
  - intros d1 d2 d3 (? & ? & ? & ?) (? & ? & ? & ?).
    repeat split; by etrans.
Qed.

Lemma Stock_get_or_create_extends t r cn cur d s created d' :
  Stock_get_or_create py_str t r cn cur d = (s, created, d') -> db_extends d d'.
Proof.
  intros (Hr & Ht & He & Hs)%Stock_get_or_create_frame.
  unfold db_extends. rewrite Hr, Ht, He, Hs.
  destruct created; repeat split; try done. by apply prefix_app_r.
Qed.

Lemma DailyReport_get_or_create_extends s ts f w r created w' :
  DailyReport_get_or_create clock s ts f w = (Ok (r, created), w') ->
  db_extends (db w) (db w').
Proof.
  intros (Hs & Ht & He & Hr)%DailyReport_get_or_create_frame.
  unfold db_extends. rewrite Hr, Ht, He, Hs.
  destruct created; repeat split; try done. by apply prefix_app_r.
Qed.

Lemma bulk_create_children_extends r tks eps_rows d :
  db_extends d (bulk_create_children r tks eps_rows d).
Proof. repeat split; simpl; try done; by apply prefix_app_r. Qed.

Lemma write_record_extends t r ts cn cur f kt eps_rows w res w' :
  write_record clock py_str t r ts cn cur f kt eps_rows w = (res, w') ->
  db_extends (db w) (db w').
Proof.
  unfold write_record.
  destruct (Stock_get_or_create _ _ _ _ _ _) as [[s b] d1] eqn:Hs.
  destruct (DailyReport_get_or_create _ _ _ _ _) as [[[rep created] | e] w2] eqn:Hr;
    [| by intros [= <- <-]].
  apply Stock_get_or_create_extends in Hs.
  apply DailyReport_get_or_create_extends in Hr. simpl in Hr.
  destruct created.
  - destruct (iterate kt); [| by intros [= <- <-]].
    destruct (save_eps_rows eps_rows); intros [= <- <-]; simpl; [| done].
    etrans; [done |]. etrans; [done |]. apply bulk_create_children_extends.
  - intros [= <- <-]. by etrans.
Qed.

Lemma has_report_extends d d' t r ts :
  has_report d t r ts -> db_extends d d' -> has_report d' t r ts.
Proof.
  intros (k & s & k' & rep & Hs & Hr) ([ks Hks] & [kr Hkr] & _).
  exists k, s, k', rep. rewrite Hks, Hkr. split; by apply list_find_app_l.
Qed.

(** A record whose report is in the store: the transaction changes
    nothing. *)
Lemma write_record_existing t r ts cn cur f kt eps_rows w :
  has_report (db w) t r ts ->
  write_record clock py_str t r ts cn cur f kt eps_rows w = (Ok false, w).
Proof.
  intros (k & s & k' & rep & Hs & Hr). unfold write_record, Stock_get_or_create.
  rewrite Hs. unfold DailyReport_get_or_create. simpl. rewrite Hr.
  by destruct w.
Qed.

(** After the transaction, the report of the record is in the store. *)
Lemma write_record_has_report t r ts cn cur f kt eps_rows w b w' :
  write_record clock py_str t r ts cn cur f kt eps_rows w = (Ok b, w') ->
  has_report (db w') t r ts.
Proof.
  unfold write_record.
  destruct (Stock_get_or_create _ _ _ _ _ _) as [[s sc] d1] eqn:Hs.
  destruct (DailyReport_get_or_create _ _ _ _ _) as [[[rep created] | e] w2] eqn:Hr;
    [| done].
  assert (has_report (db w2) t r ts) as Hhas.
  { pose proof (DailyReport_get_or_create_frame _ _ _ _ _ _ _ Hr) as (Hst & _).
    simpl in Hst. unfold Stock_get_or_create in Hs.
    unfold DailyReport_get_or_create in Hr. simpl in Hr.
    assert (exists k, list_find (same_stock (UppercaseCharField_normalize t)
              (UppercaseCharField_normalize r)) (stocks d1) = Some (k, s)) as [k Hk].
    { destruct (list_find _ (stocks (db w))) as [[k s0] |] eqn:Hf.
      - injection Hs as <- <- <-. eauto.
      - injection Hs as <- <- <-. simpl. rewrite list_find_app_r by done.
        simpl. rewrite decide_True by done. simpl. eauto. }
    exists k, s. rewrite Hst.
    destruct (list_find _ (reports d1)) as [[k' r0] |] eqn:Hf.
    - injection Hr as <- <- <-. simpl. eauto.
    - destruct (save_defaults f) as [saved |]; [| done].
      injection Hr as <- <- <-. simpl. eexists _, _. split; [done |].
      rewrite list_find_app_r by done. simpl. rewrite decide_True by done.
      simpl. done. }
  destruct created.
  - destruct (iterate kt); [| done].
    destruct (save_eps_rows eps_rows); intros [= <- <-].
    eapply has_report_extends; [done |]. apply bulk_create_children_extends.
  - by intros [= <- <-].
Qed.

(** *** One record *)

(** [import_item] on a record that gives its timestamp. *)
Lemma import_item_explicit dry d w c :
  truthy (dict_get d "Timestamp" VNull) = true ->
  import_item Decimal strptime clock py_str dry (VDict d) (w, c) =
  match record_key strptime d with
  | None => (w, bump_total c, None)
  | Some (t, r, ts) =>
      match build_report_defaults Decimal py_str d with
      | Raise e => (w, bump_total c, Some e)
      | Ok f =>
          match resolve_eps Decimal d with
          | Raise e => (w, bump_total c, Some e)
          | Ok eps_rows =>
              if dry then (w, bump_total c, None)
              else
                match write_record clock py_str t r ts (get_or d "Company" (VStr ""))
                        (get_or d "Currency" (VStr "USD")) f
                        (get_or d "Key_Takeaways" (VList [])) eps_rows w with
                | (Ok true, w2) =>
                    (w2, {| total_reports := S (total_reports c);
                            created_reports := S (created_reports c);
                            skipped_reports := skipped_reports c |}, None)
                | (Ok false, w2) =>
                    (w2, {| total_reports := S (total_reports c);
                            created_reports := created_reports c;
                            skipped_reports := S (skipped_reports c) |}, None)
                | (Raise e, w2) =>
                    (w2, {| total_reports := S (total_reports c);
                            created_reports :=
                              match save_defaults f with
                              | Ok _ => S (created_reports c)
                              | Raise _ => created_reports c
                              end;
                            skipped_reports := skipped_reports c |}, Some e)
                end
          end
      end
  end.
Proof.
  intros Hts. unfold import_item, record_key, parse_timestamp.
  destruct (parse_ticker_region _) as [[t r] | e]; [| done].
  rewrite Hts. destruct (dict_get d "Timestamp" VNull) as [| b | q | ts | l | o];
    try done.
  simpl in Hts. destruct (decide (ts = "")); [done |].
  destruct (strptime ts) as [z |]; done.
Qed.

Lemma count_well_formed_cons item data :
  count_well_formed strptime (item :: data) =
  ((if well_formed strptime item then 1 else 0) + count_well_formed strptime data)%nat.
Proof.
  unfold count_well_formed. rewrite filter_cons.
  destruct (well_formed strptime item);
    [rewrite decide_True by done | rewrite decide_False by done]; done.
Qed.

Lemma import_items_cons dry item data wc :
  import_items Decimal strptime clock py_str dry (item :: data) wc =
  match import_item Decimal strptime clock py_str dry item wc with
  | (wc', None) => import_items Decimal strptime clock py_str dry data wc'
  | (wc', Some e) => (wc', Some e)
  end.
Proof. done. Qed.

(** *** A first run: what it leaves in the store *)

Lemma import_items_first data w c w' c' :
  Forall (fun item => explicit_timestamp item = true) data ->
  import_items Decimal strptime clock py_str false data (w, c) = (w', c', None) ->
  db_extends (db w) (db w') /\
  Forall (fun item => readable Decimal strptime py_str item /\
                      covered strptime (db w') item) data /\
  total_reports c' = (total_reports c + length data)%nat /\
  (created_reports c' + skipped_reports c' =
   created_reports c + skipped_reports c + count_well_formed strptime data)%nat.
Proof.
  intros Hexp. revert w c.
  induction Hexp as [| item data Hitem Hexp IH]; intros w c.
  { intros [= <- <-]. unfold count_well_formed. simpl.
    split; [reflexivity |]. split; [constructor |]. lia. }
  rewrite import_items_cons.
  destruct (import_item Decimal strptime clock py_str false item (w, c))
    as [[w1 c1] [e |]] eqn:Hstep; [done |].
  intros Hrest. destruct (IH _ _ Hrest) as (Hext & Hall & Htot & Hsum).
  rewrite count_well_formed_cons.
  destruct item as [| | | | | d]; try (simpl in Hstep; congruence).
  simpl in Hitem. rewrite (import_item_explicit _ _ _ _ Hitem) in Hstep. simpl.
  destruct (record_key strptime d) as [[[t r] ts] |] eqn:Hkey.
  - destruct (build_report_defaults Decimal py_str d) as [f |] eqn:Hf; [| done].
    destruct (resolve_eps Decimal d) as [rows |] eqn:Hrows; [| done].
    destruct (write_record _ _ _ _ _ _ _ _ _ _ _) as [[[|] |] w2] eqn:Hw;
      [| | done]; injection Hstep as <- <-;
      pose proof (write_record_extends _ _ _ _ _ _ _ _ _ _ _ Hw) as Hext1;
      pose proof (write_record_has_report _ _ _ _ _ _ _ _ _ _ _ Hw) as Hhas;
      (split; [etrans; [exact Hext1 | exact Hext] |]);
      (split; [| simpl in *; lia]);
      (constructor; [| done]);
      (split; [split; [done |]; exists d; split; [done |]; intros _;
               rewrite Hf, Hrows; split; by eexists |]);
      intros i t' r' ts' [= <-] Hk; rewrite Hkey in Hk; injection Hk as <- <- <-;
      by eapply has_report_extends.
  - injection Hstep as <- <-. split; [done |]. split; [| simpl in *; lia].
    constructor; [| done]. split.
    + split; [done |]. exists d. split; [done |]. rewrite Hkey. by intros [? ?].
    + intros i t r ts [= <-] Hk. congruence.
Qed.

(** *** A run over records that are all in the store *)

Lemma import_items_rerun data w c :
  Forall (fun item => readable Decimal strptime py_str item /\
                      covered strptime (db w) item) data ->
  import_items Decimal strptime clock py_str false data (w, c) =
  (w, {| total_reports := total_reports c + length data;
         created_reports := created_reports c;
         skipped_reports := skipped_reports c + count_well_formed strptime data |},
   None).
Proof.
  intros Hall. revert c.
  induction Hall as [| item data [[Hexp (d & -> & Hread)] Hcov] Hall IH]; intros c.
  { unfold count_well_formed. simpl. rewrite !Nat.add_0_r. by destruct c. }
  simpl in Hexp.
  rewrite import_items_cons, (import_item_explicit _ _ _ _ Hexp), count_well_formed_cons.
  simpl. destruct (record_key strptime d) as [[[t r] ts] |] eqn:Hkey.
  - destruct Hread as [[f Hf] [rows Hrows]]; [by eexists |].
    destruct (build_report_defaults Decimal py_str d) as [f' |]; [| done].
    destruct (resolve_eps Decimal d) as [rows' |]; [| done].
    rewrite write_record_existing by (by eapply Hcov). rewrite IH. simpl.
    do 2 f_equal. f_equal; lia.
  - rewrite IH. simpl. do 2 f_equal. f_equal; lia.
Qed.

(** *** Documents *)

Lemma import_items_app dry l1 l2 wc :
  import_items Decimal strptime clock py_str dry (l1 ++ l2) wc =
  match import_items Decimal strptime clock py_str dry l1 wc with
  | (wc', None) => import_items Decimal strptime clock py_str dry l2 wc'
  | (wc', Some e) => (wc', Some e)
  end.
Proof.
  revert wc. induction l1 as [| item l1 IH]; intros wc; [done |].
  rewrite <- app_comm_cons, !import_items_cons.
  destruct (import_item Decimal strptime clock py_str dry item wc) as [wc1 [e |]];
    [done | apply IH].
Qed.

Lemma import_files_records dry files wc wc' :
  import_files Decimal strptime clock py_str dry files wc = (wc', None) ->
  import_items Decimal strptime clock py_str dry (records files) wc = (wc', None) /\
  forall wc0, import_files Decimal strptime clock py_str dry files wc0 =
              import_items Decimal strptime clock py_str dry (records files) wc0.
Proof.
  revert wc. induction files as [| data files IH]; intros wc; simpl.
  { by intros [= <-]. }
  destruct data as [| | | | l |]; try done. unfold records. simpl.
  fold (records files). rewrite import_items_app.
  destruct (import_items _ _ _ _ dry l wc) as [wc1 [e |]]; [done |].
  intros Hrest. destruct (IH _ Hrest) as [Hitems Hsame]. split; [done |].
  intros wc0. rewrite import_items_app.
  destruct (import_items _ _ _ _ dry l wc0) as [wc2 [e |]]; [done | apply Hsame].
Qed.

(** *** Skipped records *)

Lemma import_item_malformed dry item w c :
  malformed_ticker item = true \/ malformed_timestamp strptime item = true ->
  import_item Decimal strptime clock py_str dry (VDict item) (w, c) =
  (w, bump_total c, None).
Proof.
  unfold malformed_ticker, malformed_timestamp, import_item, parse_timestamp.
  destruct (parse_ticker_region _) as [[t r] | e]; [| done].
  intros [? | Hts]; [done |].
  apply andb_true_iff in Hts as [-> Hts].
  destruct (dict_get item "Timestamp" VNull) as [| b | q | ts | l | o]; try done.
  by destruct (strptime ts).
Qed.

(** C5, as the code has it.  A record whose ticker does not parse (fewer
    than two tokens) or whose timestamp does not parse is skipped, and only
    it: nothing is written or changed for it, no exception leaves [handle],
    and the run goes on with the next record. *)
Theorem malformed_record_is_skipped dry item rest w c :
  malformed_ticker item = true \/ malformed_timestamp strptime item = true ->
  import_item Decimal strptime clock py_str dry (VDict item) (w, c) =
    (w, bump_total c, None) /\
  import_items Decimal strptime clock py_str dry (VDict item :: rest) (w, c) =
    import_items Decimal strptime clock py_str dry rest (w, bump_total c) /\
  (forall s, (length (split s) < 2)%nat ->
     parse_ticker_region (VStr s) = Raise ValueError).
Proof.
  intros Hbad. split; [by apply import_item_malformed |]. split.
  - by rewrite import_items_cons, import_item_malformed.
  - intros s Hs. unfold parse_ticker_region.
    destruct (truthy (VStr s)); [| done].
    destruct (split s) as [| a [| b l]]; simpl in Hs; [done | done | lia].
Qed.

(** *** Importing twice *)

(** C1, as the code has it.  When every record of the documents gives its
    timestamp and a first import runs to its end, a second import of the
    same documents leaves the store as the first left it, creates no
    report, and skips as many records as the first run created and skipped
    together, which is the number of records whose ticker and timestamp
    parse.  The first import only adds rows, and the transaction of a
    record whose (stock, as_of_timestamp) is in the store changes
    nothing. *)
Theorem import_twice_idempotent files w w1 c1 :
  forallb explicit_timestamp (records files) = true ->
  handle Decimal strptime clock py_str false files w = (w1, c1, None) ->
  handle Decimal strptime clock py_str false files w1 =
    (w1, {| total_reports := total_reports c1;
            created_reports := 0;
            skipped_reports := created_reports c1 + skipped_reports c1 |}, None) /\
  db_extends (db w) (db w1) /\
  total_reports c1 = length (records files) /\
  (created_reports c1 + skipped_reports c1)%nat =
    count_well_formed strptime (records files) /\
  (forall t r ts cn cur f kt eps_rows w0,
     has_report (db w0) t r ts ->
     write_record clock py_str t r ts cn cur f kt eps_rows w0 = (Ok false, w0)).
Proof.
  intros Hexp Hrun. unfold handle in *.
  destruct files as [| data files]; [done |].
  destruct (import_files_records _ _ _ _ Hrun) as [Hitems Hsame].
  assert (Forall (fun item => explicit_timestamp item = true) (records (data :: files)))
    as Hexp'.
  { apply Forall_forall. intros item Hin%list_elem_of_In.
    by apply (proj1 (forallb_forall _ _) Hexp). }
  destruct (import_items_first _ _ _ _ _ Hexp' Hitems) as (Hext & Hall & Htot & Hsum).
  simpl in Htot, Hsum. split; [| split; [done |]; split; [done |]; split; [done |]].
  - rewrite Hsame, (import_items_rerun _ _ _ Hall). simpl.
    do 2 f_equal. by f_equal.
  - intros. by apply write_record_existing.
Qed.

(** *** Stocks *)

Lemma parse_timestamp_db ts w :
  db (parse_timestamp strptime clock ts w).2 = db w.
Proof.
  unfold parse_timestamp. destruct (truthy ts); [| done].
  destruct ts as [| | | s | |]; try done. by destruct (strptime s).
Qed.

(** What every transaction preserves, every run preserves. *)
Lemma import_item_preserves (P : store -> Prop) :
  (forall t r ts cn cur f kt eps_rows w res w',
     write_record clock py_str t r ts cn cur f kt eps_rows w = (res, w') ->
     P (db w) -> P (db w')) ->
  forall dry item w c w' c' e,
    import_item Decimal strptime clock py_str dry item (w, c) = (w', c', e) ->
    P (db w) -> P (db w').
Proof.
  intros Hwrite dry item w c w' c' e. unfold import_item.
  destruct item as [| | | | | d]; try by intros [= <- <- <-].
  destruct (parse_ticker_region _) as [[t r] | ?]; [| by intros [= <- <- <-]].
  pose proof (parse_timestamp_db (dict_get d "Timestamp" VNull) w) as Hdb.
  destruct (parse_timestamp _ _ _ _) as [[ts | ?] w1]; simpl in Hdb;
    [| intros [= <- <- <-]; by rewrite Hdb].
  destruct (build_report_defaults _ _ _) as [f | ?];
    [| intros [= <- <- <-]; by rewrite Hdb].
  destruct (resolve_eps _ _) as [rows | ?]; [| intros [= <- <- <-]; by rewrite Hdb].
  destruct dry; [intros [= <- <- <-]; by rewrite Hdb |].
  destruct (write_record _ _ _ _ _ _ _ _ _ _ _) as [[[|] | ?] w2] eqn:Hw;
    intros [= <- <- <-] HP; eapply Hwrite; try exact Hw; by rewrite Hdb.
Qed.

Lemma handle_preserves (P : store -> Prop) :
  (forall t r ts cn cur f kt eps_rows w res w',
     write_record clock py_str t r ts cn cur f kt eps_rows w = (res, w') ->
     P (db w) -> P (db w')) ->
  forall dry files w,
    P (db w) -> P (db (handle Decimal strptime clock py_str dry files w).1.1).
Proof.
  intros Hwrite dry.
  assert (Hitems : forall data w c,
             P (db w) ->
             P (db (import_items Decimal strptime clock py_str dry data (w, c)).1.1)).
  { induction data as [| item data IH]; intros w c HP; [done |].
    rewrite import_items_cons.
    destruct (import_item _ _ _ _ dry item (w, c)) as [[w1 c1] [e |]] eqn:Hstep;
      [| apply IH]; by eapply import_item_preserves. }
  assert (Hfiles : forall files w c,
             P (db w) ->
             P (db (import_files Decimal strptime clock py_str dry files (w, c)).1.1)).
  { induction files as [| data files IH]; intros w c HP; [done |]. simpl.
    destruct data as [| | | | l |]; try done.
    specialize (Hitems l w c HP).
    destruct (import_items _ _ _ _ dry l (w, c)) as [[w1 c1] [e |]]; [done | by apply IH]. }
  intros files w HP. unfold handle. destruct files; [done | by apply Hfiles].
Qed.

Lemma handle_extends dry files w :
  db_extends (db w) (db (handle Decimal strptime clock py_str dry files w).1.1).
Proof.
  apply (handle_preserves (db_extends (db w))); [| reflexivity].
  intros t r ts cn cur f kt eps_rows w0 res w' Hw He.
  etrans; [exact He |]. by eapply write_record_extends.
Qed.

(** The stock of [(t, r)] is in the store: [get_or_create] returns it and
    writes nothing. *)
Lemma Stock_get_or_create_existing t r cn cur d k s :
  list_find (same_stock (UppercaseCharField_normalize t) (UppercaseCharField_normalize r))
    (stocks d) = Some (k, s) ->
  Stock_get_or_create py_str t r cn cur d = (s, false, d).
Proof. intros Hf. unfold Stock_get_or_create. by rewrite Hf. Qed.


Lemma Stock_get_or_create_NoDup t r cn cur d s created d' :
  Stock_get_or_create py_str t r cn cur d = (s, created, d') ->
  NoDup (stock_key <$> stocks d) -> NoDup (stock_key <$> stocks d').
Proof.
  unfold Stock_get_or_create.
  destruct (list_find _ (stocks d)) as [[k s0] |] eqn:Hf; intros [= <- <- <-]; [done |].
  simpl. rewrite fmap_app. intros Hnd. apply NoDup_app. split; [done |].
  split; [| apply NoDup_singleton].
  intros key (s0 & -> & Hin)%list_elem_of_fmap [= Ht Hr]%list_elem_of_singleton.
  apply list_find_None in Hf. rewrite Forall_forall in Hf. by apply (Hf s0 Hin).
Qed.


(** C10.  The stocks that are in the store when an import starts are in
    it, unchanged and at their places, when it ends: their company name
    and currency code keep the values they had; and a record that names a
    stock of the store gets that row from [get_or_create], which writes
    nothing. *)
Theorem existing_stock_is_kept dry files w :
  stocks (db w) `prefix_of`
    stocks (db (handle Decimal strptime clock py_str dry files w).1.1) /\
  (forall i s, stocks (db w) !! i = Some s ->
     stocks (db (handle Decimal strptime clock py_str dry files w).1.1) !! i = Some s) /\
  (forall t r cn cur d k s,
     list_find (same_stock (UppercaseCharField_normalize t)
                           (UppercaseCharField_normalize r)) (stocks d) = Some (k, s) ->
     Stock_get_or_create py_str t r cn cur d = (s, false, d)).
Proof.
  destruct (handle_extends dry files w) as (Hst & _).
  split; [done |]. split.
  - intros i s Hi. by eapply prefix_lookup_Some.
  - apply Stock_get_or_create_existing.
Qed.


(** C4, as the code has it.  The takeaways of a new report are the truthy
    entries of the source list, in the order of the list, and the order
    index of each is its position in the source list: the positions of the
    dropped entries are not used again.  The list ["a", "", "b"] gives
    order 0 with "a" and order 2 with "b". *)
Theorem takeaways_keep_source_position :
  (forall l i x, (i, x) ∈ takeaway_rows l <-> l !! i = Some x /\ truthy x = true) /\
  (forall l, StronglySorted lt (takeaway_rows l).*1) /\
  (forall t r ts cn cur f kt eps_rows w w' l,
     iterate kt = Ok l ->
     write_record clock py_str t r ts cn cur f kt eps_rows w = (Ok true, w') ->
     exists rid,
       takeaways (db w') = takeaways (db w) ++
         ((fun it => {| tk_report := rid; order := it.1; text := it.2 |})
            <$> takeaway_rows l)) /\
  takeaway_rows [VStr "a"; VStr ""; VStr "b"] = [(0%nat, VStr "a"); (2%nat, VStr "b")].
Proof.
  split; [| split; [| split]].
  - apply elem_of_takeaway_rows.
  - intros l. apply StronglySorted_filter_fst. rewrite enumerate_fst.
    apply StronglySorted_seq.
  - apply write_record_takeaways.
  - by vm_compute.
Qed.

End ImporterProperties.

(** ** The home page *)

(** *** Top upside *)

Lemma Max_None l : Max l = None <-> l = [].
Proof.
  destruct l as [| q l]; simpl; [done |].
  split; [| done]. by destruct (Max l).
Qed.

Lemma Max_Some l m :
  Max l = Some m -> m ∈ l /\ forall q, q ∈ l -> (q <= m)%Q.
Proof.
  revert m. induction l as [| a l IH]; intros m; simpl; [done |].
  destruct (Max l) as [m' |] eqn:Hm.
  - destruct (IH _ eq_refl) as [Hin Hle]. intros [= <-].
    destruct (decide (a <= m')%Q) as [Ham | Ham].
    + split; [by right |]. intros q [-> | Hq]%elem_of_cons; auto.
    + apply Qnot_le_lt, Qlt_le_weak in Ham. split; [by left |].
      intros q [-> | Hq]%elem_of_cons; [apply Qle_refl |].
      by apply Qle_trans with m'; [apply Hle |].
  - apply Max_None in Hm as ->. intros [= <-]. split; [by left |].
    intros q ->%list_elem_of_singleton. apply Qle_refl.
Qed.

Lemma elem_of_filtered_upsides start d s u :
  u ∈ omap (filtered_upside start s) (reports d) <->
  exists r, r ∈ reports d /\ qualifies start s r u.
Proof.
  rewrite list_elem_of_omap. unfold filtered_upside, qualifies.
  split; intros (r & Hr & Hq); exists r; (split; [done |]).
  - by case_decide as Hd; [destruct Hd |].
  - destruct Hq as (? & ? & ?). by rewrite decide_True.
Qed.

Lemma max_upside_Some start d s m :
  max_upside start d s = Some m ->
  (exists r, r ∈ reports d /\ qualifies start s r m) /\
  (forall r u, r ∈ reports d -> qualifies start s r u -> (u <= m)%Q).
Proof.
  intros [Hin Hle]%Max_Some. split; [by apply elem_of_filtered_upsides |].
  intros r u Hr Hq. apply Hle, elem_of_filtered_upsides. eauto.
Qed.

Lemma max_upside_None start d s :
  max_upside start d s = None <->
  forall r u, r ∈ reports d -> ~ qualifies start s r u.
Proof.
  unfold max_upside. rewrite Max_None. split.
  - intros Hnil r u Hr Hq.
    assert (u ∈ omap (filtered_upside start s) (reports d)) as Hin
      by (apply elem_of_filtered_upsides; eauto).
    rewrite Hnil in Hin. by apply elem_of_nil in Hin.
  - intros Hno. apply elem_of_nil_inv. intros u (r & Hr & Hq)%elem_of_filtered_upsides.
    by eapply Hno.
Qed.

#[local] Instance by_max_upside_desc_total : Total by_max_upside_desc.
Proof.
  intros a b. unfold by_max_upside_desc.
  destruct (Qlt_le_dec a.2 b.2) as [?%Qlt_le_weak | ?]; auto.
Qed.

#[local] Instance by_max_upside_desc_trans : Transitive by_max_upside_desc.
Proof. intros a b c Hab Hbc. unfold by_max_upside_desc in *. by apply Qle_trans with b.2. Qed.

Lemma elem_of_upside_ranking start d s m :
  (s, m) ∈ upside_ranking start d <-> s ∈ stocks d /\ max_upside start d s = Some m.
Proof.
  unfold upside_ranking. rewrite merge_sort_Permutation, list_elem_of_omap. split.
  - intros (s' & Hs & Hm). destruct (max_upside start d s') as [m' |] eqn:Hmax; [| done].
    by injection Hm as -> ->.
  - intros [Hs Hm]. exists s. by rewrite Hm.
Qed.


(** *** Recent downgrades *)

#[local] Instance by_timestamp_desc_total : Total by_timestamp_desc.
Proof. intros a b. unfold by_timestamp_desc. lia. Qed.

#[local] Instance by_timestamp_desc_trans : Transitive by_timestamp_desc.
Proof. intros a b c. unfold by_timestamp_desc. lia. Qed.








(** *** Chart data *)

#[local] Instance by_stock_timestamp_total : Total by_stock_timestamp.
Proof. intros a b. unfold by_stock_timestamp. lia. Qed.

#[local] Instance by_stock_timestamp_trans : Transitive by_stock_timestamp.
Proof. intros a b c. unfold by_stock_timestamp. lia. Qed.

(** [cap] keeps the last [CHART_MAX_POINTS] points. *)
Lemma cap_drop points : cap points = drop (length points - CHART_MAX_POINTS) points.
Proof.
  unfold cap. case_decide as Hlen; [done |].
  by replace (length points - CHART_MAX_POINTS)%nat with 0%nat by lia.
Qed.

Lemma length_cap points : length (cap points) = (length points `min` CHART_MAX_POINTS)%nat.
Proof. rewrite cap_drop, length_drop. lia. Qed.

(** The series before any row is read. *)
Lemma lookup_empty_series (ids : list nat) sid :
  (list_to_map ((fun sid => (sid, [])) <$> ids) : gmap nat (list point)) !! sid =
  if decide (sid ∈ ids) then Some [] else None.
Proof.
  induction ids as [| a ids IH].
  - destruct (decide (sid ∈ [])) as [H | _]; [by apply elem_of_nil in H |].
    apply lookup_empty.
  - rewrite fmap_cons. cbn [list_to_map foldr uncurry]. simpl fst. simpl snd.
    destruct (decide (a = sid)) as [-> | Hne].
    + rewrite lookup_insert_eq. rewrite decide_True; [done | by left].
    + rewrite lookup_insert_ne by done. rewrite IH.
      destruct (decide (sid ∈ ids)) as [Hin | Hnotin].
      * rewrite decide_True; [done | by right].
      * rewrite decide_False; [done |]. intros [-> | ?]%elem_of_cons; done.
Qed.

(** The loop over the rows appends to each series the points of its
    stock, in the order of the rows. *)
Lemma lookup_foldl_append_point rows (series : gmap nat (list point)) sid :
  foldl append_point series rows !! sid =
  (fun points => points ++ (point_of <$> filter (fun r => stock r = sid) rows))
    <$> series !! sid.
Proof.
  revert series. induction rows as [| r rows IH]; intros series; simpl.
  - destruct (series !! sid); simpl; [by rewrite app_nil_r | done].
  - rewrite IH. unfold append_point. rewrite filter_cons.
    destruct (decide (stock r = sid)) as [-> | Hne].
    + rewrite lookup_alter_eq. destruct (series !! sid); simpl; [| done].
      by rewrite <- app_assoc.
    + by rewrite lookup_alter_ne.
Qed.

Lemma filter_price_rows ids start_dt d sid :
  sid ∈ ids ->
  filter (fun r => stock r = sid) (price_rows ids start_dt d) ≡ₚ
  filter (charted_of sid start_dt) (reports d).
Proof.
  intros Hin. unfold price_rows. rewrite merge_sort_Permutation.
  rewrite list_filter_filter. erewrite list_filter_iff; [done |].
  intros r. unfold charted, charted_of. split; [naive_solver |].
  intros (<- & ? & ?). done.
Qed.

Lemma StronglySorted_filter_stock (l : list DailyReport) sid :
  StronglySorted by_stock_timestamp l ->
  StronglySorted (fun a b => as_of_timestamp a <= as_of_timestamp b)
    (filter (fun r => stock r = sid) l).
Proof.
  induction 1 as [| a l Hs IH Hall]; [constructor |].
  rewrite filter_cons. case_decide as Ha; [| done].
  constructor; [done |]. rewrite Forall_forall in Hall |- *.
  intros b [Hb Hin]%list_elem_of_filter.
  destruct (Hall b Hin) as [? | [_ ?]]; [lia | done].
Qed.

(** C8.  For each requested stock, the series is made of the reports of
    the stock dated [start_dt] or later that have a price or a price
    objective, in ascending order of timestamp, each as the point of its
    timestamp, its price and its price objective, and holds the last
    [CHART_MAX_POINTS] = 60 of them.  Of 100 such reports the series holds
    the last 60; in [db_chart] these are the days 41 to 100 of stock A,
    with the price of the even days and the price objective of the others
    (the conversions of a point to text and to [float] are not
    modelled). *)
Theorem price_series_capped stocks_ start_dt d s :
  s ∈ stocks_ ->
  (exists rows,
     rows ≡ₚ filter (fun r => stock r = stock_id s /\ start_dt <= as_of_timestamp r /\
                             ~ (price (fields r) = None /\
                                price_objective (fields r) = None)) (reports d) /\
     StronglySorted (fun a b => as_of_timestamp a <= as_of_timestamp b) rows /\
     _build_price_series stocks_ start_dt d !! stock_id s =
       Some ((fun r => {| point_t := as_of_timestamp r;
                          point_price := price (fields r);
                          point_po := price_objective (fields r) |}) <$>
             drop (length rows - 60) rows) /\
     (length rows = 100%nat ->
      length (drop (length rows - 60) rows) = 60%nat /\
      drop (length rows - 60) rows = drop 40 rows)) /\
  _build_price_series [stock_A] 0 db_chart !! 1%nat = Some (chart_point <$> seq 41 60).
Proof.
  intros Hs. split; [| by vm_compute].
  exists (filter (fun r => stock r = stock_id s)
            (price_rows (stock_id <$> stocks_) start_dt d)).
  assert (stock_id s ∈ stock_id <$> stocks_) as Hid by by apply list_elem_of_fmap_2.
  split; [| split; [| split]].
  - by apply (filter_price_rows _ start_dt d (stock_id s)).
  - apply StronglySorted_filter_stock.
    apply (StronglySorted_merge_sort by_stock_timestamp).
  - unfold _build_price_series. destruct stocks_ as [| s0 rest]; [by apply elem_of_nil in Hs |].
    rewrite lookup_fmap, lookup_foldl_append_point, lookup_empty_series.
    rewrite decide_True by done. simpl. rewrite cap_drop, length_fmap.
    by rewrite fmap_drop.
  - intros Hlen. rewrite Hlen. split; [| done].
    rewrite length_drop, Hlen. done.
Qed.



Lemma item_tie_candidates :
  candidate 2027 ("2027E_EPS", VNum (11 # 10)) /\
  candidate 2027 ("2027E_EPS" +:+ String LF "", VNum 1) /\
  eps_priority "2027E_EPS" = 3 /\
  eps_priority ("2027E_EPS" +:+ String LF "") = 3 /\
  resolve_eps Decimal_sample item_tie = Ok [(2027, (11 # 10)%Q)].
Proof. by vm_compute. Qed.

Lemma eps_tie_first_wins_witness :
  exists q, to_decimal Decimal_sample (VNum (11 # 10)) = Ok (Some q) /\
    forall q', (2027, q') ∈ [(2027, (11 # 10)%Q)] <-> q' = q.
Proof.
  destruct item_tie_candidates as (Hc0 & Hc1 & Hp0 & Hp1 & Hr).
  refine (proj2 (eps_tie_first_wins Decimal_sample item_tie _ 2027 0 1
                   ("2027E_EPS", VNum (11 # 10))
                   ("2027E_EPS" +:+ String LF "", VNum 1)
                   Hr _ eq_refl eq_refl Hc0 Hc1 _) _ _).
  - lia.
  - simpl. by rewrite Hp0, Hp1.
  - intros [| [| m]] km [= <-] _; simpl; rewrite ?Hp0, ?Hp1; lia.
  - intros m km Hm. lia.
Defined.

(** C3, as the specification has it, fails on [item_tie]: the value kept
    for 2027 is that of the first key, 1.1, and not that of the second. *)
Lemma later_tie_wins_fails : ~ later_tie_wins Decimal_sample item_tie.
Proof.
  destruct item_tie_candidates as (Hc0 & Hc1 & Hp0 & Hp1 & Hr).
  intros Hclaim.
  destruct (Hclaim _ 2027 0%nat 1%nat _ _ Hr ltac:(lia) eq_refl eq_refl Hc0 Hc1)
    as (q & Hq & Hin).
  - simpl. by rewrite Hp0, Hp1.
  - intros [| [| m]] km [= <-] _; simpl; rewrite ?Hp0, ?Hp1; lia.
  - intros [| [| m]] km Hm [= <-]; lia.
  - injection Hq as <-. apply list_elem_of_singleton in Hin. discriminate.
Qed.

Lemma takeaways_keep_source_position_witness :
  exists rid,
    takeaways (db (write_record clock_sample py_str_sample "COP" "US" 0 (VStr "")
                     (VStr "USD") defaults_sample
                     (VList [VStr "a"; VStr ""; VStr "b"]) [] world0).2) =
    takeaways (db world0) ++
      ((fun it => {| tk_report := rid; order := it.1; text := it.2 |})
         <$> takeaway_rows [VStr "a"; VStr ""; VStr "b"]).
Proof.
  apply (proj1 (proj2 (proj2 (takeaways_keep_source_position clock_sample py_str_sample)))
           "COP" "US" 0 (VStr "") (VStr "USD") defaults_sample
           (VList [VStr "a"; VStr ""; VStr "b"]) [] world0 _
           [VStr "a"; VStr ""; VStr "b"] eq_refl).
  vm_compute. reflexivity.
Defined.

(** C4, as the specification has it, fails: the record of [doc_takeaways]
    persists the orders 0 and 2, not 0 and 1. *)
Lemma takeaway_orders_not_contiguous :
  takeaways (db (handle_sample false [doc_takeaways] world0).1.1) =
    [{| tk_report := 1; order := 0; text := VStr "a" |};
     {| tk_report := 1; order := 2; text := VStr "b" |}] /\
  takeaways (db (handle_sample false [doc_takeaways] world0).1.1) <>
    [{| tk_report := 1; order := 0; text := VStr "a" |};
     {| tk_report := 1; order := 1; text := VStr "b" |}].
Proof. split; [by vm_compute |]. vm_compute. discriminate. Qed.

Lemma import_twice_idempotent_witness :
  handle_sample false [doc_takeaways] first_import.1.1 =
  (first_import.1.1,
   {| total_reports := total_reports first_import.1.2;
      created_reports := 0;
      skipped_reports :=
        created_reports first_import.1.2 + skipped_reports first_import.1.2 |},
   None).
Proof.
  unfold handle_sample.
  apply (import_twice_idempotent Decimal_sample strptime_sample clock_sample
           py_str_sample [doc_takeaways] world0 first_import.1.1 first_import.1.2).
  - reflexivity.
  - by vm_compute.
Defined.

(** C1, as the specification has it, fails on a record without timestamp:
    its instant is the time of the import, so the second import creates a
    second report. *)
Lemma import_without_timestamp_not_idempotent :
  ~ import_idempotent (handle_sample false) [doc_no_timestamp] world0.
Proof. vm_compute. intros (_ & Hcreated & _). discriminate. Qed.

Lemma malformed_record_is_skipped_witness :
  import_items Decimal_sample strptime_sample clock_sample py_str_sample false
    [VDict item_bad_ticker; VDict item_bad_timestamp] (world0, no_counts) =
  (world0, {| total_reports := 2; created_reports := 0; skipped_reports := 0 |}, None).
Proof.
  rewrite (proj1 (proj2 (malformed_record_is_skipped Decimal_sample strptime_sample
             clock_sample py_str_sample false item_bad_ticker
             [VDict item_bad_timestamp] world0 no_counts (or_introl eq_refl)))).
  rewrite (proj1 (proj2 (malformed_record_is_skipped Decimal_sample strptime_sample
             clock_sample py_str_sample false item_bad_timestamp
             [] world0 (bump_total no_counts) (or_intror eq_refl)))).
  reflexivity.
Defined.

(** C5, as the specification has it, fails on a malformed number: the
    exception of [to_decimal] leaves [handle], and the record that follows
    is not imported. *)
Lemma malformed_number_aborts :
  malformed_number Decimal_sample item_bad_price /\
  ~ only_record_skipped
      (import_items Decimal_sample strptime_sample clock_sample py_str_sample false)
      (VDict item_bad_price) /\
  handle_sample false [VList [VDict item_bad_price; VDict item_good]] world0 =
    (world0, {| total_reports := 1; created_reports := 0; skipped_reports := 0 |},
     Some InvalidOperation).
Proof.
  split; [exists "Price"; split; [set_solver | by vm_compute] |].
  split; [| by vm_compute].
  intros Hclaim. specialize (Hclaim [VDict item_good] world0 no_counts).
  vm_compute in Hclaim. discriminate.
Qed.

Lemma existing_stock_is_kept_witness :
  Stock_get_or_create py_str_sample "cop" "us" (VStr "Conoco") (VStr "EUR")
    (db first_import.1.1) =
  ({| stock_id := 1; ticker := "COP"; region := "US"; company_name := VStr "";
      currency_code := "USD" |}, false, db first_import.1.1).
Proof.
  apply (proj2 (proj2 (existing_stock_is_kept Decimal_sample strptime_sample
                         clock_sample py_str_sample false [] world0))
           "cop" "us" (VStr "Conoco") (VStr "EUR") (db first_import.1.1) 0%nat).
  by vm_compute.
Defined.





Lemma price_series_capped_witness :
  stock_A ∈ [stock_A; stock_B] /\
  exists rows,
    rows ≡ₚ filter (fun r => stock r = 1%nat /\ 0 <= as_of_timestamp r /\
                            ~ (price (fields r) = None /\
                               price_objective (fields r) = None)) (reports db_chart) /\
    _build_price_series [stock_A; stock_B] 0 db_chart !! 1%nat =
      Some ((fun r => {| point_t := as_of_timestamp r;
                         point_price := price (fields r);
                         point_po := price_objective (fields r) |}) <$>
            drop (length rows - 60) rows) /\
    _build_price_series [stock_A; stock_B] 0 db_chart !! 1%nat =
      Some (chart_point <$> seq 41 60).
Proof.
  assert (stock_A ∈ [stock_A; stock_B]) as Hin by (by left).
  split; [exact Hin |].
  destruct (price_series_capped [stock_A; stock_B] 0 db_chart stock_A Hin)
    as [(rows & Hrows & _ & Hseries & _) _].
  exists rows. split; [exact Hrows |]. split; [exact Hseries | by vm_compute].
Defined.

(** * Further properties *)

(** ** EPS keys *)

Lemma digit_val_bounds c : is_digit c = true -> 0 <= digit_val c <= 9.
Proof.
  unfold is_digit, digit_val.
  intros [?%Nat.leb_le ?%Nat.leb_le]%andb_true_iff. lia.
Qed.

Lemma key_form_bounds key y p :
  key_form key y p ->
  1 <= p <= 3 /\ 1700 <= y <= 2699 /\ (2 <= p -> 2000 <= y <= 2099).
Proof.
  intros Hf. inversion Hf; subst;
    repeat match goal with
           | H : is_digit _ = true |- _ => apply digit_val_bounds in H
           end; lia.
Qed.

(** The year of an ASCII EPS key lies between 1700 and 2699, and between
    2000 and 2099 when the key is one of the two year forms. *)
Theorem eps_year_bounds key y :
  is_ascii key = true ->
  extract_eps_year key = Some y ->
  1700 <= y <= 2699 /\ (2 <= eps_priority key -> 2000 <= y <= 2099).
Proof.
  intros _ [p Hf]%extract_eps_year_spec.
  rewrite (eps_priority_spec _ _ _ Hf).
  destruct (key_form_bounds _ _ _ Hf) as (_ & ? & ?). done.
Qed.

Lemma eps_year_bounds_witness :
  is_ascii "327_EPS" = true /\ extract_eps_year "327_EPS" = Some 2027 /\
  1700 <= 2027 <= 2699.
Proof.
  split; [reflexivity |]. split; [reflexivity |].
  exact (proj1 (eps_year_bounds "327_EPS" 2027 eq_refl eq_refl)).
Defined.

(** [eps_priority] and [extract_eps_year] agree on what an EPS key is: on
    ASCII keys the priority is 0 exactly on the keys that have no year, and
    1, 2 or 3 on the others. *)
Theorem eps_priority_zero_iff_no_year key :
  is_ascii key = true ->
  (eps_priority key = 0 <-> extract_eps_year key = None) /\
  0 <= eps_priority key <= 3.
Proof.
  intros _. destruct (extract_eps_year key) as [y |] eqn:Hy.
  - apply extract_eps_year_spec in Hy as [p Hf].
    rewrite (eps_priority_spec _ _ _ Hf).
    destruct (key_form_bounds _ _ _ Hf) as (? & _). split; [split; [lia | done] | lia].
  - assert (forall y p, ~ key_form key y p) as Hno.
    { intros y p Hf. assert (extract_eps_year key = Some y) as Hs
        by (apply extract_eps_year_spec; eauto). congruence. }
    unfold eps_priority.
    destruct (re_year_E key) eqn:H3;
      [apply re_year_E_spec in H3 as [y Hf]; by destruct (Hno _ _ Hf) |].
    destruct (re_year_plain key) eqn:H2;
      [apply re_year_plain_spec in H2 as [y Hf]; by destruct (Hno _ _ Hf) |].
    destruct (re_code key) eqn:H1;
      [apply re_code_spec in H1 as [y Hf]; by destruct (Hno _ _ Hf) |].
    split; [done | lia].
Qed.

Lemma eps_priority_zero_iff_no_year_witness :
  is_ascii "Ticker" = true /\
  (eps_priority "Ticker" = 0 <-> extract_eps_year "Ticker" = None) /\
  (eps_priority "2027_EPS" = 0 <-> extract_eps_year "2027_EPS" = None).
Proof.
  split; [reflexivity |]. split.
  - exact (proj1 (eps_priority_zero_iff_no_year "Ticker" eq_refl)).
  - exact (proj1 (eps_priority_zero_iff_no_year "2027_EPS" eq_refl)).
Defined.

(** ** The resolver and the entries it does not read *)

Section ResolverFrame.

Variable Decimal : string -> option Q.

Lemma eps_step_not_entry kv st : ~ eps_entry kv -> eps_step Decimal kv st = Ok st.
Proof.
  unfold eps_entry, eps_step. intros Hno.
  destruct (extract_eps_year kv.1) as [y |]; [| done].
  destruct (is_empty kv.2); [done |]. destruct Hno. by split; [eexists |].
Qed.

Lemma eps_loop_filter item st :
  eps_loop Decimal item st = eps_loop Decimal (filter eps_entry item) st.
Proof.
  revert st. induction item as [| kv item IH]; intros st; [done |].
  rewrite filter_cons. destruct (decide (eps_entry kv)) as [Hkv | Hkv]; simpl.
  - destruct (eps_step Decimal kv st); simpl; [apply IH | done].
  - rewrite eps_step_not_entry by done. simpl. apply IH.
Qed.

(** The rows of a record are those of its EPS entries alone: the other
    fields of the record, and the EPS keys whose value is empty or null,
    can be removed without changing the rows or the exception. *)
Theorem resolve_eps_reads_eps_entries item :
  resolve_eps Decimal item = resolve_eps Decimal (filter eps_entry item).
Proof. unfold resolve_eps. by rewrite eps_loop_filter. Qed.

End ResolverFrame.

(** ** The two normalising fields *)

Lemma has_space_false s :
  has_space s = false <-> Forall (fun c => ~ whitespace c) (list_ascii_of_string s).
Proof.
  induction s as [| c s IH]; simpl; [split; [constructor | done] |].
  rewrite orb_false_iff, Forall_cons, IH, is_space_not_whitespace. done.
Qed.

(** On ASCII text [UppercaseCharField.normalize] gives the text trimmed
    and uppercased, which is a normal form: normalising it again changes
    nothing (so the value of a lookup and the stored value are compared in
    the same form), it has no white space at either end and no small
    letter, and a text that is so already is its own normal form. *)
Theorem UppercaseCharField_normalize_idempotent s :
  is_ascii s = true ->
  normal_form_of s (UppercaseCharField_normalize s) /\
  UppercaseCharField_normalize (UppercaseCharField_normalize s) =
    UppercaseCharField_normalize s /\
  trimmed (UppercaseCharField_normalize s) (UppercaseCharField_normalize s) /\
  uppercased (UppercaseCharField_normalize s) (UppercaseCharField_normalize s) /\
  (trimmed s s -> uppercased s s -> UppercaseCharField_normalize s = s).
Proof.
  intros _. split; [by apply normal_form_spec |].
  assert (UppercaseCharField_normalize s = upper (strip s)) as Hn.
  { unfold UppercaseCharField_normalize. by case_decide as Hs; [subst |]. }
  split; [| split; [| split]].
  - unfold UppercaseCharField_normalize at 1. case_decide as Hu; [done |].
    by rewrite Hn, strip_upper, strip_idemp, upper_idemp.
  - apply trimmed_strip. by rewrite Hn, strip_upper, strip_idemp.
  - apply uppercased_upper. by rewrite Hn, upper_idemp.
  - intros Hs%trimmed_strip Hu%uppercased_upper. by rewrite Hn, <- Hs, <- Hu.
Qed.

Lemma UppercaseCharField_normalize_idempotent_witness :
  is_ascii " cop " = true /\
  normal_form_of " cop " "COP" /\ trimmed "COP" "COP" /\ uppercased "COP" "COP".
Proof.
  split; [reflexivity |].
  destruct (UppercaseCharField_normalize_idempotent " cop " eq_refl)
    as (Hn & _ & Ht & Hu & _).
  split; [exact Hn |]. split; [exact Ht | exact Hu].
Defined.

(** On ASCII text [NormalizedRatingField.normalize] gives the text trimmed
    and uppercased, with one underscore for each run of white space left
    inside: " Under   perform " gives "UNDER_PERFORM".  This is a normal
    form too: normalising it again changes nothing, and it has no white
    space at all and no small letter.  It is the rating that a new report
    holds. *)
Theorem NormalizedRatingField_normalize_idempotent s :
  is_ascii s = true ->
  (exists m, normal_form_of s m /\ underscored m (NormalizedRatingField_normalize s)) /\
  NormalizedRatingField_normalize (NormalizedRatingField_normalize s) =
    NormalizedRatingField_normalize s /\
  Forall (fun c => ~ whitespace c)
    (list_ascii_of_string (NormalizedRatingField_normalize s)) /\
  uppercased (NormalizedRatingField_normalize s) (NormalizedRatingField_normalize s) /\
  (forall clock st ts f w r w',
     rating f = s ->
     DailyReport_get_or_create clock st ts f w = (Ok (r, true), w') ->
     rating (fields r) = NormalizedRatingField_normalize s) /\
  NormalizedRatingField_normalize " Under   perform " = "UNDER_PERFORM".
Proof.
  intros _.
  assert (NormalizedRatingField_normalize s = ws_sub (upper (strip s)) false) as Hn.
  { unfold NormalizedRatingField_normalize. by case_decide as Hs; [subst |]. }
  pose proof (has_space_ws_sub (upper (strip s)) false) as Hsp.
  split; [| split; [| split; [| split; [| split; [| by vm_compute]]]]].
  - exists (upper (strip s)). split.
    + apply normal_form_spec. unfold UppercaseCharField_normalize.
      by case_decide as Hs; [subst |].
    + rewrite Hn. apply underscored_ws_sub.
  - unfold NormalizedRatingField_normalize at 1. case_decide as Hu; [done |].
    rewrite Hn, (strip_no_space _ Hsp), upper_ws_sub, upper_idemp.
    by apply ws_sub_no_space.
  - apply has_space_false. by rewrite Hn.
  - apply uppercased_upper. by rewrite Hn, upper_ws_sub, upper_idemp.
  - intros clock st ts f w r w' <-. unfold DailyReport_get_or_create.
    destruct (list_find _ (reports (db w))) as [[k r0] |]; [done |]. simpl.
    unfold save_defaults.
    destruct (save_decimal 20 6 (price f)); [| done]. simpl.
    destruct (save_decimal 20 6 (price_objective f)); [| done]. simpl.
    destruct (save_decimal 10 6 (upside f)); [| done]. simpl.
    destruct (save_decimal 24 2 (average_daily_value f)); [| done]. simpl.
    destruct (save_decimal 28 2 (market_cap f)); [| done]. simpl.
    by intros [= <- <-].
Qed.

Lemma NormalizedRatingField_normalize_idempotent_witness :
  is_ascii "Not  rated" = true /\
  (exists m, normal_form_of "Not  rated" m /\ underscored m "NOT_RATED") /\
  uppercased "NOT_RATED" "NOT_RATED".
Proof.
  split; [reflexivity |].
  destruct (NormalizedRatingField_normalize_idempotent "Not  rated" eq_refl)
    as (Hn & _ & _ & Hu & _).
  split; [exact Hn | exact Hu].
Defined.

(** ** Tickers *)

Lemma split_from_app_token t s tok :
  has_space t = false -> split_from (t +:+ s) tok = split_from s (tok +:+ t).
Proof.
  revert tok. induction t as [| c t IH]; intros tok.
  - intros _. by rewrite append_nil_r.
  - cbn [has_space]. intros [Hc Ht]%orb_false_iff.
    rewrite append_cons. cbn [split_from]. rewrite Hc, IH by done.
    by rewrite append_assoc.
Qed.

Lemma word_token t : word t <-> token t.
Proof. unfold word, token. by rewrite has_space_false. Qed.

(** White space before the first word is skipped. *)
Lemma split_from_all_whitespace sp y :
  all_whitespace sp -> split_from (sp +:+ y) "" = split_from y "".
Proof.
  induction sp as [| c sp IH]; [done |].
  intros [Hc Hsp]%all_whitespace_cons. rewrite append_cons. simpl.
  rewrite Hc. by apply IH.
Qed.

(** White space after a word ends the word. *)
Lemma split_from_word_end tok c x :
  tok <> "" -> is_space c = true ->
  split_from (String c x) tok = tok :: split_from x "".
Proof. intros Htok Hc. simpl. rewrite Hc. by rewrite decide_False. Qed.

(** The text is read up to the next white space, or to its end. *)
Lemma split_from_run s tok :
  exists w x, s = w +:+ x /\ has_space w = false /\
    (forall c x', x = String c x' -> is_space c = true) /\
    split_from s tok = split_from x (tok +:+ w).
Proof.
  revert tok. induction s as [| c s IH]; intros tok.
  { exists "", "". rewrite !append_nil_r. by repeat split. }
  destruct (is_space c) eqn:Hc.
  - exists "", (String c s). rewrite append_nil_r.
    split; [done |]. split; [done |]. split; [| done].
    by intros ? ? [= <- <-].
  - destruct (IH (tok +:+ String c "")) as (w & x & -> & Hw & Hx & Hsplit).
    exists (String c w), x. split; [done |]. split; [simpl; by rewrite Hc, Hw |].
    split; [done |]. simpl. rewrite Hc, Hsplit. by rewrite append_assoc.
Qed.

(** The white space that a text begins with. *)
Lemma leading_whitespace s :
  exists sp y, s = sp +:+ y /\ all_whitespace sp /\
    (forall c y', y = String c y' -> is_space c = false).
Proof.
  destruct (lstrip_decompose s) as (sp & Hs & Hsp). exists sp, (lstrip s).
  split; [done |]. split; [done |]. intros c y' Hy. by eapply lstrip_head.
Qed.

(** The first word of a text and what follows it. *)
Lemma split_first_word s t L :
  split_from s "" = t :: L ->
  exists sp x, s = sp +:+ t +:+ x /\ all_whitespace sp /\ word t /\
    ((x = "" /\ L = []) \/
     (exists c x', x = String c x' /\ is_space c = true /\ L = split_from x' "")).
Proof.
  destruct (leading_whitespace s) as (sp & y & -> & Hsp & Hy).
  rewrite (split_from_all_whitespace _ _ Hsp).
  destruct (split_from_run y "") as (w & x & -> & Hw & Hx & ->).
  change ("" +:+ w) with w. intros Hsplit.
  assert (w <> "") as Hne.
  { intros ->. change ("" +:+ x) with x in Hy. destruct x as [| c x']; [done |].
    specialize (Hy c x' eq_refl). specialize (Hx c x' eq_refl). congruence. }
  destruct x as [| c x'].
  - simpl in Hsplit. rewrite decide_False in Hsplit by done. injection Hsplit as <- <-.
    exists sp, "". split; [done |]. split; [done |]. split; [by apply word_token |].
    by left.
  - rewrite (split_from_word_end _ _ _ Hne (Hx c x' eq_refl)) in Hsplit.
    injection Hsplit as <- <-.
    exists sp, (String c x'). split; [done |]. split; [done |].
    split; [by apply word_token |]. right. exists c, x'. split; [done |].
    split; [by apply (Hx c x') | done].
Qed.

(** [parse_ticker_region] gives the first two words of the text. *)
Lemma parse_ticker_region_words s t r :
  parse_ticker_region (VStr s) = Ok (t, r) <->
  exists sp0 sp1 rest, s = sp0 +:+ t +:+ sp1 +:+ r +:+ rest /\
    all_whitespace sp0 /\ all_whitespace sp1 /\ sp1 <> "" /\ word t /\ word r /\
    (forall c rest', rest = String c rest' -> whitespace c).
Proof.
  split.
  - unfold parse_ticker_region. destruct (truthy (VStr s)); [| done].
    destruct (split s) as [| a [| b L]] eqn:Hsplit; try done. intros [= -> ->].
    apply split_first_word in Hsplit
      as (sp0 & x & -> & Hsp0 & Ht & [[_ [=]] | (c & x' & -> & Hc & HL)]).
    symmetry in HL. apply split_first_word in HL
      as (sp & x & -> & Hsp & Hr & Hrest).
    exists sp0, (String c sp), x. split; [done |]. split; [done |].
    split; [by apply all_whitespace_cons |]. split; [done |].
    split; [done |]. split; [done |].
    intros c' rest' ->. destruct Hrest as [[[=] _] | (c0 & x0 & [= <- <-] & Hc0 & _)].
    by apply is_space_whitespace.
  - intros (sp0 & sp1 & rest & -> & Hsp0 & Hsp1 & Hne & Ht & Hr & Hrest).
    apply word_token in Ht as Ht'. apply word_token in Hr as Hr'.
    destruct Ht' as [Htne Hts]. destruct Hr' as [Hrne Hrs].
    assert (split (sp0 +:+ t +:+ sp1 +:+ r +:+ rest) =
            t :: r :: match rest with String _ x => split_from x "" | "" => [] end)
      as Hsplit.
    { unfold split. rewrite (split_from_all_whitespace _ _ Hsp0).
      rewrite (split_from_app_token _ _ _ Hts). change ("" +:+ t) with t.
      destruct sp1 as [| c sp1]; [done |].
      apply all_whitespace_cons in Hsp1 as [Hc Hsp1]. rewrite append_cons.
      rewrite (split_from_word_end _ _ _ Htne Hc). f_equal.
      rewrite (split_from_all_whitespace _ _ Hsp1).
      rewrite (split_from_app_token _ _ _ Hrs). change ("" +:+ r) with r.
      destruct rest as [| c' rest'].
      - simpl. by rewrite decide_False.
      - apply split_from_word_end; [done |]. apply is_space_whitespace. by eapply Hrest. }
    unfold parse_ticker_region.
    assert (truthy (VStr (sp0 +:+ t +:+ sp1 +:+ r +:+ rest)) = true) as ->.
    { simpl. rewrite decide_False; [done |].
      destruct sp0; [| done]. destruct t; done. }
    by rewrite Hsplit.
Qed.

(** On ASCII text [parse_ticker_region] returns the first two words of the
    text, whatever follows them: the text is white space, the ticker,
    white space, the region, and then nothing or white space and more;
    ticker and region are not empty and hold no white space, so that
    trimming changes neither.  A text with fewer than two words raises
    [ValueError]. *)
Theorem parse_ticker_region_tokens s :
  is_ascii s = true ->
  (forall t r,
     parse_ticker_region (VStr s) = Ok (t, r) <->
     exists sp0 sp1 rest, s = sp0 +:+ t +:+ sp1 +:+ r +:+ rest /\
       all_whitespace sp0 /\ all_whitespace sp1 /\ sp1 <> "" /\ word t /\ word r /\
       (forall c rest', rest = String c rest' -> whitespace c)) /\
  (forall t r, parse_ticker_region (VStr s) = Ok (t, r) -> trimmed t t /\ trimmed r r) /\
  (forall e, parse_ticker_region (VStr s) = Raise e -> e = ValueError).
Proof.
  intros _. split; [intros t r; apply parse_ticker_region_words |]. split.
  - intros t r (_ & _ & _ & _ & _ & _ & _ & [_ Ht]%word_token & [_ Hr]%word_token & _)
      %parse_ticker_region_words.
    split; apply trimmed_strip; by rewrite strip_no_space.
  - intros e. unfold parse_ticker_region. destruct (truthy (VStr s)); [| by intros [= <-]].
    destruct (split s) as [| a [| b L]]; try done; by intros [= <-].
Qed.

Lemma parse_ticker_region_tokens_witness :
  is_ascii "  cop   us equity" = true /\
  parse_ticker_region (VStr "  cop   us equity") = Ok ("cop", "us") /\
  trimmed "cop" "cop" /\ trimmed "us" "us".
Proof.
  split; [reflexivity |]. split; [reflexivity |].
  exact (proj1 (proj2 (parse_ticker_region_tokens "  cop   us equity" eq_refl))
           "cop" "us" eq_refl).
Defined.

(** The text of a stock with an ASCII ticker and region parses back to
    them exactly when both are words. *)
Theorem Stock_str_parses_back s :
  is_ascii (ticker s) = true -> is_ascii (region s) = true ->
  (parse_ticker_region (VStr (Stock_str s)) = Ok (ticker s, region s) <->
   word (ticker s) /\ word (region s)).
Proof.
  intros _ _. rewrite parse_ticker_region_words. split.
  - intros (_ & _ & _ & _ & _ & _ & _ & Ht & Hr & _). done.
  - intros [Ht Hr]. exists "", " ", "". unfold Stock_str.
    rewrite append_nil_r. split; [done |]. split; [apply all_whitespace_nil |].
    split; [| done]. apply all_whitespace_cons. split; [done | apply all_whitespace_nil].
Qed.

Lemma Stock_str_parses_back_witness :
  is_ascii "AAA" = true /\ is_ascii "US" = true /\
  parse_ticker_region (VStr (Stock_str stock_A)) = Ok ("AAA", "US").
Proof.
  split; [reflexivity |]. split; [reflexivity |].
  apply (Stock_str_parses_back stock_A eq_refl eq_refl).
  split; (split; [done | by apply has_space_false]).
Defined.

(** ** More on the resolver *)

Section ResolverOrder.

Variable Decimal : string -> option Q.

(** A value is converted only when its key can replace what is stored for
    its year: after an entry of the year whose priority is not lower, an
    entry is not read at all, and a value there that is no number raises
    nothing. *)
Theorem eps_later_entry_not_read item rows y i kv k v :
  resolve_eps Decimal item = Ok rows ->
  wins item y i kv ->
  extract_eps_year k = Some y ->
  eps_priority k <= eps_priority kv.1 ->
  resolve_eps Decimal (item ++ [(k, v)]) = Ok rows.
Proof.
  unfold resolve_eps.
  destruct (eps_loop Decimal item (∅, ∅)) as [st | e] eqn:Hst; simpl; [| done].
  intros [= <-] Hw Hy Hle. rewrite eps_loop_snoc, Hst. simpl.
  enough (eps_step Decimal (k, v) st = Ok st) as -> by done.
  unfold eps_step. simpl. rewrite Hy. destruct (is_empty v); [done |].
  pose proof (eps_loop_inv Decimal _ _ Hst y) as Hinv.
  destruct (st.1 !! y) as [q |].
  - destruct Hinv as (i' & kv' & Hw' & _ & ->).
    destruct (wins_unique _ _ _ _ _ _ Hw Hw') as [_ <-]. simpl.
    by rewrite (proj2 (Z.ltb_ge _ _) Hle).
  - destruct Hw as (Hi & Hc & _). exfalso. eapply Hinv; [| done].
    apply list_elem_of_lookup. eauto.
Qed.

Lemma resolve_eps_NoDup item rows :
  resolve_eps Decimal item = Ok rows -> NoDup rows.*1.
Proof.
  unfold resolve_eps.
  destruct (eps_loop Decimal item (∅, ∅)) as [st | e]; simpl; [| done].
  intros [= <-]. rewrite merge_sort_Permutation. apply NoDup_fst_map_to_list.
Qed.

End ResolverOrder.

Lemma eps_later_entry_not_read_witness :
  resolve_eps Decimal_sample (item_priority ++ [("2027_EPS" +:+ String LF "", VStr "n/a")]) =
  Ok [(2027, (11 # 10)%Q)].
Proof.
  apply (eps_later_entry_not_read Decimal_sample item_priority _ 2027 0
           ("2027E_EPS", VNum (11 # 10))).
  - by vm_compute.
  - split; [done |]. split; [by vm_compute |]. split.
    + intros [| [| [| j]]] kv' [= <-] _; by vm_compute.
    + intros j kv' Hj. lia.
  - by vm_compute.
  - by vm_compute.
Defined.

(** ** More on the importer *)

Section ImporterFrame.

Variable Decimal : string -> option Q.
Variable strptime : string -> option Z.
Variable clock : nat -> Z.
Variable py_str : value -> string.

(** What every transaction of a record that was read preserves, every run
    preserves. *)
Lemma handle_preserves_record (P : store -> Prop) :
  (forall item t r ts cn cur f kt eps_rows w res w',
     parse_ticker_region (dict_get item "Ticker" (VStr "")) = Ok (t, r) ->
     resolve_eps Decimal item = Ok eps_rows ->
     write_record clock py_str t r ts cn cur f kt eps_rows w = (res, w') ->
     P (db w) -> P (db w')) ->
  forall dry files w,
    P (db w) -> P (db (handle Decimal strptime clock py_str dry files w).1.1).
Proof.
  intros Hwrite dry.
  assert (Hitem : forall item w c,
             P (db w) ->
             P (db (import_item Decimal strptime clock py_str dry item (w, c)).1.1)).
  { intros item w c HP. unfold import_item.
    destruct item as [| | | | | d]; try done.
    destruct (parse_ticker_region _) as [[t r] | ?] eqn:Ht; [| done].
    pose proof (parse_timestamp_db strptime clock (dict_get d "Timestamp" VNull) w) as Hdb.
    destruct (parse_timestamp _ _ _ _) as [[ts | ?] w1]; simpl in Hdb;
      [| simpl; by rewrite Hdb].
    destruct (build_report_defaults _ _ _) as [f | ?]; [| simpl; by rewrite Hdb].
    destruct (resolve_eps _ _) as [rows | ?] eqn:Hrows; [| simpl; by rewrite Hdb].
    destruct dry; [simpl; by rewrite Hdb |].
    destruct (write_record _ _ _ _ _ _ _ _ _ _ _) as [[[|] | ?] w2] eqn:Hw; simpl;
      (eapply Hwrite; [exact Ht | exact Hrows | exact Hw | by rewrite Hdb]). }
  assert (Hitems : forall data w c,
             P (db w) ->
             P (db (import_items Decimal strptime clock py_str dry data (w, c)).1.1)).
  { induction data as [| item data IH]; intros w c HP; [done |].
    rewrite import_items_cons. specialize (Hitem item w c HP).
    destruct (import_item _ _ _ _ dry item (w, c)) as [[w1 c1] [e |]];
      [done | by apply IH]. }
  assert (Hfiles : forall files w c,
             P (db w) ->
             P (db (import_files Decimal strptime clock py_str dry files (w, c)).1.1)).
  { induction files as [| data files IH]; intros w c HP; [done |]. simpl.
    destruct data as [| | | | l |]; try done.
    specialize (Hitems l w c HP).
    destruct (import_items _ _ _ _ dry l (w, c)) as [[w1 c1] [e |]]; [done | by apply IH]. }
  intros files w HP. unfold handle. destruct files; [done | by apply Hfiles].
Qed.

End ImporterFrame.

Lemma StronglySorted_lt_NoDup (l : list nat) : StronglySorted lt l -> NoDup l.
Proof.
  induction 1 as [| a l Hs IH Hall]; constructor; [| done].
  rewrite Forall_forall in Hall. intros Hin. specialize (Hall _ Hin). lia.
Qed.

Lemma ids_lookup {A} (f : A -> nat) (l : list A) k x :
  f <$> l = seq 1 (length l) -> l !! k = Some x -> f x = S k /\ (k < length l)%nat.
Proof.
  intros Hids Hk.
  assert ((f <$> l) !! k = Some (f x)) as Hf by by rewrite list_lookup_fmap, Hk.
  rewrite Hids in Hf. apply lookup_seq in Hf. lia.
Qed.

Lemma ids_snoc {A} (f : A -> nat) (l : list A) x :
  f <$> l = seq 1 (length l) -> f x = S (length l) ->
  f <$> (l ++ [x]) = seq 1 (length (l ++ [x])).
Proof.
  intros Hids Hx. rewrite fmap_app, length_app, Hids. simpl.
  by rewrite Nat.add_1_r, seq_S, Hx.
Qed.

Section ImporterInvariants.

Variable Decimal : string -> option Q.
Variable strptime : string -> option Z.
Variable clock : nat -> Z.
Variable py_str : value -> string.

Lemma Stock_get_or_create_ok t r cn cur d s created d1 :
  store_ok d ->
  Stock_get_or_create py_str t r cn cur d = (s, created, d1) ->
  store_ok d1 /\ (1 <= stock_id s <= length (stocks d1))%nat.
Proof.
  intros Hok Hs.
  pose proof (Stock_get_or_create_NoDup _ _ _ _ _ _ _ _ _ Hs) as Hnd.
  destruct Hok as [(Hsid & Hrid & Hfk & Htk & Hek) (Hus & Hur & Hut & Hue)].
  unfold Stock_get_or_create in Hs.
  destruct (list_find _ (stocks d)) as [[k s0] |] eqn:Hf.
  - injection Hs as <- <- <-. split; [done |].
    apply list_find_Some in Hf as (Hk & _).
    destruct (ids_lookup _ _ _ _ Hsid Hk). lia.
  - injection Hs as <- <- <-. simpl in *. split.
    + split; [| by repeat split; auto].
      split; [by apply ids_snoc |]. split; [done |]. split; [| done].
      eapply Forall_impl; [exact Hfk |]. intros x Hx. simpl in Hx |- *.
      rewrite length_app. simpl. lia.
    + rewrite length_app. simpl. lia.
Qed.

(** A new report with its children. *)
Lemma create_report_ok d rep tks eps_rows :
  store_ok d ->
  report_id rep = S (length (reports d)) ->
  (1 <= stock rep <= length (stocks d))%nat ->
  Forall (fun r => ~ same_report (stock rep) (as_of_timestamp rep) r) (reports d) ->
  NoDup tks.*1 -> NoDup eps_rows.*1 ->
  store_ok (bulk_create_children rep tks eps_rows
              {| stocks := stocks d; reports := reports d ++ [rep];
                 takeaways := takeaways d; eps_forecasts := eps_forecasts d |}).
Proof.
  intros [(Hsid & Hrid & Hfk & Htk & Hek) (Hus & Hur & Hut & Hue)] Hid Hst Hnew Htks Heps.
  rewrite Forall_forall in Hnew. rewrite Forall_forall in Htk.
  rewrite Forall_forall in Hek.
  split; [split; [| split; [| split; [| split]]] | split; [| split; [| split]]]; simpl.
  - done.
  - by apply ids_snoc.
  - apply Forall_app. split; [done | by constructor].
  - apply Forall_app. split.
    + apply Forall_forall. intros x Hx. specialize (Htk x Hx). simpl in Htk.
      rewrite length_app. simpl. lia.
    + apply Forall_fmap, Forall_forall. intros it _. simpl. rewrite length_app, Hid.
      simpl. lia.
  - apply Forall_app. split.
    + apply Forall_forall. intros x Hx. specialize (Hek x Hx). simpl in Hek.
      rewrite length_app. simpl. lia.
    + apply Forall_fmap, Forall_forall. intros it _. simpl. rewrite length_app, Hid.
      simpl. lia.
  - done.
  - rewrite fmap_app. apply NoDup_app. split; [done |].
    split; [| apply NoDup_singleton].
    intros key (r0 & -> & Hr0)%list_elem_of_fmap [= Hs Ht]%list_elem_of_singleton.
    by apply (Hnew r0 Hr0).
  - rewrite fmap_app. apply NoDup_app. split; [done |]. split.
    + intros key (x & -> & Hx)%list_elem_of_fmap
        (y & Hy & (it & -> & _)%list_elem_of_fmap)%list_elem_of_fmap.
      unfold takeaway_key in Hy. injection Hy as Hy _. simpl in Hy. specialize (Htk x Hx). simpl in Htk. lia.
    + rewrite <- list_fmap_compose.
      apply (NoDup_fmap_1 snd). rewrite <- list_fmap_compose.
      by rewrite (list_fmap_ext _ fst tks) by done.
  - rewrite fmap_app. apply NoDup_app. split; [done |]. split.
    + intros key (x & -> & Hx)%list_elem_of_fmap
        (y & Hy & (it & -> & _)%list_elem_of_fmap)%list_elem_of_fmap.
      unfold eps_key in Hy. injection Hy as Hy _. simpl in Hy. specialize (Hek x Hx). simpl in Hek. lia.
    + rewrite <- list_fmap_compose.
      apply (NoDup_fmap_1 snd). rewrite <- list_fmap_compose.
      by rewrite (list_fmap_ext _ fst eps_rows) by done.
Qed.

Lemma write_record_ok t r ts cn cur f kt eps_rows w res w' :
  NoDup eps_rows.*1 ->
  write_record clock py_str t r ts cn cur f kt eps_rows w = (res, w') ->
  store_ok (db w) -> store_ok (db w').
Proof.
  intros Heps. unfold write_record.
  destruct (Stock_get_or_create _ _ _ _ _ _) as [[s b] d1] eqn:Hs.
  intros Hres Hok.
  destruct (Stock_get_or_create_ok _ _ _ _ _ _ _ _ Hok Hs) as [Hok1 Hsid].
  unfold DailyReport_get_or_create in Hres. simpl in Hres.
  destruct (list_find _ (reports d1)) as [[k r0] |] eqn:Hf.
  - by injection Hres as <- <-.
  - apply list_find_None in Hf. simpl in Hres.
    destruct (save_defaults f) as [saved | e]; [| by injection Hres as <- <-].
    destruct (iterate kt) as [l | e]; [| by injection Hres as <- <-].
    destruct (save_eps_rows eps_rows) as [saved_rows | e] eqn:Hrows;
      injection Hres as <- <-; simpl; [| done].
    apply (create_report_ok d1); simpl; try done.
    + unfold takeaway_rows.
      apply StronglySorted_lt_NoDup, StronglySorted_filter_fst.
      rewrite enumerate_fst. apply StronglySorted_seq.
    + by rewrite (save_eps_rows_fst _ _ Hrows).
Qed.

Lemma handle_store_ok dry files w :
  store_ok (db w) ->
  store_ok (db (handle Decimal strptime clock py_str dry files w).1.1).
Proof.
  apply (handle_preserves_record Decimal strptime clock py_str store_ok).
  intros item t r ts cn cur f kt eps_rows w0 res w' _ Hrows Hw.
  apply (write_record_ok _ _ _ _ _ _ _ _ _ _ _ (resolve_eps_NoDup _ _ _ Hrows) Hw).
Qed.

(** [handle] never breaks a constraint of the models: in the store it
    leaves, (ticker, region) is unique among the stocks, (stock,
    as_of_timestamp) among the reports, (report, order) among the takeaways
    and (report, year) among the EPS forecasts. *)
Theorem handle_keeps_unique_constraints dry files w :
  store_ok (db w) ->
  unique_constraints (db (handle Decimal strptime clock py_str dry files w).1.1).
Proof. intros Hok. by destruct (handle_store_ok dry files w Hok). Qed.

Lemma write_record_refs t r ts cn cur f kt eps_rows w res w' :
  write_record clock py_str t r ts cn cur f kt eps_rows w = (res, w') ->
  refs_resolve (db w) -> refs_resolve (db w').
Proof.
  unfold write_record.
  destruct (Stock_get_or_create _ _ _ _ _ _) as [[s b] d1] eqn:Hs.
  intros Hres (Hr & Ht & He).
  assert (refs_resolve d1 /\ s ∈ stocks d1) as [(Hr1 & Ht1 & He1) Hin].
  { unfold Stock_get_or_create in Hs.
    destruct (list_find _ (stocks (db w))) as [[k s0] |] eqn:Hf.
    - injection Hs as <- <- <-. split; [done |].
      apply list_find_Some in Hf as (Hk & _). by eapply list_elem_of_lookup_2.
    - injection Hs as <- <- <-. simpl. split; [| set_solver].
      split; [| done]. simpl. intros r0 Hr0.
      destruct (Hr r0 Hr0) as (s0 & Hs0 & Hid). exists s0. split; [set_solver | done]. }
  unfold DailyReport_get_or_create in Hres. simpl in Hres.
  destruct (list_find _ (reports d1)) as [[k r0] |] eqn:Hf.
  - by injection Hres as <- <-.
  - simpl in Hres.
    destruct (save_defaults f) as [saved | e]; [| by injection Hres as <- <-].
    destruct (iterate kt) as [l | e]; [| by injection Hres as <- <-].
    destruct (save_eps_rows eps_rows) as [saved_rows | e];
      injection Hres as <- <-; simpl; [| done].
    split; [| split]; simpl.
    + intros r0 [Hr0 | ->%list_elem_of_singleton]%elem_of_app; [by apply Hr1 |].
      by exists s.
    + intros x [Hx | (it & -> & _)%list_elem_of_fmap]%elem_of_app.
      * destruct (Ht1 x Hx) as (r0 & Hr0 & Hid). exists r0. split; [set_solver | done].
      * eexists. split; [apply elem_of_app; right; by apply list_elem_of_singleton |].
        done.
    + intros x [Hx | (it & -> & _)%list_elem_of_fmap]%elem_of_app.
      * destruct (He1 x Hx) as (r0 & Hr0 & Hid). exists r0. split; [set_solver | done].
      * eexists. split; [apply elem_of_app; right; by apply list_elem_of_singleton |].
        done.
Qed.

(** [handle] leaves no dangling key: if every foreign key of the store
    resolves before a run, then after it every report belongs to a stock
    of the store, and every takeaway and EPS forecast to a report of the
    store, whatever the run wrote and however it ended. *)
Theorem handle_keeps_references dry files w :
  refs_resolve (db w) ->
  refs_resolve (db (handle Decimal strptime clock py_str dry files w).1.1).
Proof.
  apply (handle_preserves_record Decimal strptime clock py_str refs_resolve).
  intros item t r ts cn cur f kt eps_rows w0 res w' _ _ Hw.
  by apply (write_record_refs _ _ _ _ _ _ _ _ _ _ _ Hw).
Qed.

End ImporterInvariants.

Lemma empty_store_ok : store_ok empty_store.
Proof. repeat split; simpl; constructor. Qed.

Lemma handle_keeps_unique_constraints_witness :
  unique_constraints (db (handle_sample false [doc_repeated; doc_same_stock] world0).1.1).
Proof.
  apply (handle_keeps_unique_constraints Decimal_sample strptime_sample clock_sample
           py_str_sample false [doc_repeated; doc_same_stock] world0).
  apply empty_store_ok.
Defined.

Lemma handle_keeps_references_witness :
  refs_resolve db_counts /\
  refs_resolve (db (handle_sample false [doc_repeated; doc_same_stock]
                      {| db := db_counts; ticks := 0 |}).1.1).
Proof.
  assert (refs_resolve db_counts) as Hrefs.
  { split; [| split; simpl; intros x Hx; by apply elem_of_nil in Hx].
    simpl. intros r Hr.
    repeat (apply elem_of_cons in Hr as [-> | Hr]);
      try (by apply elem_of_nil in Hr);
      [exists stock_A | exists stock_A | exists stock_B | exists stock_A | exists stock_B];
      (split; [| done]); set_solver. }
  split; [exact Hrefs |].
  exact (handle_keeps_references Decimal_sample strptime_sample clock_sample
           py_str_sample false [doc_repeated; doc_same_stock]
           {| db := db_counts; ticks := 0 |} Hrefs).
Defined.

(** ** Runs *)

Section Runs.

Variable Decimal : string -> option Q.
Variable strptime : string -> option Z.
Variable clock : nat -> Z.
Variable py_str : value -> string.

Notation import_item_ := (import_item Decimal strptime clock py_str).
Notation import_items_ := (import_items Decimal strptime clock py_str).
Notation import_files_ := (import_files Decimal strptime clock py_str).
Notation handle_ := (handle Decimal strptime clock py_str).

(** *** Dry runs *)

Lemma import_item_dry item w c :
  db (import_item_ true item (w, c)).1.1 = db w /\
  created_reports (import_item_ true item (w, c)).1.2 = created_reports c /\
  skipped_reports (import_item_ true item (w, c)).1.2 = skipped_reports c.
Proof.
  unfold import_item. destruct item as [| | | | | d]; try done.
  destruct (parse_ticker_region _) as [[t r] | ?]; [| done].
  pose proof (parse_timestamp_db strptime clock (dict_get d "Timestamp" VNull) w) as Hdb.
  destruct (parse_timestamp _ _ _ _) as [[ts | ?] w1]; simpl in Hdb; [| done].
  destruct (build_report_defaults _ _ _) as [f | ?]; [| done].
  by destruct (resolve_eps _ _) as [rows | ?].
Qed.

Lemma import_items_dry data w c :
  db (import_items_ true data (w, c)).1.1 = db w /\
  created_reports (import_items_ true data (w, c)).1.2 = created_reports c /\
  skipped_reports (import_items_ true data (w, c)).1.2 = skipped_reports c.
Proof.
  revert w c. induction data as [| item data IH]; intros w c; [done |].
  rewrite import_items_cons. pose proof (import_item_dry item w c) as Hitem.
  destruct (import_item_ true item (w, c)) as [[w1 c1] [e |]]; simpl in Hitem; [done |].
  destruct Hitem as (<- & <- & <-). apply IH.
Qed.

(** With [--dry-run], [handle] writes nothing: whatever the documents, the
    store is left as it was and no report is counted as created or
    skipped. *)
Theorem dry_run_writes_nothing files w :
  db (handle Decimal strptime clock py_str true files w).1.1 = db w /\
  created_reports (handle Decimal strptime clock py_str true files w).1.2 = 0%nat /\
  skipped_reports (handle Decimal strptime clock py_str true files w).1.2 = 0%nat.
Proof.
  unfold handle. destruct files as [| data0 files0]; [done |].
  generalize (data0 :: files0). clear data0 files0. intros files.
  change 0%nat with (created_reports no_counts) at 1.
  change 0%nat with (skipped_reports no_counts).
  generalize no_counts. revert w.
  induction files as [| data files IH]; intros w c; [done |]. simpl.
  destruct data as [| | | | l |]; try done.
  pose proof (import_items_dry l w c) as Hl.
  destruct (import_items_ true l (w, c)) as [[w1 c1] [e |]]; simpl in Hl; [done |].
  destruct Hl as (<- & <- & <-). apply IH.
Qed.

(** *** Documents *)

Lemma import_files_app dry files1 files2 wc :
  import_files_ dry (files1 ++ files2) wc =
  match import_files_ dry files1 wc with
  | (wc', None) => import_files_ dry files2 wc'
  | (wc', Some e) => (wc', Some e)
  end.
Proof.
  revert wc. induction files1 as [| data files1 IH]; intros wc; [done |]. simpl.
  destruct data as [| | | | l |]; try done.
  destruct (import_items_ dry l wc) as [wc1 [e |]]; [done | apply IH].
Qed.

(** A document that is not a list stops the run with [CommandError]: what
    the documents before it wrote stays written, and the documents after
    it are not read. *)
Theorem non_list_document_aborts dry files1 data files2 w wc1 :
  (forall l, data <> VList l) ->
  import_files Decimal strptime clock py_str dry files1 (w, no_counts) = (wc1, None) ->
  handle Decimal strptime clock py_str dry (files1 ++ data :: files2) w = (wc1, Some CommandError).
Proof.
  intros Hdata Hrun. unfold handle.
  destruct (files1 ++ data :: files2) as [| d0 fs] eqn:Happ;
    [by destruct files1 |].
  rewrite <- Happ, import_files_app, Hrun. simpl.
  destruct data as [| | | | l |]; try done. by destruct (Hdata l).
Qed.

(** *** Counts and rows *)

Lemma write_record_reports t r ts cn cur f kt eps_rows w b w' :
  write_record clock py_str t r ts cn cur f kt eps_rows w = (Ok b, w') ->
  length (reports (db w')) =
  (length (reports (db w)) + if b then 1 else 0)%nat.
Proof.
  unfold write_record.
  destruct (Stock_get_or_create _ _ _ _ _ _) as [[s sc] d1] eqn:Hs.
  destruct (DailyReport_get_or_create _ _ _ _ _) as [[[rep created] | e] w2] eqn:Hr;
    [| done].
  apply Stock_get_or_create_frame in Hs as (Hs & _).
  apply DailyReport_get_or_create_frame in Hr as (_ & _ & _ & Hr). simpl in Hr.
  destruct created.
  - destruct (iterate kt); [| done].
    destruct (save_eps_rows eps_rows); intros [= <- <-]. simpl.
    rewrite Hr, Hs, length_app. done.
  - intros [= <- <-]. rewrite Hr, Hs. lia.
Qed.

Lemma import_item_counts item w c w' c' :
  import_item_ false item (w, c) = (w', c', None) ->
  total_reports c' = S (total_reports c) /\
  (created_reports c <= created_reports c')%nat /\
  (skipped_reports c <= skipped_reports c')%nat /\
  (created_reports c' + skipped_reports c' <= S (created_reports c + skipped_reports c))%nat /\
  (length (reports (db w')) + created_reports c =
   length (reports (db w)) + created_reports c')%nat.
Proof.
  unfold import_item. destruct item as [| | | | | d]; try done.
  destruct (parse_ticker_region _) as [[t r] | ?];
    [| intros [= <- <-]; simpl; lia].
  pose proof (parse_timestamp_db strptime clock (dict_get d "Timestamp" VNull) w) as Hdb.
  destruct (parse_timestamp _ _ _ _) as [[ts | ?] w1]; simpl in Hdb;
    [| intros [= <- <-]; rewrite Hdb; simpl; lia].
  destruct (build_report_defaults _ _ _) as [f | ?]; [| done].
  destruct (resolve_eps _ _) as [rows | ?]; [| done].
  destruct (write_record _ _ _ _ _ _ _ _ _ _ _) as [[b | ?] w2] eqn:Hw; [| done].
  apply write_record_reports in Hw. rewrite Hdb in Hw.
  destruct b; intros [= <- <-]; simpl; lia.
Qed.

Lemma import_items_counts data w c w' c' :
  import_items_ false data (w, c) = (w', c', None) ->
  total_reports c' = (total_reports c + length data)%nat /\
  (created_reports c <= created_reports c')%nat /\
  (skipped_reports c <= skipped_reports c')%nat /\
  (created_reports c' + skipped_reports c' <=
   created_reports c + skipped_reports c + length data)%nat /\
  (length (reports (db w')) + created_reports c =
   length (reports (db w)) + created_reports c')%nat.
Proof.
  revert w c. induction data as [| item data IH]; intros w c.
  { intros [= <- <-]. simpl. lia. }
  rewrite import_items_cons.
  destruct (import_item_ false item (w, c)) as [[w1 c1] [e |]] eqn:Hitem; [done |].
  intros Hrest. apply import_item_counts in Hitem. apply IH in Hrest. simpl. lia.
Qed.

(** When a run ends without exception, [total_reports] is the number of
    records of the documents, the reports created and skipped are no more
    than that, and the report table has grown by [created_reports]
    rows. *)
Theorem counts_match_rows files w w' c :
  handle Decimal strptime clock py_str false files w = (w', c, None) ->
  total_reports c = length (records files) /\
  (created_reports c + skipped_reports c <= total_reports c)%nat /\
  length (reports (db w')) = (length (reports (db w)) + created_reports c)%nat.
Proof.
  unfold handle. intros Hrun.
  assert (import_files_ false files (w, no_counts) = (w', c, None)) as Hfiles
    by (by destruct files).
  apply import_files_records in Hfiles as [Hitems _].
  apply import_items_counts in Hitems as (Ht & _ & _ & Hcs & Hr).
  change (total_reports no_counts) with 0%nat in Ht.
  change (created_reports no_counts) with 0%nat in Hcs, Hr.
  change (skipped_reports no_counts) with 0%nat in Hcs. lia.
Qed.

(** *** Several runs *)

Lemma add_counts_assoc c1 c2 c3 :
  add_counts (add_counts c1 c2) c3 = add_counts c1 (add_counts c2 c3).
Proof. unfold add_counts. simpl. f_equal; lia. Qed.

(** The counts with which a record is read only add to those it gives. *)
Lemma import_item_shift dry item w c :
  import_item_ dry item (w, c) =
  let '(w', c', e) := import_item_ dry item (w, no_counts) in (w', add_counts c c', e).
Proof.
  assert (Hb : forall k1 k2 k3 : nat,
             {| total_reports := S (total_reports c);
                created_reports := k1 + created_reports c;
                skipped_reports := k2 + skipped_reports c |} =
             add_counts c {| total_reports := 1; created_reports := k1;
                             skipped_reports := k2 |}).
  { intros. unfold add_counts. simpl. f_equal; lia. }
  unfold import_item. destruct item as [| | | | | d]; try apply (f_equal2 pair);
    try (apply (f_equal2 pair); [done | apply (Hb 0%nat 0%nat 0%nat)]); try done.
  destruct (parse_ticker_region _) as [[t r] | ?];
    [| apply (f_equal2 pair); [| done]; apply (f_equal2 pair); [done |];
       apply (Hb 0%nat 0%nat 0%nat)].
  destruct (parse_timestamp _ _ _ _) as [[ts | ?] w1];
    [| apply (f_equal2 pair); [| done]; apply (f_equal2 pair); [done |];
       apply (Hb 0%nat 0%nat 0%nat)].
  destruct (build_report_defaults _ _ _) as [f | ?];
    [| apply (f_equal2 pair); [| done]; apply (f_equal2 pair); [done |];
       apply (Hb 0%nat 0%nat 0%nat)].
  destruct (resolve_eps _ _) as [rows | ?];
    [| apply (f_equal2 pair); [| done]; apply (f_equal2 pair); [done |];
       apply (Hb 0%nat 0%nat 0%nat)].
  destruct dry;
    [apply (f_equal2 pair); [| done]; apply (f_equal2 pair); [done |];
     apply (Hb 0%nat 0%nat 0%nat) |].
  destruct (write_record _ _ _ _ _ _ _ _ _ _ _) as [[[|] | ?] w2];
    (apply (f_equal2 pair); [| done]; apply (f_equal2 pair); [done |]).
  - apply (Hb 1%nat 0%nat 0%nat).
  - unfold add_counts. simpl. f_equal; lia.
  - destruct (save_defaults f); [apply (Hb 1%nat 0%nat 0%nat) | apply (Hb 0%nat 0%nat 0%nat)].
Qed.

Lemma import_items_shift dry data w c :
  import_items_ dry data (w, c) =
  let '(w', c', e) := import_items_ dry data (w, no_counts) in (w', add_counts c c', e).
Proof.
  revert w c. induction data as [| item data IH]; intros w c.
  { simpl. unfold add_counts. simpl. rewrite !Nat.add_0_r. by destruct c. }
  rewrite !import_items_cons, (import_item_shift dry item w c).
  destruct (import_item_ dry item (w, no_counts)) as [[w1 c1] [e |]]; [done |].
  rewrite (IH w1 (add_counts c c1)), (IH w1 c1).
  destruct (import_items_ dry data (w1, no_counts)) as [[w2 c2] e].
  by rewrite add_counts_assoc.
Qed.

Lemma import_files_shift dry files w c :
  import_files_ dry files (w, c) =
  let '(w', c', e) := import_files_ dry files (w, no_counts) in (w', add_counts c c', e).
Proof.
  revert w c. induction files as [| data files IH]; intros w c.
  { simpl. unfold add_counts. simpl. rewrite !Nat.add_0_r. by destruct c. }
  simpl. destruct data as [| | | | l |];
    try (unfold add_counts; simpl; rewrite !Nat.add_0_r; by destruct c).
  rewrite (import_items_shift dry l w c).
  destruct (import_items_ dry l (w, no_counts)) as [[w1 c1] [e |]]; [done |].
  rewrite (IH w1 (add_counts c c1)), (IH w1 c1).
  destruct (import_files_ dry files (w1, no_counts)) as [[w2 c2] e].
  by rewrite add_counts_assoc.
Qed.

(** Documents may be imported in one run or in several: when a run over
    the first documents ends without exception, a run over all the
    documents leaves what a second run over the others, started where the
    first ended, leaves, and its counts are the sums of the counts of the
    two. *)
Theorem runs_compose dry files1 files2 w w1 c1 :
  files2 <> [] ->
  handle Decimal strptime clock py_str dry files1 w = (w1, c1, None) ->
  handle Decimal strptime clock py_str dry (files1 ++ files2) w =
  let '(w2, c2, e) := handle Decimal strptime clock py_str dry files2 w1 in (w2, add_counts c1 c2, e).
Proof.
  intros Hne Hrun. unfold handle in *.
  destruct files1 as [| d1 fs1]; [done |].
  destruct files2 as [| d2 fs2]; [done |].
  rewrite <- app_comm_cons.
  change (d1 :: (fs1 ++ d2 :: fs2)) with ((d1 :: fs1) ++ d2 :: fs2).
  rewrite import_files_app, Hrun. apply import_files_shift.
Qed.

(** *** Runs that raise *)

Lemma write_record_raises t r ts cn cur f kt eps_rows w e w' :
  write_record clock py_str t r ts cn cur f kt eps_rows w = (Raise e, w') ->
  db w' = db w.
Proof.
  unfold write_record.
  destruct (Stock_get_or_create _ _ _ _ _ _) as [[s sc] d1].
  destruct (DailyReport_get_or_create _ _ _ _ _) as [[[rep created] | e0] w2];
    [| by intros [= _ <-]].
  destruct created; [| done]. destruct (iterate kt); [| by intros [= _ <-]].
  destruct (save_eps_rows eps_rows); [done | by intros [= _ <-]].
Qed.

(** The record at which the run raises writes nothing. *)
Lemma import_item_raises item w c w' c' e :
  import_item_ false item (w, c) = (w', c', Some e) -> db w' = db w.
Proof.
  unfold import_item. destruct item as [| | | | | d]; try (by intros [= <- _ _]).
  destruct (parse_ticker_region _) as [[t r] | ?]; [| done].
  pose proof (parse_timestamp_db strptime clock (dict_get d "Timestamp" VNull) w) as Hdb.
  destruct (parse_timestamp _ _ _ _) as [[ts | ?] w1]; simpl in Hdb; [| done].
  destruct (build_report_defaults _ _ _) as [f | ?]; [| by intros [= <- _ _]].
  destruct (resolve_eps _ _) as [rows | ?]; [| by intros [= <- _ _]].
  destruct (write_record _ _ _ _ _ _ _ _ _ _ _) as [[[|] | e'] w2] eqn:Hw; try done.
  intros [= <- _ _]. apply write_record_raises in Hw. congruence.
Qed.

Lemma import_items_raises data wc wc' e :
  import_items_ false data wc = (wc', Some e) ->
  exists items item rest wc1,
    data = items ++ item :: rest /\
    import_items_ false items wc = (wc1, None) /\ db wc'.1 = db wc1.1.
Proof.
  revert wc. induction data as [| item data IH]; intros wc; [done |].
  rewrite import_items_cons.
  destruct (import_item_ false item wc) as [wc1 [e1 |]] eqn:Hitem.
  - intros [= <- <-]. exists [], item, data, wc. split; [done |]. split; [done |].
    destruct wc as [w c], wc1 as [w1 c1]. by apply import_item_raises in Hitem.
  - intros (items & item' & rest & wc2 & -> & Hrun & Hdb)%IH.
    exists (item :: items), item', rest, wc2. split; [done |]. split; [| done].
    by rewrite import_items_cons, Hitem.
Qed.

(** A run that raises leaves in the store what the records before the one
    at which it raises wrote, each of them whole, and nothing of that
    one: the store is the store of a run, without exception, over the
    first records of the documents. *)
Theorem raising_run_keeps_whole_records files w w' c e :
  handle Decimal strptime clock py_str false files w = (w', c, Some e) ->
  exists items w1 c1,
    items `prefix_of` records files /\
    import_items Decimal strptime clock py_str false items (w, no_counts) = (w1, c1, None) /\
    db w' = db w1.
Proof.
  unfold handle. intros Hrun.
  assert (exists items wc1, items `prefix_of` records files /\
            import_items_ false items (w, no_counts) = (wc1, None) /\
            db w' = db wc1.1) as (items & [w1 c1] & ? & ? & ?);
    [| by exists items, w1, c1].
  destruct files as [| data0 files0].
  { injection Hrun as <- _ _. by exists [], (w, no_counts). }
  revert Hrun. generalize (data0 :: files0). clear data0 files0. intros files.
  change w' with (w', c).1 at 2. generalize (w', c). generalize (w, no_counts).
  clear w w' c. intros wc wc'. revert wc.
  induction files as [| data files IH]; intros wc; [done |]. simpl.
  destruct data as [| | | | l |];
    try (intros [= <- _]; exists [], wc; split; [apply prefix_nil | done]).
  unfold records. simpl. fold (records files).
  destruct (import_items_ false l wc) as [wc1 [e1 |]] eqn:Hl.
  - intros [= <- _].
    apply import_items_raises in Hl as (items & item & rest & wc2 & -> & Hitems & Hdb).
    exists items, wc2. split; [| done].
    rewrite <- app_assoc. by apply prefix_app_r.
  - intros (items & wc2 & Hpre & Hitems & Hdb)%IH.
    exists (l ++ items), wc2. split; [by apply prefix_app |]. split; [| done].
    by rewrite import_items_app, Hl.
Qed.

End Runs.

Lemma non_list_document_aborts_witness :
  handle_sample false [doc_takeaways; VDict []; doc_same_stock] world0 =
  (first_import.1, Some CommandError).
Proof.
  apply (non_list_document_aborts Decimal_sample strptime_sample clock_sample
           py_str_sample false [doc_takeaways] (VDict []) [doc_same_stock] world0).
  - done.
  - by vm_compute.
Defined.

Lemma counts_match_rows_witness :
  total_reports (handle_sample false [doc_repeated] world0).1.2 = 3%nat /\
  length (reports (db (handle_sample false [doc_repeated] world0).1.1)) =
  (0 + created_reports (handle_sample false [doc_repeated] world0).1.2)%nat.
Proof.
  destruct (counts_match_rows Decimal_sample strptime_sample clock_sample py_str_sample
              [doc_repeated] world0
              (handle_sample false [doc_repeated] world0).1.1
              (handle_sample false [doc_repeated] world0).1.2) as (Ht & _ & Hr).
  - by vm_compute.
  - split; [exact Ht | exact Hr].
Defined.

Lemma runs_compose_witness :
  handle_sample false ([doc_takeaways] ++ [doc_same_stock]) world0 =
  let '(w2, c2, e) := handle_sample false [doc_same_stock] first_import.1.1 in
  (w2, add_counts first_import.1.2 c2, e).
Proof.
  apply (runs_compose Decimal_sample strptime_sample clock_sample py_str_sample
           false [doc_takeaways] [doc_same_stock] world0).
  - done.
  - by vm_compute.
Defined.

(** ** More of the home page *)

#[local] Instance by_count_desc_ticker_total : Total by_count_desc_ticker.
Proof.
  intros a b. unfold by_count_desc_ticker.
  destruct (lt_eq_lt_dec a.2 b.2) as [[Hlt | Heq] | Hgt]; [by right; left | | by left; left].
  destruct (total String.le (ticker a.1) (ticker b.1)); [left | right]; by right.
Qed.

#[local] Instance by_count_desc_ticker_trans : Transitive by_count_desc_ticker.
Proof.
  intros a b c [Hab | [Hab Htab]] [Hbc | [Hbc Htbc]]; unfold by_count_desc_ticker.
  - left. lia.
  - left. lia.
  - left. lia.
  - right. split; [congruence | by etrans].
Qed.

Lemma StronglySorted_take {A} (R : relation A) n l :
  StronglySorted R l -> StronglySorted R (take n l).
Proof.
  intros Hs. revert n. induction Hs as [| a l Hs IH Hall]; intros n.
  - rewrite take_nil. constructor.
  - destruct n as [| n]; simpl; constructor; [apply IH |].
    rewrite Forall_forall in Hall. apply Forall_forall.
    intros x Hx. apply Hall. by apply (subseteq_take n l).
Qed.

(** In a sorted list, what the first [n] entries leave out comes after
    each of them. *)
Lemma StronglySorted_take_drop {A} (R : relation A) n l x y :
  StronglySorted R l -> x ∈ take n l -> y ∈ drop n l -> R x y.
Proof.
  intros Hs. revert n. induction Hs as [| a l Hs IH Hall]; intros n.
  - rewrite take_nil. by intros ?%elem_of_nil.
  - destruct n as [| n]; simpl; [by intros ?%elem_of_nil |].
    intros [-> | Hx]%elem_of_cons Hy; [| by apply (IH n)].
    rewrite Forall_forall in Hall. apply Hall. by apply (subseteq_drop n l).
Qed.

(** An entry of a list that its first [n] entries leave out: the list has
    more than [n] entries, and the entry is among the others. *)
Lemma elem_of_not_take {A} n (l : list A) y :
  y ∈ l -> y ∉ take n l -> length (take n l) = n /\ y ∈ drop n l.
Proof.
  intros Hy Hnot. rewrite <- (take_drop n l) in Hy.
  apply elem_of_app in Hy as [Hy | Hy]; [done |]. split; [| done].
  rewrite length_take. apply list_elem_of_lookup in Hy as [i Hi].
  apply lookup_lt_Some in Hi. rewrite length_drop in Hi. lia.
Qed.

Lemma elem_of_report_ranking start d s n :
  (s, n) ∈ report_ranking start d <->
  s ∈ stocks d /\ n = report_count start d s /\ (0 < n)%nat.
Proof.
  unfold report_ranking.
  rewrite merge_sort_Permutation, list_elem_of_filter, list_elem_of_fmap. simpl. split.
  - by intros [Hn (s' & [= -> ->] & Hs)].
  - intros (Hs & -> & Hn). split; [done |]. by exists s.
Qed.

Lemma StronglySorted_lookup_lt {A} (R : relation A) l i j a b :
  StronglySorted R l -> (i < j)%nat -> l !! i = Some a -> l !! j = Some b -> R a b.
Proof.
  intros Hs. revert i j. induction Hs as [| x l Hs IH Hall]; intros i j Hij Hi Hj.
  - by rewrite lookup_nil in Hi.
  - destruct j as [| j]; [lia |]. simpl in Hj. destruct i as [| i].
    + injection Hi as ->. rewrite Forall_forall in Hall. apply Hall.
      by eapply list_elem_of_lookup_2.
    + simpl in Hi. apply (IH i j); [lia | done | done].
Qed.

(** [most_reported] lists at most [TOP_N_MOST_REPORTED] = 10 stocks of the
    table, each with the number of its reports dated [start] or later,
    which is not zero; of two entries the earlier one has the greater
    number, or the same number and a ticker that is not the later one in
    the order of the characters; a stock with such a report that is not
    listed comes after the ten that are.  With three reports of AAA and
    one of BBB in the window, AAA comes before BBB, though BBB is the
    first row of the table; of eleven stocks with one report each, the first
    ten tickers are listed. *)
Theorem most_reported_ranking start d :
  let count s :=
    length (filter (fun r => stock r = stock_id s /\ start <= as_of_timestamp r)
                   (reports d)) in
  (length (most_reported start d) <= 10)%nat /\
  most_reported start d ⊆+ (fun s => (s, count s)) <$> stocks d /\
  (forall s n, (s, n) ∈ most_reported start d ->
     s ∈ stocks d /\ n = count s /\ (0 < n)%nat) /\
  (forall i j a b, (i < j)%nat ->
     most_reported start d !! i = Some a -> most_reported start d !! j = Some b ->
     (b.2 < a.2)%nat \/ (a.2 = b.2 /\ String.le (ticker a.1) (ticker b.1))) /\
  (forall s, s ∈ stocks d -> (0 < count s)%nat ->
     (s, count s) ∉ most_reported start d ->
     length (most_reported start d) = 10%nat /\
     forall x, x ∈ most_reported start d ->
       (count s < x.2)%nat \/ (x.2 = count s /\ String.le (ticker x.1) (ticker s))) /\
  most_reported (now_sample - days 30) db_counts = [(stock_A, 3%nat); (stock_B, 1%nat)] /\
  most_reported (now_sample - days 7) db_eleven =
    (fun i => (stock_sample i, 1%nat)) <$> seq 1 10.
Proof.
  intros count.
  assert (Hsorted : StronglySorted by_count_desc_ticker (report_ranking start d))
    by apply (StronglySorted_merge_sort by_count_desc_ticker).
  unfold most_reported, TOP_N_MOST_REPORTED.
  split; [| split; [| split; [| split; [| split; [| split]]]]].
  - rewrite length_take. lia.
  - etrans; [apply sublist_submseteq, sublist_take |]. unfold report_ranking.
    rewrite merge_sort_Permutation. apply sublist_submseteq, sublist_filter.
  - intros s n Hin. apply elem_of_report_ranking. by apply (subseteq_take 10).
  - intros i j a b Hij Hi Hj.
    by apply (StronglySorted_lookup_lt by_count_desc_ticker
                (take 10 (report_ranking start d)) i j a b (StronglySorted_take _ 10 _ Hsorted)).
  - intros s Hs Hn Hnot.
    assert ((s, count s) ∈ report_ranking start d) as Hin
      by by apply elem_of_report_ranking.
    destruct (elem_of_not_take _ _ _ Hin Hnot) as [Hlen Hdrop]. split; [done |].
    intros x Hx.
    by apply (StronglySorted_take_drop by_count_desc_ticker 10 (report_ranking start d)
                x (s, count s)).
  - by vm_compute.
  - by vm_compute.
Qed.

(** [top_upside] lists at most [TOP_N_UPSIDE] = 10 stocks, by descending
    maximum; a stock that the ranking has and the list has not has a
    maximum no greater than those of the ten that are listed. *)
Theorem top_upside_cut start d s m :
  (s, m) ∈ upside_ranking start d ->
  (s, m) ∉ top_upside start d ->
  length (top_upside start d) = 10%nat /\
  forall s' m', (s', m') ∈ top_upside start d -> (m <= m')%Q.
Proof.
  intros Hin Hnot. unfold top_upside, TOP_N_UPSIDE in *.
  destruct (elem_of_not_take _ _ _ Hin Hnot) as [Hlen Hdrop]. split; [done |].
  intros s' m' Hx.
  apply (StronglySorted_take_drop by_max_upside_desc 10 (upside_ranking start d)
           (s', m') (s, m)); [| done | done].
  apply (StronglySorted_merge_sort by_max_upside_desc).
Qed.

Lemma length_filter_impl {A} (P Q : A -> Prop) `{!forall x, Decision (P x)}
    `{!forall x, Decision (Q x)} (l : list A) :
  (forall x, P x -> Q x) -> (length (filter P l) <= length (filter Q l))%nat.
Proof.
  intros Himpl. induction l as [| a l IH]; [done |].
  rewrite !filter_cons. destruct (decide (P a)) as [Hp | Hp].
  - rewrite decide_True by auto. simpl. lia.
  - destruct (decide (Q a)); simpl; lia.
Qed.

(** A window that starts earlier ranks at least the same stocks: a stock
    has no fewer reports in it and no smaller a maximum upside, so the
    stocks ranked over 7 days are ranked over 30 days, and those counted
    over 30 days are counted over 365 days. *)
Theorem wider_window_ranks_more start start' d s :
  start' <= start ->
  (report_count start d s <= report_count start' d s)%nat /\
  (forall n, (s, n) ∈ report_ranking start d ->
     exists n', (s, n') ∈ report_ranking start' d /\ (n <= n')%nat) /\
  (forall m, (s, m) ∈ upside_ranking start d ->
     exists m', (s, m') ∈ upside_ranking start' d /\ (m <= m')%Q).
Proof.
  intros Hle.
  assert (report_count start d s <= report_count start' d s)%nat as Hcount.
  { apply length_filter_impl. intros r [Hs Hr]. split; [done | lia]. }
  split; [done |]. split.
  - intros n (Hs & -> & Hn)%elem_of_report_ranking.
    exists (report_count start' d s). split; [| done].
    apply elem_of_report_ranking. split; [done |]. split; [done | lia].
  - intros m [Hs Hm]%elem_of_upside_ranking.
    destruct (max_upside_Some _ _ _ _ Hm) as [(r & Hr & Hs' & Hts & Hu) _].
    assert (qualifies start' s r m) as Hq by (split; [done |]; split; [lia | done]).
    destruct (max_upside start' d s) as [m' |] eqn:Hm'.
    + exists m'. split; [by apply elem_of_upside_ranking |].
      by apply (proj2 (max_upside_Some _ _ _ _ Hm') r m).
    + exfalso. by apply (proj1 (max_upside_None start' d s) Hm' r m).
Qed.

(** The series of [sid]: none when the stock is not asked for. *)
Lemma lookup_price_series stocks_ start_dt d sid :
  _build_price_series stocks_ start_dt d !! sid =
  if decide (sid ∈ stock_id <$> stocks_)
  then Some (cap (point_of <$> filter (fun r => stock r = sid)
                    (price_rows (stock_id <$> stocks_) start_dt d)))
  else None.
Proof.
  unfold _build_price_series. destruct stocks_ as [| s0 rest].
  { rewrite lookup_empty. by rewrite decide_False by by intros ?%elem_of_nil. }
  rewrite lookup_fmap, lookup_foldl_append_point, lookup_empty_series.
  by destruct (decide (sid ∈ stock_id <$> s0 :: rest)).
Qed.

(** The series have one key for each stock asked for and no other; a
    series holds at most [CHART_MAX_POINTS] = 60 points, each dated
    [start_dt] or later and with a price or a price objective; a stock
    asked for that has no such report has the empty series. *)
Theorem price_series_keys stocks_ start_dt d sid :
  (is_Some (_build_price_series stocks_ start_dt d !! sid) <->
   sid ∈ stock_id <$> stocks_) /\
  (forall points, _build_price_series stocks_ start_dt d !! sid = Some points ->
     (length points <= 60)%nat /\
     Forall (fun p => start_dt <= point_t p /\
                      ~ (point_price p = None /\ point_po p = None)) points) /\
  (sid ∈ stock_id <$> stocks_ ->
   (forall r, r ∈ reports d -> ~ charted_of sid start_dt r) ->
   _build_price_series stocks_ start_dt d !! sid = Some []).
Proof.
  rewrite lookup_price_series.
  destruct (decide (sid ∈ stock_id <$> stocks_)) as [Hin | Hnot].
  - split; [| split].
    + split; [done | by eexists].
    + intros points [= <-]. split.
      * rewrite length_cap. unfold CHART_MAX_POINTS. lia.
      * apply Forall_forall. intros p Hp. rewrite cap_drop in Hp.
        apply (subseteq_drop _ _) in Hp.
        apply list_elem_of_fmap in Hp as (r & -> & Hr).
        apply list_elem_of_filter in Hr as [_ Hr]. unfold price_rows in Hr.
        rewrite merge_sort_Permutation in Hr.
        by apply list_elem_of_filter in Hr as [(_ & Hts & Hnn) _].
    + intros _ Hno. f_equal.
      assert (filter (fun r => stock r = sid)
                (price_rows (stock_id <$> stocks_) start_dt d) = []) as ->; [| done].
      apply Permutation_nil_r. rewrite (filter_price_rows _ _ _ _ Hin).
      apply Permutation_nil_r, elem_of_nil_inv.
      intros r [Hc Hr]%list_elem_of_filter. by apply (Hno r).
  - split; [| split]; [| done | done].
    split; [by intros [? ?] | done].
Qed.

(** On the home page the charted stocks are the first
    [CHART_STOCKS_COUNT] = 5 of the most reported ones: at most five, each
    with a report in the window, and the chart series have one key for
    each of them and no other. *)
Theorem charts_follow_most_reported now_ d :
  let c := get_context_data now_ d in
  ctx_chart_stocks_30d c `prefix_of` ctx_most_reported_30d c /\
  ctx_chart_stocks_365d c `prefix_of` ctx_most_reported_365d c /\
  (length (ctx_chart_stocks_30d c) <= 5)%nat /\
  (length (ctx_chart_stocks_365d c) <= 5)%nat /\
  (forall s n, (s, n) ∈ ctx_chart_stocks_30d c ->
     s ∈ stocks d /\
     exists r, r ∈ reports d /\ stock r = stock_id s /\
               now_ - days 30 <= as_of_timestamp r) /\
  (forall s n, (s, n) ∈ ctx_chart_stocks_365d c ->
     s ∈ stocks d /\
     exists r, r ∈ reports d /\ stock r = stock_id s /\
               now_ - days 365 <= as_of_timestamp r) /\
  (forall sid, is_Some (ctx_chart_series_30d c !! sid) <->
     exists s n, (s, n) ∈ ctx_chart_stocks_30d c /\ stock_id s = sid) /\
  (forall sid, is_Some (ctx_chart_series_365d c !! sid) <->
     exists s n, (s, n) ∈ ctx_chart_stocks_365d c /\ stock_id s = sid).
Proof.
  assert (Hrep : forall start s n,
             (s, n) ∈ take CHART_STOCKS_COUNT (most_reported start d) ->
             s ∈ stocks d /\
             exists r, r ∈ reports d /\ stock r = stock_id s /\ start <= as_of_timestamp r).
  { intros start s n Hin. apply (subseteq_take _ _), (subseteq_take _ _) in Hin.
    apply elem_of_report_ranking in Hin as (Hs & -> & Hn). split; [done |].
    unfold report_count in Hn.
    destruct (filter (counted start s) (reports d)) as [| r l] eqn:Hf; [simpl in Hn; lia |].
    assert (r ∈ filter (counted start s) (reports d)) as Hr by (rewrite Hf; by left).
    apply list_elem_of_filter in Hr as [[? ?] ?]. by exists r. }
  assert (Hkeys : forall start (l : list (Stock * nat)) sid,
             is_Some (_build_price_series l.*1 start d !! sid) <->
             exists s n, (s, n) ∈ l /\ stock_id s = sid).
  { intros start l sid. rewrite lookup_price_series.
    destruct (decide (sid ∈ stock_id <$> l.*1)) as [Hin | Hnot].
    - split; [intros _ | by eexists].
      apply list_elem_of_fmap in Hin as (s & -> & Hin).
      apply list_elem_of_fmap in Hin as ([s' n] & -> & Hin). by exists s', n.
    - split; [by intros [? ?] |]. intros (s & n & Hin & <-). destruct Hnot.
      apply list_elem_of_fmap. exists s. split; [done |].
      apply list_elem_of_fmap. by exists (s, n). }
  simpl. unfold CHART_STOCKS_COUNT in *.
  split; [apply prefix_take |]. split; [apply prefix_take |].
  split; [rewrite length_take; lia |]. split; [rewrite length_take; lia |].
  split; [apply Hrep |]. split; [apply Hrep |]. split; apply Hkeys.
Qed.

Lemma top_upside_cut_witness :
  length (top_upside (now_sample - days 7) db_eleven) = 10%nat /\
  forall s' m', (s', m') ∈ top_upside (now_sample - days 7) db_eleven -> (1 <= m')%Q.
Proof.
  apply (top_upside_cut (now_sample - days 7) db_eleven (stock_sample 1) 1%Q).
  - apply elem_of_upside_ranking. split; [by left | by vm_compute].
  - intros H. vm_compute in H.
    repeat (apply elem_of_cons in H as [H | H]; [discriminate H |]).
    by apply elem_of_nil in H.
Defined.

Lemma wider_window_ranks_more_witness :
  (report_count (now_sample - days 7) db_counts stock_A <=
   report_count (now_sample - days 30) db_counts stock_A)%nat.
Proof.
  apply (wider_window_ranks_more (now_sample - days 7) (now_sample - days 30)
           db_counts stock_A).
  by vm_compute.
Defined.

Lemma raising_run_keeps_whole_records_witness :
  exists items w1 c1,
    items `prefix_of`
      records [doc_takeaways; VList [VDict item_good; VDict item_bad_price]] /\
    import_items Decimal_sample strptime_sample clock_sample py_str_sample false items
      (world0, no_counts) = (w1, c1, None) /\
    db (handle_sample false
          [doc_takeaways; VList [VDict item_good; VDict item_bad_price]] world0).1.1 =
    db w1.
Proof.
  apply (raising_run_keeps_whole_records Decimal_sample strptime_sample clock_sample
           py_str_sample [doc_takeaways; VList [VDict item_good; VDict item_bad_price]]
           world0 _
           (handle_sample false
              [doc_takeaways; VList [VDict item_good; VDict item_bad_price]] world0).1.2
           InvalidOperation).
  by vm_compute.
Defined.

(** ** Reports that are in the store *)

Lemma filter_none {A} (P : A -> Prop) `{!forall x, Decision (P x)} (l : list A) :
  Forall (fun x => ~ P x) l -> filter P l = [].
Proof.
  induction 1 as [| a l Ha _ IH]; [done |].
  by rewrite filter_cons, decide_False.
Qed.

Section ImporterChildren.

Variable Decimal : string -> option Q.
Variable strptime : string -> option Z.
Variable clock : nat -> Z.
Variable py_str : value -> string.

Lemma DailyReport_get_or_create_id s ts f w r w' :
  DailyReport_get_or_create clock s ts f w = (Ok (r, true), w') ->
  report_id r = S (length (reports (db w))).
Proof.
  unfold DailyReport_get_or_create.
  destruct (list_find _ (reports (db w))) as [[k r0] |]; [done |].
  simpl. destruct (save_defaults f); intros [= <- <-]; done.
Qed.

(** The rows that a transaction adds to the two tables of children are
    rows of the report that it creates. *)
Lemma write_record_children t r ts cn cur f kt eps_rows w res w' :
  write_record clock py_str t r ts cn cur f kt eps_rows w = (res, w') ->
  exists tks eps,
    takeaways (db w') = takeaways (db w) ++ tks /\
    eps_forecasts (db w') = eps_forecasts (db w) ++ eps /\
    Forall (fun x => tk_report x = S (length (reports (db w)))) tks /\
    Forall (fun x => eps_report x = S (length (reports (db w)))) eps.
Proof.
  unfold write_record.
  destruct (Stock_get_or_create _ _ _ _ _ _) as [[s sc] d1] eqn:Hs.
  destruct (DailyReport_get_or_create _ _ _ _ _) as [[[rep created] | e] w2] eqn:Hr;
    [| intros [= <- <-]; exists [], []; by rewrite !app_nil_r].
  apply Stock_get_or_create_frame in Hs as (Hrs & Hts & Hes & _).
  pose proof (DailyReport_get_or_create_frame _ _ _ _ _ _ _ _ Hr) as (_ & Htr & Her & _).
  simpl in Htr, Her.
  destruct created.
  - apply DailyReport_get_or_create_id in Hr. simpl in Hr. rewrite Hrs in Hr.
    destruct (iterate kt) as [l |];
      [| intros [= <- <-]; exists [], []; by rewrite !app_nil_r].
    destruct (save_eps_rows eps_rows) as [saved_rows |]; intros [= <- <-]; simpl.
    + rewrite Htr, Her, Hts, Hes. eexists _, _. split; [done |]. split; [done |].
      split; apply Forall_forall; by intros x (it & -> & _)%list_elem_of_fmap.
    + exists [], []. by rewrite !app_nil_r.
  - intros [= <- <-]. exists [], []. rewrite !app_nil_r, Htr, Her, Hts, Hes. done.
Qed.

(** What a run adds to the children are rows of reports that the store did
    not have. *)
Lemma handle_children dry files w :
  let d' := db (handle Decimal strptime clock py_str dry files w).1.1 in
  reports (db w) `prefix_of` reports d' /\
  (exists tks, takeaways d' = takeaways (db w) ++ tks /\
     Forall (fun x => (length (reports (db w)) < tk_report x)%nat) tks) /\
  (exists eps, eps_forecasts d' = eps_forecasts (db w) ++ eps /\
     Forall (fun x => (length (reports (db w)) < eps_report x)%nat) eps).
Proof.
  apply (handle_preserves Decimal strptime clock py_str (fun d =>
           reports (db w) `prefix_of` reports d /\
           (exists tks, takeaways d = takeaways (db w) ++ tks /\
              Forall (fun x => (length (reports (db w)) < tk_report x)%nat) tks) /\
           (exists eps, eps_forecasts d = eps_forecasts (db w) ++ eps /\
              Forall (fun x => (length (reports (db w)) < eps_report x)%nat) eps))).
  - intros t r ts cn cur f kt eps_rows w0 res w' Hw (Hpre & (tks & Ht & Htks) & (eps & He & Heps)).
    pose proof (write_record_extends _ _ _ _ _ _ _ _ _ _ _ _ _ Hw) as (_ & Hrep & _).
    apply write_record_children in Hw as (tks' & eps' & Ht' & He' & Htks' & Heps').
    apply prefix_length in Hpre as Hlen. split; [by etrans |]. split.
    + exists (tks ++ tks'). rewrite Ht', Ht, app_assoc. split; [done |].
      apply Forall_app. split; [done |].
      eapply Forall_impl; [exact Htks' |]. simpl. intros x ->. lia.
    + exists (eps ++ eps'). rewrite He', He, app_assoc. split; [done |].
      apply Forall_app. split; [done |].
      eapply Forall_impl; [exact Heps' |]. simpl. intros x ->. lia.
  - split; [done |]. split; exists []; by rewrite app_nil_r.
Qed.

(** An import changes no report that is in the store, and gives it no
    takeaway and no EPS forecast: the rows of the three tables that belong
    to such a report are after the run what they were before it, even when
    a record of the run names the report with other values. *)
Theorem existing_reports_are_kept dry files w :
  keys_coherent (db w) ->
  reports (db w) `prefix_of`
    reports (db (handle Decimal strptime clock py_str dry files w).1.1) /\
  forall r, r ∈ reports (db w) ->
    filter (fun x => tk_report x = report_id r)
      (takeaways (db (handle Decimal strptime clock py_str dry files w).1.1)) =
    filter (fun x => tk_report x = report_id r) (takeaways (db w)) /\
    filter (fun x => eps_report x = report_id r)
      (eps_forecasts (db (handle Decimal strptime clock py_str dry files w).1.1)) =
    filter (fun x => eps_report x = report_id r) (eps_forecasts (db w)).
Proof.
  intros (_ & Hids & _).
  destruct (handle_children dry files w) as (Hpre & (tks & -> & Htks) & (eps & -> & Heps)).
  split; [done |]. intros r Hr.
  assert (report_id r <= length (reports (db w)))%nat as Hid.
  { assert (report_id r ∈ seq 1 (length (reports (db w)))) as Hin
      by (rewrite <- Hids; by apply list_elem_of_fmap_2).
    apply elem_of_seq in Hin. lia. }
  rewrite !filter_app. split.
  - rewrite (filter_none _ tks); [by rewrite app_nil_r |].
    eapply Forall_impl; [exact Htks |]. simpl. lia.
  - rewrite (filter_none _ eps); [by rewrite app_nil_r |].
    eapply Forall_impl; [exact Heps |]. simpl. lia.
Qed.

End ImporterChildren.

Lemma existing_reports_are_kept_witness :
  reports (db first_import.1.1) `prefix_of`
    reports (db (handle_sample false [doc_takeaways; doc_same_stock] first_import.1.1).1.1).
Proof.
  refine (proj1 (existing_reports_are_kept Decimal_sample strptime_sample clock_sample
                   py_str_sample false [doc_takeaways; doc_same_stock]
                   first_import.1.1 _)).
  exact (proj1 (handle_store_ok Decimal_sample strptime_sample clock_sample
                  py_str_sample false [doc_takeaways] world0 empty_store_ok)).
Defined.

